(** * RGSS Script Editor: the script bundle codec

    A shallow embedding of [modules/processes/scripts.ts] (bundle extraction,
    bundle creation, loader bundle generation, script name formatting and
    section generation) together with the file-system helpers it calls, and
    the properties of the specification proved or refuted against it. *)

From Stdlib Require Import ZArith NArith QArith Qround Lia Ascii String DecimalNat.
From Stdlib.Strings Require Import Byte.
From stdpp Require Import base option list relations gmap.

Local Open Scope N_scope.

(** ** JavaScript strings

    A JavaScript string is a sequence of UTF-16 code units.  Every string
    operation of the source ([replace], [trim], [padStart], [includes],
    [concat], [match]) works on code units, so the embedding does too. *)

Abbreviation jsstring := (list N).

(** [js s] is the JavaScript string with the (ASCII) characters of [s]. *)
Definition js (s : string) : jsstring :=
  List.map N_of_ascii (list_ascii_of_string s).

(** [String.prototype.startsWith] *)
Fixpoint startsWith (s p : jsstring) : bool :=
  match p, s with
  | [], _ => true
  | y :: p', x :: s' => (x =? y) && startsWith s' p'
  | _ :: _, [] => false
  end.

(** [String.prototype.endsWith] *)
Definition endsWith (s p : jsstring) : bool :=
  startsWith (rev s) (rev p).

(** [String.prototype.includes] *)
Fixpoint includes (s p : jsstring) : bool :=
  startsWith s p ||
  match s with
  | [] => false
  | _ :: s' => includes s' p
  end.

(** ECMAScript [WhiteSpace] and [LineTerminator] code units: what [trim]
    strips and what [\s] matches. *)
Definition isLineTerminator (c : N) : bool :=
  (c =? 10) || (c =? 13) || (c =? 0x2028) || (c =? 0x2029).

Definition isWhiteSpace (c : N) : bool :=
  (c =? 9) || (c =? 11) || (c =? 12) || (c =? 32) || (c =? 0xA0) ||
  (c =? 0x1680) || ((0x2000 <=? c) && (c <=? 0x200A)) ||
  (c =? 0x202F) || (c =? 0x205F) || (c =? 0x3000) || (c =? 0xFEFF).

Definition isTrimmable (c : N) : bool := isWhiteSpace c || isLineTerminator c.

Fixpoint dropWhile (p : N -> bool) (s : jsstring) : jsstring :=
  match s with
  | [] => []
  | c :: s' => if p c then dropWhile p s' else s
  end.

Definition trimStart (s : jsstring) : jsstring := dropWhile isTrimmable s.
Definition trimEnd (s : jsstring) : jsstring := rev (dropWhile isTrimmable (rev s)).

(** [String.prototype.trim] *)
Definition trim (s : jsstring) : jsstring := trimEnd (trimStart s).

(** [String.prototype.padStart (n, '0')] with a one-character filler. *)
Definition padStart (n : nat) (fill : N) (s : jsstring) : jsstring :=
  repeat fill (n - length s) ++ s.

(** [Number.prototype.toString] on a non-negative integer (an array index):
    its decimal digits, most significant first. *)
Fixpoint uint_units (d : Decimal.uint) : jsstring :=
  match d with
  | Decimal.Nil => []
  | Decimal.D0 d' => 48 :: uint_units d'
  | Decimal.D1 d' => 49 :: uint_units d'
  | Decimal.D2 d' => 50 :: uint_units d'
  | Decimal.D3 d' => 51 :: uint_units d'
  | Decimal.D4 d' => 52 :: uint_units d'
  | Decimal.D5 d' => 53 :: uint_units d'
  | Decimal.D6 d' => 54 :: uint_units d'
  | Decimal.D7 d' => 55 :: uint_units d'
  | Decimal.D8 d' => 56 :: uint_units d'
  | Decimal.D9 d' => 57 :: uint_units d'
  end.

Definition Number_toString (n : nat) : jsstring := uint_units (Nat.to_uint n).

Definition isDigit (c : N) : bool := (48 <=? c) && (c <=? 57).

(** ** Regular expressions

    The two regular expressions of the source are interpreted by a
    backtracking matcher that follows the ECMAScript semantics of the
    constructs they use: sequencing, greedy and lazy quantifiers, a capture
    group, character matchers and the end-of-input assertion. *)

Inductive regex : Type :=
| RChar (p : N -> bool)              (* one code unit satisfying [p] *)
| RSeq (r1 r2 : regex)               (* r1 r2 *)
| RStar (greedy : bool) (r : regex)  (* r* and r*? *)
| ROpt (greedy : bool) (r : regex)   (* r? and r?? *)
| RGroup (r : regex)                 (* ( r ), the only capture group *)
| REnd.                              (* $ without the m flag *)

(** r+ is r r* *)
Definition RPlus (greedy : bool) (r : regex) : regex := RSeq r (RStar greedy r).

(** The state of a match: the input still to read and the capture. *)
Abbreviation capture := (option (list N)).
Abbreviation cont :=
  (list N -> option (list N) -> option (list N * option (list N))).

Definition orElse {A} (a b : option A) : option A :=
  match a with Some _ => a | None => b end.

(** The loop of a quantifier [r*]: [m] matches [r] once.  An iteration that
    consumes nothing is rejected, so the length of the input bounds the
    number of iterations. *)
Fixpoint starLoop (greedy : bool)
    (m : list N -> option (list N) -> cont -> option (list N * option (list N)))
    (k : cont) (fuel : nat) (s : list N) (c : option (list N))
  : option (list N * option (list N)) :=
  let more :=
    match fuel with
    | O => None
    | S fuel' =>
        m s c (fun s' c' =>
          if (length s' <? length s)%nat then starLoop greedy m k fuel' s' c'
          else None)
    end in
  if greedy then orElse more (k s c) else orElse (k s c) more.

Fixpoint rmatch (r : regex) (s : list N) (c : option (list N)) (k : cont)
  : option (list N * option (list N)) :=
  match r with
  | RChar p =>
      match s with
      | x :: s' => if p x then k s' c else None
      | [] => None
      end
  | RSeq r1 r2 => rmatch r1 s c (fun s' c' => rmatch r2 s' c' k)
  | RStar greedy r1 => starLoop greedy (rmatch r1) k (length s) s c
  | ROpt greedy r1 =>
      let once :=
        rmatch r1 s c (fun s' c' =>
          if (length s' <? length s)%nat then k s' c' else None) in
      if greedy then orElse once (k s c) else orElse (k s c) once
  | RGroup r1 =>
      rmatch r1 s c (fun s' c' => k s' (Some (take (length s - length s') s)))
  | REnd => match s with [] => k s c | _ => None end
  end.

(** [RegExp.prototype.exec] for a regular expression without the [g] flag:
    the match is attempted at every start position, leftmost first; the
    result is the capture group of the first successful attempt. *)
Fixpoint exec (r : regex) (s : jsstring) : option capture :=
  match rmatch r s None (fun s' c' => Some (s', c')) with
  | Some (_, c) => Some c
  | None =>
      match s with
      | [] => None
      | _ :: s' => exec r s'
      end
  end.

(** Character matchers. *)
Definition lit (a : ascii) : regex := RChar (fun c => c =? N_of_ascii a).
(** A letter under the [i] flag matches both of its cases. *)
Definition lit_i (lower upper : ascii) : regex :=
  RChar (fun c => (c =? N_of_ascii lower) || (c =? N_of_ascii upper)).
Definition any : regex := RChar (fun c => negb (isLineTerminator c)).  (* . *)
Definition digit : regex := RChar isDigit.                             (* \d *)
Definition space : regex := RChar isTrimmable.                         (* \s *)

(** ** Constants of [scripts.ts] *)

Definition SCRIPTS_NOT_EXTRACTED : Z := 100.
Definition SCRIPTS_EXTRACTED : Z := 200.
Definition LOADER_BUNDLE_CREATED : Z := 300.
Definition BUNDLE_CREATED : Z := 400.
Definition LOADER_SCRIPT_SECTION : Z := 133769420.
Definition LOADER_SCRIPT_NAME : jsstring := js "RGSS Script Editor Loader".
Definition LOAD_ORDER_FILE_NAME : jsstring := js "load_order.txt".
Definition SECTION_MAX_VAL : Z := 133769420.

(** [INVALID_CHARACTERS]: the character class of the regular expression,
    which lists backslash, slash, colon, asterisk, question mark, double
    quote, less-than, greater-than, vertical bar, U+25BC and U+25A0. *)
Definition INVALID_CHARACTERS (c : N) : bool :=
  (c =? 92) || (c =? 47) || (c =? 58) || (c =? 42) || (c =? 63) ||
  (c =? 34) || (c =? 60) || (c =? 62) || (c =? 124) ||
  (c =? 0x25BC) || (c =? 0x25A0).

(** A character that [INVALID_CHARACTERS] does not match. *)
Definition validChar (c : N) : Prop := INVALID_CHARACTERS c = false.

(** [s.replace(INVALID_CHARACTERS, '')]: with the [g] flag every match of the
    one-character class is replaced by the empty string. *)
Definition replace_INVALID_CHARACTERS (s : jsstring) : jsstring :=
  List.filter (fun c => negb (INVALID_CHARACTERS c)) s.

(** [DEFORMAT_SCRIPT_NAME = /(?:\d+\s*-.*?)?(.*?)\.rb$/i] *)
Definition DEFORMAT_SCRIPT_NAME : regex :=
  RSeq (ROpt true
          (RSeq (RPlus true digit)
             (RSeq (RStar true space)
                (RSeq (lit "-") (RStar false any)))))
    (RSeq (RGroup (RStar false any))
       (RSeq (lit ".") (RSeq (lit_i "r" "R") (RSeq (lit_i "b" "B") REnd)))).

(** ** Script names and script code *)

Definition formatScriptName (scriptName : jsstring) (scriptIndex : nat) : jsstring :=
  let index := Number_toString scriptIndex in
  let name := replace_INVALID_CHARACTERS scriptName in
  let name := trim name in
  let name := padStart 4 48 index ++ js " - " ++ name in
  if negb (includes name (js ".rb")) then name ++ js ".rb" else name.

(** Modelled from the spec: [pathResolve.basename] of [utils/path_resolve],
    which is not part of the sources at hand.  The specification says that
    deformatting takes the base filename: the last component of the path,
    the separators being slash and backslash. *)
Definition isSeparator (c : N) : bool := (c =? 47) || (c =? 92).

Fixpoint basename_from (acc s : jsstring) : jsstring :=
  match s with
  | [] => acc
  | c :: s' => if isSeparator c then basename_from s' s' else basename_from acc s'
  end.

Definition basename (p : jsstring) : jsstring := basename_from p p.

Definition deformatScriptName (script : jsstring) : jsstring :=
  let baseName := basename script in
  match exec DEFORMAT_SCRIPT_NAME baseName with
  | Some m => default [] m      (* match[1] *)
  | None => baseName
  end.

Definition ENCODING_PRAGMA : jsstring := js "# encoding: utf-8".

Definition processScriptCode (scriptCode : jsstring) : jsstring :=
  if negb (includes scriptCode ENCODING_PRAGMA)
  then ENCODING_PRAGMA ++ [10] ++ scriptCode
  else scriptCode.

(** ** Values, errors and the world

    Binary data (a Node [Buffer]) is a list of bytes.  [jsvalue] is the part of
    the JavaScript values that a bundle is made of: what [marshal.dump] takes
    and [marshal.load] returns. *)

Abbreviation bytes := (list byte).

#[warnings="-register-all"]
Inductive jsvalue : Type :=
| JNull
| JNumber (n : Z)
| JString (s : list N)
| JBuffer (b : list byte)
| JArray (items : list jsvalue).

(** The calls that change the file system. *)
Inductive syscall : Type :=
| Mkdir (path : list N)
| CopyFile (source destination : list N)
| WriteFile (path : list N) (data : list byte).

Inductive error : Type :=
| NotFoundError (path : list N)  (* thrown by the module: a required file or folder is missing *)
| ENOENT (path : list N)         (* system error: no such file or directory *)
| SystemError (call : syscall)   (* the operating system refused the call *)
| MarshalError                   (* [marshal.load] rejected the bytes *)
| ZlibError                      (* [zlib.inflateSync] rejected the bytes *)
| TypeError.                     (* a loaded value has not the shape the code indexes *)

(** What a run comes to: a value, an exception, or [Unfinished] when the
    bound of the model (the supply of random numbers, the depth of the
    directory walk) is used up before the code returns. *)
Inductive result (A : Type) : Type :=
| Ok (a : A)
| Throw (e : error)
| Unfinished.
Arguments Ok {A} a.
Arguments Throw {A} e.
Arguments Unfinished {A}.

(** [new Date()]: the fields [currentDate] reads. *)
Record Date : Type := {
  getFullYear : nat;
  getMonth : nat;      (* 0 to 11 *)
  getDate : nat;
  getHours : nat;
  getMinutes : nat;
  getSeconds : nat
}.

(** The world a run starts in: regular files with their contents, directories
    with the names [readdirSync] lists for them, the calls the operating
    system refuses (permissions, a full disk), the clock, the numbers
    [Math.random] is going to return, and the log of the changing calls
    attempted so far, each with its success.  Writing a file leaves the
    listing of its directory as it is: no function of the module lists a
    directory after it has written into it. *)
Record world : Type := {
  files : gmap (list N) (list byte);
  dirs : gmap (list N) (list (list N));
  refused : syscall -> bool;
  clock : Date;
  randoms : list Q;
  trace : list (syscall * bool)
}.

Definition set_files (f : gmap (list N) (list byte)) (w : world) : world :=
  {| files := f; dirs := dirs w; refused := refused w; clock := clock w;
     randoms := randoms w; trace := trace w |}.
Definition set_dirs (d : gmap (list N) (list (list N))) (w : world) : world :=
  {| files := files w; dirs := d; refused := refused w; clock := clock w;
     randoms := randoms w; trace := trace w |}.
Definition set_randoms (r : list Q) (w : world) : world :=
  {| files := files w; dirs := dirs w; refused := refused w; clock := clock w;
     randoms := r; trace := trace w |}.
Definition log (c : syscall) (ok : bool) (w : world) : world :=
  {| files := files w; dirs := dirs w; refused := refused w; clock := clock w;
     randoms := randoms w; trace := trace w ++ [(c, ok)] |}.

(** The monad of the embedding: state passing over the world, with
    exceptions.  The world survives an exception. *)
Definition M (A : Type) : Type := world -> result A * world.

#[export] Instance M_ret : MRet M := fun A a w => (Ok a, w).
#[export] Instance M_bind : MBind M := fun A B f m w =>
  match m w with
  | (Ok a, w') => f a w'
  | (Throw e, w') => (Throw e, w')
  | (Unfinished, w') => (Unfinished, w')
  end.

Definition throw {A} (e : error) : M A := fun w => (Throw e, w).
Definition unfinished {A} : M A := fun w => (Unfinished, w).
Definition of_option {A} (e : error) (o : option A) : M A :=
  match o with Some a => mret a | None => throw e end.

(** [for] and [forEach] over an array, threading an accumulator. *)
Fixpoint foldM {A B} (f : B -> A -> M B) (b : B) (l : list A) : M B :=
  match l with
  | [] => mret b
  | a :: l' => b' ← f b a; foldM f b' l'
  end.

(** *** The [fs] module *)

Definition isFile (w : world) (p : list N) : bool := bool_decide (is_Some (files w !! p)).
Definition isDirectory (w : world) (p : list N) : bool := bool_decide (is_Some (dirs w !! p)).

Definition existsSync (p : list N) : M bool :=
  fun w => (Ok (isFile w p || isDirectory w p), w).

(** A changing call: refused by the operating system, or done. *)
Definition attempt (c : syscall) (effect : world -> world) : M unit :=
  fun w =>
    if refused w c then (Throw (SystemError c), log c false w)
    else (Ok (), log c true (effect w)).

(** [fs.mkdirSync(p, { recursive: true })].  Only [p] itself is recorded as
    created. *)
Definition mkdirSync (p : list N) : M unit :=
  attempt (Mkdir p) (fun w =>
    match dirs w !! p with
    | Some _ => w
    | None => set_dirs (<[p := []]> (dirs w)) w
    end).

Definition readFileSync (p : list N) : M (list byte) :=
  fun w => match files w !! p with
           | Some b => (Ok b, w)
           | None => (Throw (ENOENT p), w)
           end.

Definition writeFileSync (p : list N) (data : list byte) : M unit :=
  attempt (WriteFile p data) (fun w => set_files (<[p := data]> (files w)) w).

(** [fs.copyFileSync(src, dst)] with the default mode: an existing
    destination is overwritten. *)
Definition copyFileSync (src dst : list N) : M unit :=
  fun w => match files w !! src with
           | Some b =>
               attempt (CopyFile src dst)
                 (fun w => set_files (<[dst := b]> (files w)) w) w
           | None => (Throw (ENOENT src), log (CopyFile src dst) false w)
           end.

Definition readdirSync (p : list N) : M (list (list N)) :=
  fun w => match dirs w !! p with
           | Some names => (Ok names, w)
           | None => (Throw (ENOENT p), w)
           end.

(** [fs.statSync(p).isDirectory()] and [fs.statSync(p).isFile()] *)
Definition statSync_isDirectory (p : list N) : M bool :=
  fun w => if isFile w p || isDirectory w p then (Ok (isDirectory w p), w)
           else (Throw (ENOENT p), w).
Definition statSync_isFile (p : list N) : M bool :=
  fun w => if isFile w p || isDirectory w p then (Ok (isFile w p), w)
           else (Throw (ENOENT p), w).

(** [new Date()] *)
Definition newDate : M Date := fun w => (Ok (clock w), w).

(** [Math.random()]: the next number of the supply. *)
Definition Math_random : M Q :=
  fun w => match randoms w with
           | r :: rest => (Ok r, set_randoms rest w)
           | [] => (Unfinished, w)
           end.

(** *** The platform

    The libraries and the modules of the extension that are not at hand are
    parameters of the embedding: [zlib], [@hyrious/marshal], the UTF-8
    transcoding of Node, Node's [path.join] and the [path_resolve] utility
    ([basename] excepted, see above). *)
Record platform : Type := {
  (* zlib.deflateSync(data, { level: Z_BEST_COMPRESSION, finishFlush: Z_FINISH }) *)
  deflateSync : list byte -> list byte;
  (* zlib.inflateSync(data); None when it throws *)
  inflateSync : list byte -> option (list byte);
  (* marshal.dump(value, { hashStringKeysToSymbol: true }) *)
  marshal_dump : jsvalue -> list byte;
  (* marshal.load(data, { string: 'binary' }); None when it throws *)
  marshal_load : list byte -> option jsvalue;
  (* the UTF-8 bytes of a string: Buffer.from(s, 'utf8') *)
  utf8_encode : list N -> list byte;
  (* buffer.toString('utf8'), and reading a file with { encoding: 'utf8' } *)
  utf8_toString : list byte -> list N;
  (* new TextDecoder('utf8').decode(data) *)
  TextDecoder_decode : list byte -> list N;
  (* path.join(a, b) of Node *)
  path_join : list N -> list N -> list N;
  (* pathResolve.join(a, b) *)
  pathResolve_join : list N -> list N -> list N;
  (* pathResolve.extname(p) *)
  pathResolve_extname : list N -> list N;
  (* pathResolve.resolveRPG(p) *)
  pathResolve_resolveRPG : list N -> list N
}.

(** A decoded bundle row [[section, name, code]]. *)
Record script : Type := {
  section : jsvalue;
  name : list N;
  code : list N
}.

(** [scriptSection === LOADER_SCRIPT_SECTION] *)
Definition isLoaderScript (scriptSection : jsvalue) : bool :=
  match scriptSection with
  | JNumber n => (n =? LOADER_SCRIPT_SECTION)%Z
  | _ => false
  end.

(** [typeof v === 'number'] *)
Definition isNumber (v : jsvalue) : bool :=
  match v with JNumber _ => true | _ => false end.

Definition checkValidExtraction (bundle : list script) : bool :=
  existsb (fun script =>
    let scriptSection := section script in
    if isLoaderScript scriptSection then false
    else if isNumber scriptSection then true
    else false) bundle.

(** [n.toString().padStart(2, '0')] *)
Definition pad2 (n : nat) : list N := padStart 2 48 (Number_toString n).

Definition currentDate : M (list N) :=
  date ← newDate;
  let day := pad2 (getDate date) in
  let month := pad2 (getMonth date + 1) in
  let year := Number_toString (getFullYear date) in
  let hour := pad2 (getHours date) in
  let minutes := pad2 (getMinutes date) in
  let seconds := pad2 (getSeconds date) in
  mret (year ++ js "-" ++ month ++ js "-" ++ day ++ js "_" ++
        hour ++ js "." ++ minutes ++ js "." ++ seconds).

(** The Ruby source of the loader script: the template literal of
    [createScriptLoaderBundle], with its three substitutions.  [dquote] stands
    for the double quote character. *)
Definition dquote : list N := [34].

Definition loaderScript (loaderScriptsFolder : list N) : list N :=
  concat [
    js "#==============================================================================
# ** ";
    LOADER_SCRIPT_NAME;
    js "
#------------------------------------------------------------------------------
# Version: 1.1.1
# Author: SnowSzn
# Github: https://github.com/SnowSzn/
# VSCode extension: https://github.com/SnowSzn/rgss-script-editor
#------------------------------------------------------------------------------
# This script is used to load all external script files from the scripts folder
# that was created using the VSCode extension.
#
# You don't have to modify anything here, the extension automatically creates
# this script after the extraction process is done successfully.
#
# Keep in mind that you shouldn't move or rename neither the scripts folder nor
# the load order TXT file used to load the scripts, since they are used to load
# all scripts files, otherwise this script won't know where to look for scripts.
#
# If for some reason, you want to move the scripts folder to another location
# and you have already extracted the scripts to the default path, you should
# follow these steps:
#   1. Go to the VSCode extension settings and modify the scripts folder path
#     - This option ID is: 'rgss-script-editor.external.scriptsFolder'
#   This is important, since if you don't do it properly, the extension will
#   be working with the same path as before.
#
#   2. Move the folder to the desired location.
#
#   3. Change this script's target folder location.
#   You must change the location where this script will look for script files.
#   You can do this in two ways:
#     - Changing the ";
    dquote;
    js "SCRIPTS_PATH";
    dquote;
    js " value here in the ScriptLoaderConfiguration
#       module.
#     - Using the VSCode extension to re-create the script loader bundle file.
#       The command is: ";
    dquote;
    js "Create Script Loader Bundle File";
    dquote;
    js "
#
# In case you accidentally deleted the scripts folder, you can recover use the
# backup file that was created before the extraction process was initialized
# though you will lose all the progress made that you may have done.
#==============================================================================

#
# VSCode Extension configuration
#
module ScriptLoaderConfiguration
  #
  # Relative path to the scripts folder inside the game project's folder.
  #
  SCRIPTS_PATH = ";
    dquote;
    loaderScriptsFolder;
    dquote;
    js "
end

###############################################################################
#   DO NOT MODIFY ANYTHING BELOW THIS LINE IF YOU DO NOT WHAT YOU ARE DOING   #
#   DO NOT MODIFY ANYTHING BELOW THIS LINE IF YOU DO NOT WHAT YOU ARE DOING   #
#   DO NOT MODIFY ANYTHING BELOW THIS LINE IF YOU DO NOT WHAT YOU ARE DOING   #
###############################################################################

#
# Script loader
#
module ScriptLoader
  include ScriptLoaderConfiguration
  
  # Script loader error message.
  LOAD_ERROR_MSG = ";
    dquote;
    js "If you are reading this it's because something went ";
    dquote;
    js "\
  ";
    dquote;
    js "horribly wrong when loading scripts.\n\nThe game couldn't load a single ";
    dquote;
    js "\
  ";
    dquote;
    js "script file so that's why it will close after closing this message ";
    dquote;
    js "\
  ";
    dquote;
    js "instantly.\n\nCheck the load order TXT file to make sure scripts written ";
    dquote;
    js "\
  ";
    dquote;
    js "there exists!";
    dquote;
    js "
  
  # Array used to determine whether a script has been already loaded or not.
  @cache = []
  
  #
  # Loader run logic
  #
  def self.run
    # Prepares run
    log(";
    dquote;
    js "Running script loader...";
    dquote;
    js ")
    @cache.clear
    load_order_path = File.join(SCRIPTS_PATH, '";
    LOAD_ORDER_FILE_NAME;
    js "')
    log(";
    dquote;
    js "Scripts folder path is: '#{SCRIPTS_PATH}'";
    dquote;
    js ")
    log(";
    dquote;
    js "Load order file path is: '#{load_order_path}'";
    dquote;
    js ")
    log(";
    dquote;
    js "Reading load order file...";
    dquote;
    js ")
    load_order = File.read(load_order_path).split(";
    dquote;
    js "\n";
    dquote;
    js ")
    # Start load order processing
    load_order.each do |script|
      load_script(script)
    end
    # Post-load logic
    if @cache.empty?
      # Not a single script was loaded?
      raise StandardError.new(LOAD_ERROR_MSG)
    end
  end

  #
  # Loads the script.
  #
  # @param path [String] Script path
  #
  def self.load_script(path)
    # Processes path
    script = process_path(path)
    # Handles the script
    if valid_script?(script)
      log(";
    dquote;
    js "Loading script: '#{format_path(script)}'";
    dquote;
    js ")
      @cache << script
      Kernel.send(:load, script)
    elsif valid_directory?(script)
      log(";
    dquote;
    js "Valid directory detected: '#{format_path(script)}'";
    dquote;
    js ")
      Dir.entries(script).each do |entry|
        next if ['.', '..'].include?(entry)
        load_script(File.join(script, entry))
      end
    else
      log(";
    dquote;
    js "Skipping: '#{format_path(script)}' (invalid)";
    dquote;
    js ")
    end
  end

  #
  # Process the given path.
  #
  # @param path [String] Path.
  #
  # @return [String] Processed path.
  #
  def self.process_path(path)
    # Removes trailing whitespaces
    new_path = path.strip
    # Adds working directory if not present
    unless File.dirname(new_path).include?(Dir.pwd)
      new_path = File.join(Dir.pwd, SCRIPTS_PATH, new_path) 
    end
    # Returns processed path
    return new_path
  end
  
  #
  # Formats the given path for the loader logging.
  #
  # @param path [String] Path.
  #
  # @return [String] Processed path.
  #
  def self.format_path(path)
    return path.gsub(File.join(Dir.pwd, SCRIPTS_PATH) + '/', '')
  end

  #
  # Checks if the given file is a valid Ruby script file.
  #
  # @param path [String] Path.
  #
  # @return [Boolean] Script validness.
  #
  def self.valid_script?(path)
    return false if path[0] == '#'
    return false if @cache.include?(path)
    return false unless File.file?(path)
    return false unless File.extname(path).downcase == '.rb'
    return true
  end
  
  #
  # Checks if the given path is a valid directory.
  #
  # @param path [String] Path.
  #
  # @return [Boolean] Directory validness.
  #
  def self.valid_directory?(path)
    return false if path[0] == '#'
    return false unless File.directory?(path)
    return false unless Dir.entries(path).any? { |entry| valid_script?(entry) }
    return true
  end

  #
  # Checks cache validness.
  #
  # At least a script should have been loaded to ensure validness.
  #
  # @return [Boolean] Cache validness.
  #
  def self.cache?
    @cache.size > 0
  end

  #
  # Checks if the project's version is RGSS1
  #
  # @return [Boolean] Project is RGSS1.
  #
  def self.rgss1?
    File.file?(";
    dquote;
    js "Data/Scripts.rxdata";
    dquote;
    js ")
  end

  #
  # Checks if the project's version is RGSS2
  #
  # @return [Boolean] Project is RGSS2.
  #
  def self.rgss2?
    File.file?(";
    dquote;
    js "Data/Scripts.rvdata";
    dquote;
    js ")
  end
  
  #
  # Checks if the project's version is RGSS1
  #
  # @return [Boolean] Project is RGSS1.
  #
  def self.rgss3?
    File.file?(";
    dquote;
    js "Data/Scripts.rvdata2";
    dquote;
    js ")
  end
  
  #
  # Logs the message.
  #
  # Logging is deactivated in RGSS1 and RGSS2 to avoid message box spam.
  #
  # @param message [String] Message.
  #
  def self.log(message)
    print ";
    dquote;
    js "[RGSS Script Editor Loader] #{message}\n";
    dquote;
    js " if rgss3?
  end
end

# Start loader processing
ScriptLoader.run
"
  ].

(** [extname.toLowerCase() === '.rb']: no other character has [r] or [b]
    for its lower case, so the test holds for the four spellings of the
    extension. *)
Definition isRbExtension (ext : list N) : bool :=
  match ext with
  | [d; r; b] => (d =? 46) && ((r =? 114) || (r =? 82)) && ((b =? 98) || (b =? 66))
  | _ => false
  end.

(** [sections.includes(section)] *)
Definition includesSection (sections : list Z) (section : Z) : bool :=
  existsb (Z.eqb section) sections.

Section Scripts.

Context (pf : platform).

Definition decodeRow (row : jsvalue) : M script :=
  match row with
  | JArray (sec :: JBuffer n :: JBuffer c :: _) =>
      inflated ← of_option ZlibError (inflateSync pf c);
      mret {| section := sec;
              name := TextDecoder_decode pf n;
              code := utf8_toString pf inflated |}
  | _ => throw TypeError
  end.

Definition readBundleFile (bundleFile : list N) : M (list script) :=
  bundleContents ← readFileSync bundleFile;
  bundleMarshalized ← of_option MarshalError (marshal_load pf bundleContents);
  match bundleMarshalized with
  | JArray rows =>
      foldM (fun output row => r ← decodeRow row; mret (output ++ [r])) [] rows
  | _ => throw TypeError
  end.

Definition checkExtractedScripts (bundleFile : list N) : M Z :=
  bundle ← readBundleFile bundleFile;
  if checkValidExtraction bundle then mret SCRIPTS_NOT_EXTRACTED
  else mret SCRIPTS_EXTRACTED.

Definition createScriptFolder (scriptsFolderPath : list N) : M unit :=
  found ← existsSync scriptsFolderPath;
  if negb found then mkdirSync scriptsFolderPath else mret ().

(** The [for] loop of [extractScripts], from index [i] on. *)
Fixpoint extractLoop (scriptFolder : list N) (i : nat) (bundle : list script) : M unit :=
  match bundle with
  | [] => mret ()
  | script :: rest =>
      let section := section script in
      let name := formatScriptName (name script) i in
      let code := processScriptCode (code script) in
      (if isLoaderScript section then mret ()
       else
         let scriptPath := pathResolve_join pf scriptFolder name in
         writeFileSync scriptPath (utf8_encode pf code));;
      extractLoop scriptFolder (S i) rest
  end.

Definition extractScripts (bundleFile scriptFolder : list N) : M Z :=
  bundle ← readBundleFile bundleFile;
  if checkValidExtraction bundle then
    createScriptFolder scriptFolder;;
    extractLoop scriptFolder 0 bundle;;
    mret SCRIPTS_EXTRACTED
  else mret SCRIPTS_NOT_EXTRACTED.

Definition backUpFilePath (filePath backUpsFolder date : list N) : list N :=
  pathResolve_join pf backUpsFolder
    (basename filePath ++ js " - " ++ date ++ js ".bak").

Definition createBackUp (filePath backUpsFolder : list N) : M unit :=
  found ← existsSync filePath;
  if negb found then throw (NotFoundError filePath)
  else
    found ← existsSync backUpsFolder;
    (if negb found then mkdirSync backUpsFolder else mret ());;
    date ← currentDate;
    copyFileSync filePath (backUpFilePath filePath backUpsFolder date).

Definition createScriptLoaderBundle (bundleFile backUpsFolderPath scriptFolder : list N)
  : M Z :=
  createBackUp bundleFile backUpsFolderPath;;
  let loaderScriptsFolder := pathResolve_resolveRPG pf scriptFolder in
  let loaderScript := loaderScript loaderScriptsFolder in
  let bundle :=
    JArray [JArray [JNumber LOADER_SCRIPT_SECTION;
                    JString LOADER_SCRIPT_NAME;
                    JBuffer (deflateSync pf (utf8_encode pf loaderScript))]] in
  let bundleMarshalized := marshal_dump pf bundle in
  writeFileSync bundleFile bundleMarshalized;;
  mret LOADER_BUNDLE_CREATED.

Definition isRubyScript (file : list N) : M bool :=
  found ← existsSync file;
  if negb found then mret false
  else
    regular ← statSync_isFile file;
    if negb regular then mret false
    else mret (isRbExtension (pathResolve_extname pf file)).

(** [readDir] of [utils/directories]; [fuel] bounds the depth of the walk. *)
Fixpoint readDir (fuel : nat) (base : list N) (recursive : bool) : M (list (list N)) :=
  match fuel with
  | O => unfinished
  | S fuel' =>
      names ← readdirSync base;
      foldM (fun entries entry =>
               let fullPath := path_join pf base entry in
               let entries := entries ++ [fullPath] in
               isDir ← statSync_isDirectory fullPath;
               if isDir && recursive
               then sub ← readDir fuel' fullPath recursive; mret (entries ++ sub)
               else mret entries)
            [] names
  end.

(** [entries.filter(f)] for a filter that reads the file system *)
Fixpoint filterM (f : list N -> M bool) (entries : list (list N)) : M (list (list N)) :=
  match entries with
  | [] => mret []
  | e :: rest =>
      keep ← f e;
      kept ← filterM f rest;
      mret (if keep : bool then e :: kept else kept)
  end.

(** [readDirectory(base, { recursive: true }, filter)]; the walk is cut
    at the depth of the number of directories, which a tree of directories
    does not reach. *)
Definition readDirectory (base : list N) (filter : list (list N) -> M (list (list N)))
  : M (list (list N)) :=
  fun w => (entries ← readDir (S (size (dirs w))) base true; filter entries) w.

Fixpoint generateScriptSection_loop (fuel : nat) (sections : list Z) : M Z :=
  match fuel with
  | O => unfinished
  | S fuel' =>
      r ← Math_random;
      let section := Qfloor (r * inject_Z SECTION_MAX_VAL) in
      if includesSection sections section
      then generateScriptSection_loop fuel' sections
      else mret section
  end.

(** The [do ... while] loop runs as long as the supply of random numbers
    lasts. *)
Definition generateScriptSection (sections : list Z) : M Z :=
  fun w => generateScriptSection_loop (S (length (randoms w))) sections w.

(** The [for] loop of [createBundleFile]: the rows of the bundle built so
    far and the sections given out so far. *)
Definition bundleLoop (acc : list jsvalue * list Z) (script : list N)
  : M (list jsvalue * list Z) :=
  let '(bundle, sections) := acc in
  section ← generateScriptSection sections;
  contents ← readFileSync script;
  let code := utf8_toString pf contents in
  let row := JArray [JNumber section;
                     JString (deformatScriptName script);
                     JBuffer (deflateSync pf (utf8_encode pf code))] in
  mret (bundle ++ [row], sections ++ [section]).

Definition createBundleFile (scriptsFolder destination : list N) : M Z :=
  found ← existsSync scriptsFolder;
  if negb found then throw (NotFoundError scriptsFolder)
  else
    let sections := [LOADER_SCRIPT_SECTION] in
    scripts ← readDirectory scriptsFolder (filterM isRubyScript);
    '(bundle, _) ← foldM bundleLoop ([], sections) scripts;
    let bundleMarshalized := marshal_dump pf (JArray bundle) in
    writeFileSync destination bundleMarshalized;;
    mret BUNDLE_CREATED.

End Scripts.

(** *** What the embedding asks of the platform

    [marshal.load] is called with [{ string: 'binary' }]: every string of the
    loaded value comes back as the bytes it was dumped with. *)
Fixpoint binaryView (pf : platform) (v : jsvalue) : jsvalue :=
  match v with
  | JString s => JBuffer (utf8_encode pf s)
  | JArray items => JArray (List.map (binaryView pf) items)
  | _ => v
  end.

(** The contract of [zlib] and of [@hyrious/marshal]: what was deflated
    inflates to itself, and what was dumped loads as its binary view. *)
Record platform_ok (pf : platform) : Prop := {
  inflate_deflate : forall b, inflateSync pf (deflateSync pf b) = Some b;
  load_dump : forall v, marshal_load pf (marshal_dump pf v) = Some (binaryView pf v)
}.

(** ** The data model of the specification *)

(** A [ScriptEntry]: the section, the name and the text of the code. *)
Record ScriptEntry : Type := {
  entry_section : Z;
  entry_name : list N;
  entry_code : list N
}.

(** The decoded row of an entry. *)
Definition scriptOf (e : ScriptEntry) : script :=
  {| section := JNumber (entry_section e);
     name := entry_name e;
     code := entry_code e |}.

Definition isLoaderEntry (e : ScriptEntry) : bool :=
  (entry_section e =? LOADER_SCRIPT_SECTION)%Z.

(** The row [createBundleFile] and [createScriptLoaderBundle] build for an
    entry, and the bytes they write for a sequence of entries. *)
Definition rowOf (pf : platform) (e : ScriptEntry) : jsvalue :=
  JArray [JNumber (entry_section e);
          JString (entry_name e);
          JBuffer (deflateSync pf (utf8_encode pf (entry_code e)))].

Definition encodeBundle (pf : platform) (entries : list ScriptEntry) : list byte :=
  marshal_dump pf (JArray (List.map (rowOf pf) entries)).

(** The name and the code of an entry are text: strings that the UTF-8
    transcoding of the platform gives back as they were.  On Node that is
    well-formed UTF-16, and for a name no leading U+FEFF, which [TextDecoder]
    drops. *)
Definition isText (pf : platform) (e : ScriptEntry) : Prop :=
  TextDecoder_decode pf (utf8_encode pf (entry_name e)) = entry_name e /\
  utf8_toString pf (utf8_encode pf (entry_code e)) = entry_code e.

(** ** A reference platform

    One platform that meets the contract, to run the embedding on: data is
    stored behind a two-byte header rather than compressed, values are
    serialized with one tag byte each and self-delimiting numbers, text is
    transcoded one code unit at a time, and paths are joined with a slash. *)
Module Reference.

Definition byteOf (n : N) : byte := default x00 (Byte.of_N n).

Definition deflate (b : list byte) : list byte := x78 :: xda :: b.

Definition inflate (b : list byte) : option (list byte) :=
  match b with
  | h1 :: h2 :: data =>
      if Byte.eqb h1 x78 && Byte.eqb h2 xda then Some data else None
  | _ => None
  end.

(** Numbers: one byte for each binary digit, the last one marked. *)
Fixpoint dump_positive (p : positive) : list byte :=
  match p with
  | xH => [x02]
  | xO p' => x00 :: dump_positive p'
  | xI p' => x01 :: dump_positive p'
  end.

Fixpoint load_positive (l : list byte) : option (positive * list byte) :=
  match l with
  | [] => None
  | b :: rest =>
      if Byte.eqb b x02 then Some (xH, rest)
      else if Byte.eqb b x00 then
        match load_positive rest with
        | Some (p, rest') => Some (xO p, rest')
        | None => None
        end
      else if Byte.eqb b x01 then
        match load_positive rest with
        | Some (p, rest') => Some (xI p, rest')
        | None => None
        end
      else None
  end.

Definition dump_nat (n : nat) : list byte :=
  match N.of_nat n with
  | N0 => [x03]
  | Npos p => dump_positive p
  end.

Definition load_nat (l : list byte) : option (nat * list byte) :=
  match l with
  | [] => None
  | b :: rest =>
      if Byte.eqb b x03 then Some (O, rest)
      else match load_positive l with
           | Some (p, rest') => Some (Pos.to_nat p, rest')
           | None => None
           end
  end.

Definition dump_Z (z : Z) : list byte :=
  match z with
  | Z0 => [x00]
  | Zpos p => x01 :: dump_positive p
  | Zneg p => x02 :: dump_positive p
  end.

Definition load_Z (l : list byte) : option (Z * list byte) :=
  match l with
  | [] => None
  | b :: rest =>
      if Byte.eqb b x00 then Some (Z0, rest)
      else if Byte.eqb b x01 then
        match load_positive rest with
        | Some (p, rest') => Some (Zpos p, rest')
        | None => None
        end
      else if Byte.eqb b x02 then
        match load_positive rest with
        | Some (p, rest') => Some (Zneg p, rest')
        | None => None
        end
      else None
  end.

(** Text: UTF-8 over the Basic Multilingual Plane, one code unit at a time. *)
Definition encodeUnit (u : N) : list byte :=
  if u <? 0x80 then [byteOf u]
  else if u <? 0x800 then [byteOf (0xC0 + u / 64); byteOf (0x80 + u mod 64)]
  else [byteOf (0xE0 + u / 4096); byteOf (0x80 + (u / 64) mod 64);
        byteOf (0x80 + u mod 64)].

Definition encode (s : list N) : list byte := concat (List.map encodeUnit s).

Fixpoint toString (b : list byte) : list N :=
  match b with
  | [] => []
  | b1 :: rest =>
      let n1 := Byte.to_N b1 in
      if n1 <? 0x80 then n1 :: toString rest
      else if (0xC0 <=? n1) && (n1 <? 0xE0) then
        match rest with
        | b2 :: rest2 =>
            ((n1 - 0xC0) * 64 + (Byte.to_N b2 - 0x80)) :: toString rest2
        | [] => [0xFFFD]
        end
      else if (0xE0 <=? n1) && (n1 <? 0xF0) then
        match rest with
        | b2 :: b3 :: rest3 =>
            ((n1 - 0xE0) * 4096 + (Byte.to_N b2 - 0x80) * 64 +
             (Byte.to_N b3 - 0x80)) :: toString rest3
        | _ => [0xFFFD]
        end
      else 0xFFFD :: toString rest
  end.

(** [TextDecoder] drops a leading byte order mark. *)
Definition decode (b : list byte) : list N :=
  match toString b with
  | 0xFEFF :: s => s
  | s => s
  end.

(** Values: a tag byte, then the number, or the length and the bytes, or the
    length and the items. *)
Fixpoint dump (v : jsvalue) : list byte :=
  match v with
  | JNull => [x30]
  | JNumber z => x69 :: dump_Z z
  | JString s => x22 :: dump_nat (length (encode s)) ++ encode s
  | JBuffer b => x22 :: dump_nat (length b) ++ b
  | JArray items => x5b :: dump_nat (length items) ++ concat (List.map dump items)
  end.

Fixpoint load_value (fuel : nat) (l : list byte) : option (jsvalue * list byte) :=
  match fuel with
  | O => None
  | S fuel' =>
      match l with
      | [] => None
      | tag :: rest =>
          if Byte.eqb tag x30 then Some (JNull, rest)
          else if Byte.eqb tag x69 then
            match load_Z rest with
            | Some (z, rest') => Some (JNumber z, rest')
            | None => None
            end
          else if Byte.eqb tag x22 then
            match load_nat rest with
            | Some (n, rest') =>
                if (n <=? length rest')%nat
                then Some (JBuffer (take n rest'), drop n rest')
                else None
            | None => None
            end
          else if Byte.eqb tag x5b then
            match load_nat rest with
            | Some (n, rest') =>
                match
                  (fix load_items (n : nat) (l : list byte) {struct n}
                     : option (list jsvalue * list byte) :=
                     match n with
                     | O => Some ([], l)
                     | S n' =>
                         match load_value fuel' l with
                         | Some (v, l') =>
                             match load_items n' l' with
                             | Some (vs, l'') => Some (v :: vs, l'')
                             | None => None
                             end
                         | None => None
                         end
                     end) n rest'
                with
                | Some (items, rest'') => Some (JArray items, rest'')
                | None => None
                end
            | None => None
            end
          else None
      end
  end.

(** The whole input is one value. *)
Definition load (l : list byte) : option jsvalue :=
  match load_value (S (length l)) l with
  | Some (v, []) => Some v
  | _ => None
  end.

Definition join (a b : list N) : list N := a ++ js "/" ++ b.

(** The extension of a path: from the last dot of its base name on. *)
Fixpoint extname_from (ext s : list N) : list N :=
  match s with
  | [] => ext
  | c :: s' => if c =? 46 then extname_from s s' else extname_from ext s'
  end.

Definition extname (p : list N) : list N :=
  match basename p with
  | [] => []
  | _ :: s => extname_from [] s
  end.

Definition pf : platform := {|
  deflateSync := deflate;
  inflateSync := inflate;
  marshal_dump := dump;
  marshal_load := load;
  utf8_encode := encode;
  utf8_toString := toString;
  TextDecoder_decode := decode;
  path_join := join;
  pathResolve_join := join;
  pathResolve_extname := extname;
  pathResolve_resolveRPG := fun p => p
|}.

End Reference.

(** ** The vocabulary of the properties *)

(** An action that leaves the world as it found it. *)
Definition readOnly {A} (m : M A) : Prop :=
  forall w r w', m w = (r, w') -> w' = w.

(** The depth of a value: the fuel [Reference.load_value] needs for it. *)
Fixpoint depth (v : jsvalue) : nat :=
  match v with
  | JArray items => S (fold_right Nat.max O (List.map depth items))
  | _ => 1
  end.

(** The digits a string starts with, their value, and so the number a file
    name starts with. *)
Fixpoint takeDigits (s : list N) : list N :=
  match s with
  | c :: s' => if isDigit c then c :: takeDigits s' else []
  | [] => []
  end.

Definition digitsValue (ds : list N) : nat :=
  fold_left (fun acc c => (10 * acc + N.to_nat (c - 48))%nat) ds O.

Definition leadingIndex (s : list N) : nat := digitsValue (takeDigits s).

(** The files written with success, read off a log. *)
Fixpoint writtenFiles (evs : list (syscall * bool)) : list (list N * list byte) :=
  match evs with
  | [] => []
  | (WriteFile p d, true) :: evs' => (p, d) :: writtenFiles evs'
  | _ :: evs' => writtenFiles evs'
  end.

(** The world after a successful [writeFileSync], and after several. *)
Definition applyWrite (w : world) (f : list N * list byte) : world :=
  log (WriteFile f.1 f.2) true (set_files (<[f.1 := f.2]> (files w)) w).

Definition applyWrites (fs : list (list N * list byte)) (w : world) : world :=
  fold_left applyWrite fs w.

(** A log entry that is an attempt to write [file]. *)
Definition isWrite (file : list N) (ev : syscall * bool) : Prop :=
  exists data ok, ev = (WriteFile file data, ok).

(** The text [currentDate] makes of a date. *)
Definition dateText (date : Date) : list N :=
  Number_toString (getFullYear date) ++ js "-" ++ pad2 (getMonth date + 1) ++
  js "-" ++ pad2 (getDate date) ++ js "_" ++ pad2 (getHours date) ++ js "." ++
  pad2 (getMinutes date) ++ js "." ++ pad2 (getSeconds date).

(** [Math.floor(r * SECTION_MAX_VAL)] *)
Definition sectionOf (r : Q) : Z := Qfloor (r * inject_Z SECTION_MAX_VAL).

(** The first number of the supply that gives a section not in the list, and
    the supply left after it. *)
Fixpoint firstFresh (sections : list Z) (supply : list Q) : option (Z * list Q) :=
  match supply with
  | [] => None
  | r :: rest =>
      if includesSection sections (sectionOf r) then firstFresh sections rest
      else Some (sectionOf r, rest)
  end.

Section Vocabulary.

Context (pf : platform).

(** The file [extractScripts] writes for the entry at position [j]. *)
Definition fileOf (scriptFolder : list N) (je : nat * ScriptEntry) : list N * list byte :=
  (pathResolve_join pf scriptFolder (formatScriptName (entry_name je.2) je.1),
   utf8_encode pf (processScriptCode (entry_code je.2))).

(** The entries to extract, each with its position in the bundle, the first
    position being [i]. *)
Definition toExtract (i : nat) (entries : list ScriptEntry) : list (nat * ScriptEntry) :=
  List.filter (fun je => negb (isLoaderEntry je.2))
    (combine (seq i (length entries)) entries).

(** The loader entry the generator writes. *)
Definition loaderEntryFor (scriptFolder : list N) : ScriptEntry :=
  {| entry_section := LOADER_SCRIPT_SECTION;
     entry_name := LOADER_SCRIPT_NAME;
     entry_code := loaderScript (pathResolve_resolveRPG pf scriptFolder) |}.

(** Where the backup of [file] goes in world [w]. *)
Definition backUpPath (file backUpsFolder : list N) (w : world) : list N :=
  backUpFilePath pf file backUpsFolder (dateText (clock w)).

(** The entry [createBundleFile] makes of a script file. *)
Definition entryOfScript (script : list N) (section : Z) (contents : list byte)
  : ScriptEntry :=
  {| entry_section := section;
     entry_name := deformatScriptName script;
     entry_code := utf8_toString pf contents |}.

(** [e] is the entry of [script] in world [w]: named after the file, with
    the text of the file for its code. *)
Definition builtFrom (w : world) (script : list N) (e : ScriptEntry) : Prop :=
  exists contents,
    files w !! script = Some contents /\
    e = entryOfScript script (entry_section e) contents.

End Vocabulary.

(** ** Sample worlds *)

Definition sampleDate : Date :=
  {| getFullYear := 2024; getMonth := 0; getDate := 5;
     getHours := 9; getMinutes := 3; getSeconds := 7 |}.

Definition emptyWorld : world :=
  {| files := ∅; dirs := ∅; refused := fun _ => false; clock := sampleDate;
     randoms := []; trace := [] |}.

Definition mainEntry : ScriptEntry :=
  {| entry_section := 7; entry_name := js "Main"; entry_code := js "puts 1" |}.
Definition utilEntry : ScriptEntry :=
  {| entry_section := 12; entry_name := js "Util"; entry_code := js "puts 2" |}.
Definition loaderEntry : ScriptEntry :=
  {| entry_section := LOADER_SCRIPT_SECTION; entry_name := LOADER_SCRIPT_NAME;
     entry_code := js "ScriptLoader.run" |}.

Definition bundlePath : list N := js "Data/Scripts.rvdata2".

Definition worldWith (entries : list ScriptEntry) : world :=
  set_files {[ bundlePath := encodeBundle Reference.pf entries ]} emptyWorld.

(** The world after a first run of the generator on a bundle of two scripts,
    and the backup this run has made.  The clock stands still: a second run
    falls into the same second. *)
Definition afterFirstRun : world :=
  snd (createScriptLoaderBundle Reference.pf bundlePath (js "Backups") (js "Scripts")
         (worldWith [mainEntry; utilEntry])).

Definition earlierBackUp : list N := js "Backups/Scripts.rvdata2 - 2024-01-05_09.03.07.bak".

(** A scripts folder with one script file, and one random number at hand. *)
Definition scriptsWorld : world :=
  {| files := {[ js "Scripts/Main.rb" := Reference.encode (js "puts 1") ]};
     dirs := {[ js "Scripts" := [js "Main.rb"] ]};
     refused := fun _ => false;
     clock := sampleDate;
     randoms := [1 # 2]%Q;
     trace := [] |}.

(** ** More vocabulary *)

(** A plain stem, the name of a script file without its extension: neither
    a separator nor a line terminator is in it, and it does not start with a
    digit. *)
Definition plainStem (stem : list N) : Prop :=
  Forall (fun c => isSeparator c = false) stem /\
  Forall (fun c => isLineTerminator c = false) stem /\
  match stem with d :: _ => isDigit d = false | [] => True end.




(** The rows [extractScripts] writes, each with its position in the bundle,
    from position [i] on: those whose section is not the number of the
    loader.  And the file written for a row. *)
Definition rowsToWrite (i : nat) (bundle : list script) : list (nat * script) :=
  List.filter (fun jr => negb (isLoaderScript (section jr.2)))
    (combine (seq i (length bundle)) bundle).

Definition fileOfRow (pf : platform) (scriptFolder : list N) (jr : nat * script)
  : list N * list byte :=
  (pathResolve_join pf scriptFolder (formatScriptName (name jr.2) jr.1),
   utf8_encode pf (processScriptCode (code jr.2))).

(** * The other functions of the modules *)

(** ** More of [fs] and of [path]

    [fs.copyFileSync(src, dst, fs.constants.COPYFILE_EXCL)]: the source is
    opened first, and the copy fails when the destination exists. *)
Definition copyFileSync_EXCL (src dst : list N) : M unit :=
  fun w => match files w !! src with
           | Some _ =>
               if isFile w dst || isDirectory w dst
               then (Throw (SystemError (CopyFile src dst)), log (CopyFile src dst) false w)
               else copyFileSync src dst w
           | None => (Throw (ENOENT src), log (CopyFile src dst) false w)
           end.

(** [fs.mkdirSync(p, { recursive })].  Without the flag the call fails on a
    path that exists and on a path whose parent folder, [parent], does
    not. *)
Definition mkdirSync_options (parent p : list N) (recursive : bool) : M unit :=
  if recursive then mkdirSync p
  else fun w =>
    if isFile w p || isDirectory w p
    then (Throw (SystemError (Mkdir p)), log (Mkdir p) false w)
    else if isDirectory w parent then mkdirSync p w
    else (Throw (ENOENT p), log (Mkdir p) false w).

(** [fs.openSync(p, 'w')], [fs.writeSync(fd, text)] and [fs.closeSync(fd)].
    The file is created or cut to nothing when it is opened.  The one
    descriptor the module opens is written from start to end and closed, so
    it is modelled by the path it was opened on, and a write through it puts
    the bytes at the end of the file. *)
Definition openSync_w (p : list N) : M (list N) :=
  attempt (WriteFile p []) (fun w => set_files (<[p := []]> (files w)) w);;
  mret p.

Definition writeSync (fd : list N) (data : list byte) : M unit :=
  fun w =>
    let held := default [] (files w !! fd) ++ data in
    attempt (WriteFile fd held) (fun w => set_files (<[fd := held]> (files w)) w) w.

Definition closeSync (fd : list N) : M unit := mret ().

(** What the modules use of Node besides the functions of [platform]:
    [path.dirname], [path.relative] and [path.extname] (the later version of
    [utils/directories] calls their namesakes of [utils/path_resolve]), and
    [fs.writeFileSync] with a flag that is given. *)
Record node : Type := {
  path_dirname : list N -> list N;
  path_relative : list N -> list N -> list N;
  path_extname : list N -> list N;
  writeFileSync_flag : list N -> list N -> list byte -> M unit
}.

(** ** [utils/directories] *)

Module Directories.

(** The options of the module, [ReadOptions] and [WriteOptions] at once: a
    flag that is absent counts as [false] in every test the module makes, and
    no options at all are [noOptions]. *)
Record Options : Type := {
  recursive : bool;
  flag : option (list N);
  relative : bool;
  overwrite : bool
}.

Definition noOptions : Options :=
  {| recursive := false; flag := None; relative := false; overwrite := false |}.

(** An argument of type [string | undefined | null]. *)
Inductive entry : Type :=
| undefined
| null
| path (p : list N).

Section Functions.

Context (pf : platform) (nd : node).

Definition isFolder (folder : list N) : M bool :=
  found ← existsSync folder;
  if negb found then mret false
  else statSync_isDirectory folder.

Definition isFile (file : list N) : M bool :=
  found ← existsSync file;
  if negb found then mret false
  else statSync_isFile file.

Definition isRubyFile (file : list N) : M bool :=
  regular ← isFile file;
  if negb regular then mret false
  else mret (isRbExtension (path_extname nd file)).

(** [exists]: an entry that is [undefined], [null] or the empty string is
    falsy. *)
Definition exists_ (e : entry) : M bool :=
  match e with
  | path (c :: p) => existsSync (c :: p)
  | _ => mret false
  end.

Definition createFolder (folderPath : list N) (options : Options) : M unit :=
  found ← existsSync folderPath;
  if negb found
  then mkdirSync_options (path_dirname nd folderPath) folderPath (recursive options)
  else mret ().

Definition copyFile (source destination : list N) (options : Options) : M unit :=
  let destinationPath := path_dirname nd destination in
  found ← existsSync destinationPath;
  (if negb found && recursive options
   then createFolder destinationPath options
   else mret ());;
  if overwrite options then copyFileSync source destination
  else copyFileSync_EXCL source destination.

(** [readTextFile(file, process)]; without a callback the contents are
    returned as they are: [process] is the identity. *)
Definition readTextFile {T} (file : list N) (process : list N -> T) : M T :=
  fileContents ← readFileSync file;
  mret (process (utf8_toString pf fileContents)).

Definition writeTextFile (file contents : list N) (options : Options) : M unit :=
  let dir := path_dirname nd file in
  (if recursive options
   then createFolder dir {| recursive := true; flag := None;
                            relative := false; overwrite := false |}
   else mret ());;
  match flag options with
  | None => writeFileSync file (utf8_encode pf contents)
  | Some f => writeFileSync_flag nd f file (utf8_encode pf contents)
  end.

(** [readDirectory(base, options, filter)] with all its options; the walk
    is [readDir], bounded as above. *)
Definition readDirectory (base : list N) (options : Options)
    (filter : option (list (list N) -> M (list (list N)))) : M (list (list N)) :=
  fun w =>
    (entries ← readDir pf (S (size (dirs w))) base (recursive options);
     let entries :=
       if relative options then List.map (path_relative nd base) entries
       else entries in
     match filter with
     | Some f => f entries
     | None => mret entries
     end) w.

End Functions.

End Directories.

(** ** [scripts.ts]: the load order and the folders of scripts *)

(** The functions of [scripts.ts] with their optional parameter. *)
Module Optional.

(** [isRubyScript(file, base)]: a base that is absent or empty is falsy. *)
Definition isRubyScript (pf : platform) (file : list N) (base : option (list N))
  : M bool :=
  let path :=
    match base with
    | Some (c :: b) => pathResolve_join pf (c :: b) file
    | _ => file
    end in
  isRubyScript pf path.

End Optional.

Section LoadOrder.

Context (pf : platform) (nd : node).

Definition isRubyFolder (folder : list N) (base : option (list N)) : M bool :=
  let path :=
    match base with
    | Some (c :: b) => pathResolve_join pf (c :: b) folder
    | _ => folder
    end in
  found ← existsSync path;
  if negb found then mret false
  else
    isDir ← statSync_isDirectory path;
    if negb isDir then mret false
    else
      rubyScripts ← Directories.readDirectory pf nd path
        {| Directories.recursive := false; Directories.flag := None;
           Directories.relative := false; Directories.overwrite := false |}
        (Some (filterM (fun entry => Optional.isRubyScript pf entry None)));
      if (length rubyScripts <=? 0)%nat then mret false
      else mret true.

Definition createLoadOrderFile (scriptsFolder : list N) : M (list N) :=
  let loadOrderPath := pathResolve_join pf scriptsFolder LOAD_ORDER_FILE_NAME in
  scripts ← Directories.readDirectory pf nd scriptsFolder
    {| Directories.recursive := true; Directories.flag := None;
       Directories.relative := true; Directories.overwrite := false |}
    (Some (filterM (fun entry => Optional.isRubyScript pf entry (Some scriptsFolder))));
  file ← openSync_w loadOrderPath;
  foldM (fun (_ : unit) script =>
           let scriptRelative := pathResolve_resolveRPG pf script in
           writeSync file (utf8_encode pf (scriptRelative ++ [10])))
        () scripts;;
  closeSync file;;
  mret loadOrderPath.

End LoadOrder.

(** *** Folders below folders *)

(** [c] is a folder that the listing of the folder [d] names. *)
Definition subfolder (pf : platform) (w : world) (d c : list N) : Prop :=
  exists names n,
    dirs w !! d = Some names /\ n ∈ names /\ c = path_join pf d n /\
    isDirectory w c = true.

(** A descent from [d]: every folder is a subfolder of the one before it. *)
Fixpoint descends (pf : platform) (w : world) (d : list N) (chain : list (list N))
  : Prop :=
  match chain with
  | [] => True
  | c :: rest => subfolder pf w d c /\ descends pf w c rest
  end.

(** No folder is below itself: the folders are trees, no link leads back
    up. *)
Definition acyclic (pf : platform) (w : world) : Prop :=
  forall d, ~ tc (subfolder pf w) d d.

(** The entries of a listing are there, as files or as folders. *)
Definition listed (pf : platform) (w : world) (base : list N) (names : list (list N))
  : Prop :=
  Forall (fun n => isFile w (path_join pf base n)
                   || isDirectory w (path_join pf base n) = true) names.

(** The lines of a load order file. *)
Definition loadOrderLines (pf : platform) (scripts : list (list N)) : list byte :=
  concat (List.map (fun script =>
                      utf8_encode pf (pathResolve_resolveRPG pf script ++ [10]))
            scripts).

(** ** The logger and the removal of files

    [fs.unlinkSync] and the console are not in the world of the bundle
    functions.  The functions that use them run in a session: the world, the
    files the system refuses to remove, the lines written to the console, and
    the configuration the logger holds. *)

(** The members of [Configuration] the logger calls, with their answers; no
    method of the logger changes them. *)
Record Configuration : Type := {
  isValid : bool;
  configLogFile : bool;
  configLogConsole : bool;
  logFilePath : option (list N)   (* the [fsPath] of [logFilePath], when it is defined *)
}.

Record session : Type := {
  disk : world;
  locked : list N -> bool;
  stdout : list (list N);          (* the arguments of [console.log] *)
  stderr : list (list N);          (* the arguments of [console.error] *)
  _config : option Configuration   (* the field of the logger *)
}.

Inductive exception : Type :=
| Thrown (e : error)               (* an error of the bundle functions *)
| UnlinkError (path : list N)      (* [unlinkSync] failed: a folder, a locked or a missing file *)
| UndefinedError                   (* a property of [undefined] was read *)
| OutOfBound.                      (* the bound of the model was used up *)

Inductive outcome (A : Type) : Type :=
| Returned (a : A)
| Raised (e : exception).
Arguments Returned {A} a.
Arguments Raised {A} e.

Definition L (A : Type) : Type := session -> outcome A * session.

#[export] Instance L_ret : MRet L := fun A a s => (Returned a, s).
#[export] Instance L_bind : MBind L := fun A B f m s =>
  match m s with
  | (Returned a, s') => f a s'
  | (Raised e, s') => (Raised e, s')
  end.

Definition raise {A} (e : exception) : L A := fun s => (Raised e, s).

Definition set_disk (w : world) (s : session) : session :=
  {| disk := w; locked := locked s; stdout := stdout s; stderr := stderr s;
     _config := _config s |}.

Definition set_config (c : option Configuration) : L unit :=
  fun s => (Returned (),
            {| disk := disk s; locked := locked s; stdout := stdout s;
               stderr := stderr s; _config := c |}).

Definition get_config : L (option Configuration) := fun s => (Returned (_config s), s).

(** A function of the world, run in a session. *)
Definition onDisk {A} (m : M A) : L A :=
  fun s => match m (disk s) with
           | (Ok a, w) => (Returned a, set_disk w s)
           | (Throw e, w) => (Raised (Thrown e), set_disk w s)
           | (Unfinished, w) => (Raised OutOfBound, set_disk w s)
           end.

(** [fs.unlinkSync(p)]: a regular file that is not locked is removed. *)
Definition unlinkSync (p : list N) : L unit :=
  fun s =>
    if isFile (disk s) p && negb (isDirectory (disk s) p) && negb (locked s p)
    then (Returned (), set_disk (set_files (delete p (files (disk s))) (disk s)) s)
    else (Raised (UnlinkError p), s).

(** [fs.writeFileSync(p, data, { flag: 'a' })]: the data goes to the end of
    the file, which is created when it is missing. *)
Definition appendFileSync (p : list N) (data : list byte) : M unit :=
  fun w =>
    let held := default [] (files w !! p) ++ data in
    attempt (WriteFile p held) (fun w => set_files (<[p := held]> (files w)) w) w.

Definition console_log (msg : list N) : L unit :=
  fun s => (Returned (),
            {| disk := disk s; locked := locked s; stdout := stdout s ++ [msg];
               stderr := stderr s; _config := _config s |}).

Definition console_error (msg : list N) : L unit :=
  fun s => (Returned (),
            {| disk := disk s; locked := locked s; stdout := stdout s;
               stderr := stderr s ++ [msg]; _config := _config s |}).

(** [remove] of [utils/directories] *)
Definition remove (item : list N) : L bool :=
  regular ← onDisk (Directories.isFile item);
  found ← (if regular : bool then mret true else onDisk (Directories.isFolder item));
  if found : bool then unlinkSync item;; mret true
  else mret false.

(** What [logErrorUnknown] is given: a string, an [Error] with its name, its
    message and its stack, which may be undefined, or any other value. *)
Inductive unknown : Type :=
| AString (s : list N)
| AnError (name message : list N) (stack : option (list N))
| Other.

(** The line the logger makes of a message. *)
Definition logLine (message : list N) : list N :=
  js "[RGSS Script Editor] " ++ (message ++ [10]).

(** A sequence of calls, one for each element. *)
Fixpoint forEach {A} (f : A -> L unit) (l : list A) : L unit :=
  match l with
  | [] => mret ()
  | a :: rest => f a;; forEach f rest
  end.

Module Logger.

Definition FORCE_CONSOLE_LOG : bool := true.

Section Methods.

Context (pf : platform).

Definition deleteLogFile : L unit :=
  config ← get_config;
  match config ≫= logFilePath with
  | Some logFilePath =>
      found ← onDisk (existsSync logFilePath);
      if found : bool then unlinkSync logFilePath else mret ()
  | None => mret ()
  end.

Definition update (config : Configuration) : L unit :=
  if isValid config then
    set_config (Some config);;
    if configLogFile config then deleteLogFile else mret ()
  else set_config None.

Definition log (message : list N) (errorConsole : bool) : L unit :=
  held ← get_config;
  match held with
  | Some config =>
      let msg := js "[RGSS Script Editor] " ++ (message ++ [10]) in
      (if configLogConsole config || FORCE_CONSOLE_LOG
       then (if errorConsole then console_error msg else console_log msg)
       else mret ());;
      if configLogFile config then
        match logFilePath config with
        | Some logFilePath => onDisk (appendFileSync logFilePath (utf8_encode pf msg))
        | None => raise UndefinedError
        end
      else mret ()
  | None => mret ()
  end.

Definition logInfo (message : list N) : L unit :=
  log (js "INFO: " ++ message) false.

Definition logWarning (message : list N) : L unit :=
  log (js "WARNING: " ++ message) false.

Definition logError (message : list N) : L unit :=
  log (js "ERROR: " ++ message) true.

Definition logErrorUnknown (error : unknown) : L unit :=
  match error with
  | AString s => logError s
  | AnError name message stack =>
      logError (js "[" ++ name ++ js "] " ++ message ++ js " at: " ++
                default (js "undefined") stack)
  | Other => mret ()
  end.

End Methods.

End Logger.

(** ** A reference for the rest of Node *)

Module ReferenceNode.

(** The folder of a path: what is before its last slash. *)
Definition dirname (p : list N) : list N :=
  match dropWhile (fun c => negb (c =? 47)) (rev p) with
  | [] => js "."
  | [_] => js "/"
  | _ :: r => rev r
  end.

(** A path below [base], told from [base]. *)
Definition relative (base p : list N) : list N :=
  if startsWith p (base ++ js "/") then drop (S (length base)) p else p.

(** The flag [a] appends; any other flag is taken for [w]. *)
Definition writeWithFlag (f p : list N) (data : list byte) : M unit :=
  if bool_decide (f = js "a") then appendFileSync p data else writeFileSync p data.

Definition nd : node := {|
  path_dirname := dirname;
  path_relative := relative;
  path_extname := Reference.extname;
  writeFileSync_flag := writeWithFlag
|}.

End ReferenceNode.

(** ** More sample worlds *)

(** A bundle whose first row has no number for its section. *)
Definition oddWorld : world :=
  set_files
    {[ bundlePath :=
         Reference.dump
           (JArray [JArray [JNull; JString (js "Notes");
                            JBuffer (Reference.deflate (Reference.encode (js "puts 0")))];
                    rowOf Reference.pf mainEntry]) ]}
    emptyWorld.

(** A disk on which one file cannot be written: the file of the second
    script of the sample bundle. *)
Definition fullDisk : world :=
  {| files := {[ bundlePath := encodeBundle Reference.pf [mainEntry; utilEntry] ]};
     dirs := ∅;
     refused := fun c =>
       match c with
       | WriteFile p _ => bool_decide (p = js "Scripts/0001 - Util.rb")
       | _ => false
       end;
     clock := sampleDate;
     randoms := [];
     trace := [] |}.

(** A scripts folder without entries. *)
Definition emptyFolderWorld : world :=
  set_dirs {[ js "Scripts" := [] ]} emptyWorld.


(** A project: a scripts folder with two scripts, a text file and a folder
    that holds a third script. *)
Definition projectWorld : world :=
  {| files := {[ js "Scripts/0000 - Main.rb" := Reference.encode (js "puts 1");
                 js "Scripts/notes.txt" := Reference.encode (js "to do");
                 js "Scripts/0001 - Util.RB" := Reference.encode (js "puts 2");
                 js "Scripts/Battle/0002 - Actor.rb" := Reference.encode (js "puts 3");
                 js "Game.ini" := [] ]};
     dirs := {[ js "." := [js "Scripts"; js "Game.ini"];
                js "Scripts" := [js "0000 - Main.rb"; js "notes.txt"; js "Battle";
                                 js "0001 - Util.RB"];
                js "Scripts/Battle" := [js "0002 - Actor.rb"] ]};
     refused := fun _ => false;
     clock := sampleDate;
     randoms := [];
     trace := [] |}.

Definition sampleConfiguration : Configuration :=
  {| isValid := true; configLogFile := true; configLogConsole := false;
     logFilePath := Some (js ".rgss-script-editor.log") |}.

(** A session with a log file left by an earlier one, and a logger that
    holds no configuration yet. *)
Definition sampleSession : session :=
  {| disk := set_files {[ js ".rgss-script-editor.log" := Reference.encode (js "old") ]}
               emptyWorld;
     locked := fun _ => false;
     stdout := [];
     stderr := [];
     _config := None |}.

(** * Properties *)

(** ** Script names *)

Lemma replace_INVALID_CHARACTERS_valid s :
  Forall validChar (replace_INVALID_CHARACTERS s).
Proof.
  induction s as [|c s IH]; cbn; [constructor|].
  destruct (INVALID_CHARACTERS c) eqn:E; cbn; [assumption|].
  constructor; assumption.
Qed.

Lemma dropWhile_Forall (P : N -> Prop) p s : Forall P s -> Forall P (dropWhile p s).
Proof.
  induction 1 as [|c s Hc Hs IH]; cbn; [constructor|].
  destruct (p c); [assumption|]. constructor; assumption.
Qed.

Lemma trim_Forall (P : N -> Prop) s : Forall P s -> Forall P (trim s).
Proof.
  intros H. unfold trim, trimEnd, trimStart.
  apply Forall_rev, dropWhile_Forall, Forall_rev, dropWhile_Forall, H.
Qed.

Lemma isDigit_valid c : isDigit c = true -> validChar c.
Proof.
  unfold isDigit, validChar, INVALID_CHARACTERS. intros H.
  apply andb_true_iff in H as [H1 H2].
  apply N.leb_le in H1, H2.
  repeat (apply orb_false_intro); apply N.eqb_neq; lia.
Qed.

Lemma uint_units_digits d : Forall (fun c => isDigit c = true) (uint_units d).
Proof. induction d; cbn; constructor; auto. Qed.

Lemma Number_toString_digits n : Forall (fun c => isDigit c = true) (Number_toString n).
Proof. apply uint_units_digits. Qed.

Lemma padStart_zero_digits n s :
  Forall (fun c => isDigit c = true) s ->
  Forall (fun c => isDigit c = true) (padStart n 48 s).
Proof.
  intros H. unfold padStart. apply Forall_app. split; [|assumption].
  induction (n - length s)%nat; cbn; constructor; auto.
Qed.

Lemma indexPrefix_valid n i : Forall validChar (padStart n 48 (Number_toString i)).
Proof.
  eapply Forall_impl; [apply padStart_zero_digits, Number_toString_digits|].
  intros c. apply isDigit_valid.
Qed.

(** No invalid character is left in a formatted name. *)
Lemma formatScriptName_valid scriptName scriptIndex :
  Forall validChar (formatScriptName scriptName scriptIndex).
Proof.
  unfold formatScriptName.
  assert (Hbody : Forall validChar
            (padStart 4 48 (Number_toString scriptIndex) ++ js " - " ++
             trim (replace_INVALID_CHARACTERS scriptName))).
  { apply Forall_app. split; [apply indexPrefix_valid|].
    apply Forall_app. split.
    - repeat constructor.
    - apply trim_Forall, replace_INVALID_CHARACTERS_valid. }
  destruct (negb _); [|exact Hbody].
  apply Forall_app. split; [exact Hbody|]. repeat constructor.
Qed.

(** The formatted name is the padded index, the separator, the cleaned name
    and, when the text so far has no [.rb] in it, the extension. *)
Lemma formatScriptName_shape scriptName scriptIndex :
  let body := padStart 4 48 (Number_toString scriptIndex) ++ js " - " ++
              trim (replace_INVALID_CHARACTERS scriptName) in
  formatScriptName scriptName scriptIndex =
    if includes body (js ".rb") then body else body ++ js ".rb".
Proof.
  cbv zeta. unfold formatScriptName.
  destruct (includes _ (js ".rb")); reflexivity.
Qed.

Section jsvalue_induction.
Variable P : jsvalue -> Prop.
Hypothesis Hnull : P JNull.
Hypothesis Hnumber : forall n, P (JNumber n).
Hypothesis Hstring : forall s, P (JString s).
Hypothesis Hbuffer : forall b, P (JBuffer b).
Hypothesis Harray : forall items, Forall P items -> P (JArray items).

Fixpoint jsvalue_nested_ind (v : jsvalue) : P v :=
  match v with
  | JNull => Hnull
  | JNumber n => Hnumber n
  | JString s => Hstring s
  | JBuffer b => Hbuffer b
  | JArray items =>
      Harray items
        ((fix all (l : list jsvalue) : Forall P l :=
            match l with
            | [] => @List.Forall_nil _ P
            | v' :: l' => @List.Forall_cons _ P v' l' (jsvalue_nested_ind v') (all l')
            end) items)
  end.
End jsvalue_induction.

Lemma load_dump_positive p rest :
  Reference.load_positive (Reference.dump_positive p ++ rest) = Some (p, rest).
Proof. induction p as [p IH|p IH|]; cbn; rewrite ?IH; reflexivity. Qed.

Lemma load_dump_nat n rest : Reference.load_nat (Reference.dump_nat n ++ rest) = Some (n, rest).
Proof.
  unfold Reference.dump_nat. destruct (N.of_nat n) as [|p] eqn:E.
  - cbn. f_equal. f_equal. lia.
  - assert (Hn : Pos.to_nat p = n) by lia.
    unfold Reference.load_nat.
    destruct (Reference.dump_positive p ++ rest) as [|b l] eqn:El.
    { destruct p; discriminate. }
    assert (Hb : Byte.eqb b x03 = false) by (destruct p; cbn in El; inversion El; reflexivity).
    rewrite Hb, <- El, load_dump_positive, Hn. reflexivity.
Qed.

Lemma load_dump_Z z rest : Reference.load_Z (Reference.dump_Z z ++ rest) = Some (z, rest).
Proof. destruct z; cbn; rewrite ?load_dump_positive; reflexivity. Qed.

Lemma load_dump_value v :
  forall fuel rest, (depth v <= fuel)%nat ->
    Reference.load_value fuel (Reference.dump v ++ rest) = Some (binaryView Reference.pf v, rest).
Proof.
  induction v as [|n|s|b|items IH] using jsvalue_nested_ind;
    intros [|fuel] rest Hfuel; cbn in Hfuel; try lia.
  - reflexivity.
  - cbn. rewrite load_dump_Z. reflexivity.
  - cbn [Reference.dump Reference.load_value app]. cbn [Byte.eqb]. 
    change (Byte.eqb x22 x30) with false. change (Byte.eqb x22 x69) with false.
    change (Byte.eqb x22 x22) with true. cbv iota.
    rewrite <- app_assoc, load_dump_nat.
    rewrite length_app.
    destruct (Nat.leb_spec (length (Reference.encode s)) (length (Reference.encode s) + length rest)); [|lia].
    rewrite take_app_length, drop_app_length. reflexivity.
  - cbn [Reference.dump Reference.load_value app].
    change (Byte.eqb x22 x30) with false. change (Byte.eqb x22 x69) with false.
    change (Byte.eqb x22 x22) with true. cbv iota.
    rewrite <- app_assoc, load_dump_nat.
    rewrite length_app.
    destruct (Nat.leb_spec (length b) (length b + length rest)); [|lia].
    rewrite take_app_length, drop_app_length. reflexivity.
  - cbn [Reference.dump Reference.load_value app].
    change (Byte.eqb x5b x30) with false. change (Byte.eqb x5b x69) with false.
    change (Byte.eqb x5b x22) with false. change (Byte.eqb x5b x5b) with true.
    cbv iota.
    rewrite <- app_assoc, load_dump_nat.
    cbn [binaryView].
    assert (Hitems : forall rest',
      (fix load_items (n : nat) (l : list byte) {struct n}
         : option (list jsvalue * list byte) :=
         match n with
         | O => Some ([], l)
         | S n' =>
             match Reference.load_value fuel l with
             | Some (v, l') =>
                 match load_items n' l' with
                 | Some (vs, l'') => Some (v :: vs, l'')
                 | None => None
                 end
             | None => None
             end
         end) (length items) (concat (List.map Reference.dump items) ++ rest')
      = Some (List.map (binaryView Reference.pf) items, rest')).
    { clear rest. induction IH as [|v items Hv _ IHitems]; intros rest'.
      - reflexivity.
      - cbn [length List.map concat]. rewrite <- app_assoc.
        rewrite Hv by (cbn in Hfuel; lia).
        rewrite IHitems by (cbn in Hfuel; cbn; lia). reflexivity. }
    rewrite Hitems. reflexivity.
Qed.

Lemma depth_le_dump v : (depth v <= length (Reference.dump v))%nat.
Proof.
  induction v as [|n|s|b|items IH] using jsvalue_nested_ind; cbn; try lia.
  apply le_n_S. rewrite length_app.
  enough (fold_right Nat.max O (List.map depth items)
          <= length (concat (List.map Reference.dump items)))%nat by lia.
  induction IH as [|v items Hv _ IHitems]; cbn; [lia|].
  rewrite length_app. lia.
Qed.

Lemma load_dump_reference v : Reference.load (Reference.dump v) = Some (binaryView Reference.pf v).
Proof.
  unfold Reference.load.
  rewrite <- (app_nil_r (Reference.dump v)) at 2.
  rewrite load_dump_value; [reflexivity|].
  pose proof (depth_le_dump v). lia.
Qed.

Lemma reference_ok : platform_ok Reference.pf.
Proof.
  split.
  - intros b. reflexivity.
  - apply load_dump_reference.
Qed.

(** ** Running the monad *)

Lemma bind_run {A B} (m : M A) (f : A -> M B) w :
  (m ≫= f) w =
  match m w with
  | (Ok a, w') => f a w'
  | (Throw e, w') => (Throw e, w')
  | (Unfinished, w') => (Unfinished, w')
  end.
Proof. reflexivity. Qed.

Lemma bind_ok {A B} (m : M A) (f : A -> M B) w a w' :
  m w = (Ok a, w') -> (m ≫= f) w = f a w'.
Proof. intros H. rewrite bind_run, H. reflexivity. Qed.

Lemma ret_run {A} (a : A) w : (mret a : M A) w = (Ok a, w).
Proof. reflexivity. Qed.

Lemma readOnly_ret {A} (a : A) : readOnly (mret a : M A).
Proof. intros w r w' H. inversion H. reflexivity. Qed.


Lemma readOnly_bind {A B} (m : M A) (f : A -> M B) :
  readOnly m -> (forall a, readOnly (f a)) -> readOnly (m ≫= f).
Proof.
  intros Hm Hf w r w' H. rewrite bind_run in H.
  destruct (m w) as [[a|e|] w1] eqn:E; apply Hm in E; subst w1.
  - eapply Hf, H.
  - inversion H. reflexivity.
  - inversion H. reflexivity.
Qed.


Lemma readOnly_foldM {A B} (f : B -> A -> M B) l :
  (forall b a, readOnly (f b a)) -> forall b, readOnly (foldM f b l).
Proof.
  intros Hf. induction l as [|a l IH]; intros b; cbn.
  - apply readOnly_ret.
  - apply readOnly_bind; [apply Hf|]. intros b'. apply IH.
Qed.


Lemma readOnly_existsSync p : readOnly (existsSync p).
Proof. intros w r w' H. inversion H. reflexivity. Qed.

Section ScriptsFacts.

Context (pf : platform).



(** Decoding the rows of a sequence of entries. *)
Lemma decodeRow_rowOf e w :
  platform_ok pf -> isText pf e ->
  decodeRow pf (binaryView pf (rowOf pf e)) w = (Ok (scriptOf e), w).
Proof.
  intros Hok [Hname Hcode]. cbn.
  rewrite bind_run. unfold of_option.
  rewrite (inflate_deflate pf Hok). cbn.
  unfold scriptOf. rewrite Hname, Hcode. reflexivity.
Qed.

Lemma decodeRows_rowOf entries :
  platform_ok pf -> Forall (isText pf) entries ->
  forall acc w,
    foldM (fun output row => r ← decodeRow pf row; mret (output ++ [r])) acc
      (List.map (binaryView pf) (List.map (rowOf pf) entries)) w
    = (Ok (acc ++ List.map scriptOf entries), w).
Proof.
  intros Hok Htext. induction Htext as [|e entries He _ IH]; intros acc w.
  - cbn. rewrite app_nil_r. reflexivity.
  - cbn [List.map foldM]. rewrite bind_run, bind_run.
    rewrite (decodeRow_rowOf e w Hok He). cbn.
    rewrite IH, <- app_assoc. reflexivity.
Qed.

(** A file that holds the encoding of a sequence of entries is read back
    as these entries. *)
Lemma readBundleFile_encoded (w : world) (bundleFile : list N)
    (entries : list ScriptEntry) :
  platform_ok pf ->
  Forall (isText pf) entries ->
  files w !! bundleFile = Some (encodeBundle pf entries) ->
  readBundleFile pf bundleFile w = (Ok (List.map scriptOf entries), w).
Proof.
  intros Hok Htext Hfile. unfold readBundleFile.
  rewrite bind_run. unfold readFileSync. rewrite Hfile.
  rewrite bind_run. unfold encodeBundle, of_option.
  rewrite (load_dump pf Hok). cbn [binaryView].
  rewrite ret_run.
  apply (decodeRows_rowOf entries Hok Htext []).
Qed.


End ScriptsFacts.


Lemma checkValidExtraction_entries entries :
  checkValidExtraction (List.map scriptOf entries)
  = existsb (fun e => negb (isLoaderEntry e)) entries.
Proof.
  unfold checkValidExtraction.
  induction entries as [|e entries IH]; [reflexivity|].
  cbn [List.map existsb]. rewrite IH. reflexivity.
Qed.

Lemma isLoaderEntry_false e :
  isLoaderEntry e = false <-> entry_section e <> LOADER_SCRIPT_SECTION.
Proof. unfold isLoaderEntry. apply Z.eqb_neq. Qed.

Lemma existsb_nonLoader entries :
  existsb (fun e => negb (isLoaderEntry e)) entries = true <->
  exists e, e ∈ entries /\ entry_section e <> LOADER_SCRIPT_SECTION.
Proof.
  rewrite existsb_exists. split.
  - intros (e & Hin & He). exists e. split; [apply list_elem_of_In, Hin|].
    apply isLoaderEntry_false, negb_true_iff, He.
  - intros (e & Hin & He). exists e. split; [apply list_elem_of_In, Hin|].
    apply negb_true_iff, isLoaderEntry_false, He.
Qed.

Section Extraction.

Context (pf : platform).

(** C6: for a bundle file that decodes to a sequence of entries, the check
    answers [SCRIPTS_NOT_EXTRACTED] exactly when some entry has a section
    other than the loader's, and [SCRIPTS_EXTRACTED] otherwise. *)
Theorem checkExtractedScripts_iff (bundleFile : list N) (w w' : world)
    (entries : list ScriptEntry) :
  readBundleFile pf bundleFile w = (Ok (List.map scriptOf entries), w') ->
  let nonLoader :=
    exists e, e ∈ entries /\ entry_section e <> LOADER_SCRIPT_SECTION in
  (checkExtractedScripts pf bundleFile w = (Ok SCRIPTS_NOT_EXTRACTED, w')
     <-> nonLoader) /\
  (checkExtractedScripts pf bundleFile w = (Ok SCRIPTS_EXTRACTED, w')
     <-> ~ nonLoader).
Proof.
  intros Hread nonLoader. unfold checkExtractedScripts.
  rewrite (bind_ok _ _ _ _ _ Hread), checkValidExtraction_entries.
  pose proof (existsb_nonLoader entries) as Hex. fold nonLoader in Hex.
  destruct (existsb _ entries); rewrite ret_run.
  - split; split; intros H.
    + apply Hex. reflexivity.
    + reflexivity.
    + discriminate H.
    + exfalso. apply H, Hex. reflexivity.
  - assert (Hno : ~ nonLoader) by (intros H; apply Hex in H; discriminate H).
    split; split; intros H.
    + discriminate H.
    + contradiction.
    + exact Hno.
    + reflexivity.
Qed.

End Extraction.

Lemma checkExtractedScripts_iff_witness :
  let nonLoader :=
    exists e, e ∈ [loaderEntry; mainEntry] /\ entry_section e <> LOADER_SCRIPT_SECTION in
  (checkExtractedScripts Reference.pf bundlePath (worldWith [loaderEntry; mainEntry])
     = (Ok SCRIPTS_NOT_EXTRACTED, worldWith [loaderEntry; mainEntry]) <-> nonLoader) /\
  (checkExtractedScripts Reference.pf bundlePath (worldWith [loaderEntry; mainEntry])
     = (Ok SCRIPTS_EXTRACTED, worldWith [loaderEntry; mainEntry]) <-> ~ nonLoader).
Proof.
  apply (checkExtractedScripts_iff Reference.pf bundlePath
           (worldWith [loaderEntry; mainEntry]) (worldWith [loaderEntry; mainEntry])
           [loaderEntry; mainEntry]).
  vm_compute. reflexivity.
Defined.

(** ** The index in a formatted name *)

Lemma takeDigits_app ds rest :
  Forall (fun c => isDigit c = true) ds ->
  takeDigits (ds ++ rest) = ds ++ takeDigits rest.
Proof.
  induction 1 as [|c ds Hc _ IH]; cbn; [reflexivity|].
  rewrite Hc, IH. reflexivity.
Qed.

Lemma fold_digits_uint d acc :
  fold_left (fun acc c => (10 * acc + N.to_nat (c - 48))%nat) (uint_units d) acc
  = Nat.of_uint_acc d acc.
Proof.
  revert acc. induction d; intros acc; cbn [uint_units fold_left Nat.of_uint_acc];
    rewrite ?IHd, ?Nat.tail_mul_spec; try reflexivity; f_equal; cbn; lia.
Qed.

Lemma fold_digits_zeros n rest :
  fold_left (fun acc c => (10 * acc + N.to_nat (c - 48))%nat) (repeat 48 n ++ rest) O
  = fold_left (fun acc c => (10 * acc + N.to_nat (c - 48))%nat) rest O.
Proof. induction n; cbn in *; [reflexivity|assumption]. Qed.

Lemma leadingIndex_formatScriptName scriptName scriptIndex :
  leadingIndex (formatScriptName scriptName scriptIndex) = scriptIndex.
Proof.
  rewrite formatScriptName_shape. cbv zeta.
  set (core := trim (replace_INVALID_CHARACTERS scriptName)).
  assert (H : forall tail,
    leadingIndex (padStart 4 48 (Number_toString scriptIndex) ++ js " - " ++ tail)
    = scriptIndex).
  { intros tail. unfold leadingIndex.
    rewrite takeDigits_app
      by apply padStart_zero_digits, Number_toString_digits.
    cbn [js list_ascii_of_string List.map app takeDigits]. 
    change (isDigit (N_of_ascii " ")) with false. cbv iota.
    rewrite app_nil_r. unfold padStart, digitsValue.
    rewrite fold_digits_zeros. unfold Number_toString.
    rewrite fold_digits_uint. apply Unsigned.of_to. }
  destruct (includes _ _).
  - apply H.
  - rewrite <- !app_assoc. apply H.
Qed.

(** ** Extraction *)

Lemma writtenFiles_app evs1 evs2 :
  writtenFiles (evs1 ++ evs2) = writtenFiles evs1 ++ writtenFiles evs2.
Proof.
  induction evs1 as [|[[p|s d|p d] [|]] evs1 IH]; cbn; rewrite ?IH; reflexivity.
Qed.

Lemma writtenFiles_writes fs :
  writtenFiles (List.map (fun f => (WriteFile f.1 f.2, true)) fs) = fs.
Proof. induction fs as [|[p d] fs IH]; cbn; rewrite ?IH; reflexivity. Qed.

Lemma trace_applyWrites fs w :
  trace (applyWrites fs w)
  = trace w ++ List.map (fun f => (WriteFile f.1 f.2, true)) fs.
Proof.
  revert w. induction fs as [|f fs IH]; intros w; cbn.
  - rewrite app_nil_r. reflexivity.
  - unfold applyWrites in IH. rewrite IH. cbn. rewrite <- app_assoc. reflexivity.
Qed.

Lemma refused_applyWrites fs w : refused (applyWrites fs w) = refused w.
Proof.
  revert w. induction fs as [|f fs IH]; intros w; cbn; [reflexivity|].
  unfold applyWrites in IH. rewrite IH. reflexivity.
Qed.

Lemma files_applyWrites fs w :
  files (applyWrites fs w)
  = fold_left (fun m f => <[f.1 := f.2]> m) fs (files w).
Proof.
  revert w. induction fs as [|f fs IH]; intros w; cbn; [reflexivity|].
  unfold applyWrites in IH. rewrite IH. reflexivity.
Qed.

Lemma writeFileSync_run p d w :
  writeFileSync p d w =
  if refused w (WriteFile p d)
  then (Throw (SystemError (WriteFile p d)), log (WriteFile p d) false w)
  else (Ok (), applyWrite w (p, d)).
Proof. reflexivity. Qed.

Section ExtractionFacts.

Context (pf : platform).

Lemma toExtract_cons i e entries :
  toExtract i (e :: entries)
  = if isLoaderEntry e then toExtract (S i) entries
    else (i, e) :: toExtract (S i) entries.
Proof. unfold toExtract. cbn. destruct (isLoaderEntry e); reflexivity. Qed.

Lemma toExtract_entries i entries :
  List.map snd (toExtract i entries)
  = List.filter (fun e => negb (isLoaderEntry e)) entries.
Proof.
  revert i. induction entries as [|e entries IH]; intros i; [reflexivity|].
  rewrite toExtract_cons. cbn [List.filter].
  destruct (isLoaderEntry e); cbn; rewrite IH; reflexivity.
Qed.

Lemma toExtract_positions i k entries :
  (forall j e, entries !! j = Some e -> (isLoaderEntry e = true <-> (i + j)%nat = k)) ->
  List.map fst (toExtract i entries)
  = List.filter (fun j => negb (j =? k)%nat) (seq i (length entries)).
Proof.
  revert i. induction entries as [|e entries IH]; intros i Hk; [reflexivity|].
  rewrite toExtract_cons. cbn [length seq List.filter].
  assert (IH' : List.map fst (toExtract (S i) entries)
                = List.filter (fun j => negb (j =? k)%nat) (seq (S i) (length entries))).
  { apply IH. intros j e' Hj. rewrite (Hk (S j) e' Hj). lia. }
  pose proof (Hk O e eq_refl) as H0. rewrite Nat.add_0_r in H0.
  destruct (isLoaderEntry e) eqn:E.
  - assert (i = k) by (apply H0; reflexivity). subst k.
    rewrite Nat.eqb_refl. cbn. exact IH'.
  - assert (i <> k) by (intros ->; destruct H0 as [_ H0]; discriminate (H0 eq_refl)).
    destruct (Nat.eqb_spec i k); [contradiction|]. cbn. rewrite IH'. reflexivity.
Qed.

Lemma extractLoop_total scriptFolder entries :
  forall i w,
    (forall c, refused w c = false) ->
    extractLoop pf scriptFolder i (List.map scriptOf entries) w
    = (Ok (), applyWrites (List.map (fileOf pf scriptFolder) (toExtract i entries)) w).
Proof.
  induction entries as [|e entries IH]; intros i w Hw; [reflexivity|].
  cbn [List.map extractLoop]. rewrite toExtract_cons, bind_run.
  change (isLoaderScript (section (scriptOf e))) with (isLoaderEntry e).
  destruct (isLoaderEntry e).
  - rewrite ret_run. apply IH, Hw.
  - rewrite writeFileSync_run, Hw. cbn [List.map applyWrites fold_left].
    apply IH. intros c. apply Hw.
Qed.

Lemma extractLoop_Ok scriptFolder entries :
  forall i w u w',
    extractLoop pf scriptFolder i (List.map scriptOf entries) w = (Ok u, w') ->
    w' = applyWrites (List.map (fileOf pf scriptFolder) (toExtract i entries)) w.
Proof.
  induction entries as [|e entries IH]; intros i w u w' H.
  - inversion H. reflexivity.
  - cbn [List.map extractLoop] in H. rewrite toExtract_cons, bind_run in *.
    change (isLoaderScript (section (scriptOf e))) with (isLoaderEntry e) in H.
    destruct (isLoaderEntry e).
    + rewrite ret_run in H. eapply IH, H.
    + rewrite writeFileSync_run in H.
      destruct (refused w _); [discriminate H|].
      cbn [List.map applyWrites fold_left]. eapply IH, H.
Qed.

(** What creating the scripts folder does when it returns. *)
Lemma createScriptFolder_Ok scriptFolder w u w1 :
  createScriptFolder scriptFolder w = (Ok u, w1) ->
  files w1 = files w /\ refused w1 = refused w /\
  exists evs, trace w1 = trace w ++ evs /\ writtenFiles evs = [].
Proof.
  unfold createScriptFolder. rewrite bind_run. cbn [existsSync].
  destruct (isFile w scriptFolder || isDirectory w scriptFolder); cbn [negb].
  - intros H. inversion H. subst. repeat split.
    exists []. rewrite app_nil_r. split; reflexivity.
  - unfold mkdirSync, attempt. destruct (refused w _); [discriminate|].
    intros H. inversion H. subst. clear H.
    destruct (dirs w !! scriptFolder); cbn; repeat split;
      exists [(Mkdir scriptFolder, true)]; split; reflexivity.
Qed.

Lemma createScriptFolder_total scriptFolder w :
  (forall c, refused w c = false) ->
  exists w1, createScriptFolder scriptFolder w = (Ok (), w1).
Proof.
  intros Hw. unfold createScriptFolder. rewrite bind_run. cbn [existsSync].
  destruct (isFile w scriptFolder || isDirectory w scriptFolder); cbn [negb].
  - eexists. reflexivity.
  - unfold mkdirSync, attempt. rewrite Hw. eexists. reflexivity.
Qed.

(** A run of [extractScripts] that returns, on a bundle file that decodes to
    [entries]. *)
Lemma extractScripts_Ok bundleFile scriptFolder w entries r w' :
  readBundleFile pf bundleFile w = (Ok (List.map scriptOf entries), w) ->
  extractScripts pf bundleFile scriptFolder w = (Ok r, w') ->
  if existsb (fun e => negb (isLoaderEntry e)) entries
  then r = SCRIPTS_EXTRACTED /\
       writtenFiles (drop (length (trace w)) (trace w'))
       = List.map (fileOf pf scriptFolder) (toExtract 0 entries)
  else r = SCRIPTS_NOT_EXTRACTED /\ w' = w.
Proof.
  intros Hread. unfold extractScripts.
  rewrite (bind_ok _ _ _ _ _ Hread), checkValidExtraction_entries.
  destruct (existsb _ entries).
  - rewrite bind_run.
    destruct (createScriptFolder scriptFolder w) as [[u|e|] w1] eqn:Hfolder;
      try discriminate.
    apply createScriptFolder_Ok in Hfolder as (_ & _ & evs & Htrace & Hevs).
    rewrite bind_run.
    destruct (extractLoop pf scriptFolder 0 _ w1) as [[u'|e|] w2] eqn:Hloop;
      try discriminate.
    apply extractLoop_Ok in Hloop. rewrite ret_run. intros H. inversion H. subst.
    split; [reflexivity|].
    rewrite trace_applyWrites, Htrace, <- app_assoc, drop_app_length.
    rewrite writtenFiles_app, Hevs, writtenFiles_writes. reflexivity.
  - rewrite ret_run. intros H. inversion H. split; reflexivity.
Qed.

Lemma extractScripts_total bundleFile scriptFolder w entries :
  readBundleFile pf bundleFile w = (Ok (List.map scriptOf entries), w) ->
  (forall c, refused w c = false) ->
  exists r w', extractScripts pf bundleFile scriptFolder w = (Ok r, w').
Proof.
  intros Hread Hw. unfold extractScripts.
  rewrite (bind_ok _ _ _ _ _ Hread).
  destruct (checkValidExtraction _).
  - rewrite bind_run.
    destruct (createScriptFolder_total scriptFolder w Hw) as [w1 Hfolder].
    pose proof (createScriptFolder_Ok _ _ _ _ Hfolder) as (_ & Href & _).
    rewrite Hfolder, bind_run, extractLoop_total.
    + rewrite ret_run. eauto.
    + intros c. rewrite Href. apply Hw.
  - rewrite ret_run. eauto.
Qed.

End ExtractionFacts.

Lemma toExtract_none i entries :
  existsb (fun e => negb (isLoaderEntry e)) entries = false ->
  toExtract i entries = [].
Proof.
  revert i. induction entries as [|e entries IH]; intros i H; [reflexivity|].
  cbn in H. apply orb_false_iff in H as [He H].
  rewrite toExtract_cons. apply negb_false_iff in He. rewrite He. apply IH, H.
Qed.

Lemma filter_nonLoader_nil entries :
  List.filter (fun e => negb (isLoaderEntry e)) entries = [] <->
  existsb (fun e => negb (isLoaderEntry e)) entries = false.
Proof.
  induction entries as [|e entries IH]; cbn; [tauto|].
  destruct (negb (isLoaderEntry e)); cbn; [|exact IH].
  split; discriminate.
Qed.

Lemma length_filter_seq_other k n i :
  (i <= k < i + n)%nat ->
  length (List.filter (fun j => negb (j =? k)%nat) (seq i n)) = (n - 1)%nat.
Proof.
  revert i. induction n as [|n IH]; intros i Hk; [lia|].
  cbn [seq List.filter]. destruct (Nat.eqb_spec i k) as [->|Hne]; cbn.
  - clear IH Hk. replace (n - 0)%nat with n by lia.
    assert (H : forall m i, (k < i)%nat ->
              List.filter (fun j => negb (j =? k)%nat) (seq i m) = seq i m).
    { induction m as [|m IHm]; intros i Hi; [reflexivity|]. cbn.
      destruct (Nat.eqb_spec i k); [lia|]. cbn. rewrite IHm by lia. reflexivity. }
    rewrite H by lia. apply length_seq.
  - rewrite IH by lia. lia.
Qed.

Lemma leadingIndex_names (written : list (nat * ScriptEntry)) :
  List.map leadingIndex
    (List.map (fun je => formatScriptName (entry_name je.2) je.1) written)
  = List.map fst written.
Proof.
  induction written as [|[j e] written IH]; [reflexivity|].
  cbn [List.map fst snd]. rewrite leadingIndex_formatScriptName, IH. reflexivity.
Qed.

Lemma NoDup_filter_seq (f : nat -> bool) i n : List.NoDup (List.filter f (seq i n)).
Proof. apply List.NoDup_filter, List.seq_NoDup. Qed.

Lemma NoDup_map_inv {A B} (f : A -> B) l : List.NoDup (List.map f l) -> List.NoDup l.
Proof.
  induction l as [|a l IH]; cbn; intros H; [constructor|].
  inversion H as [|? ? Hnotin Hnodup]. subst. constructor; [|apply IH, Hnodup].
  intros Hin. apply Hnotin, List.in_map, Hin.
Qed.

Lemma toExtract_names_NoDup i entries :
  List.NoDup (List.map (fun je => formatScriptName (entry_name je.2) je.1)
                (toExtract i entries)).
Proof.
  apply (NoDup_map_inv leadingIndex). rewrite leadingIndex_names.
  unfold toExtract.
  assert (H : forall (l : list (nat * ScriptEntry)) (f : nat * ScriptEntry -> bool),
             List.NoDup (List.map fst l) -> List.NoDup (List.map fst (List.filter f l))).
  { intros l f. induction l as [|x l IH]; cbn; intros Hl; [constructor|].
    inversion Hl as [|? ? Hnotin Hnodup]; subst.
    destruct (f x); cbn; [|apply IH, Hnodup].
    constructor; [|apply IH, Hnodup].
    intros Hin. apply Hnotin. apply List.in_map_iff in Hin as (y & Hy & Hin).
    apply List.filter_In in Hin as [Hin _]. rewrite <- Hy. apply List.in_map, Hin. }
  apply H.
  assert (Hfst : forall (l : list ScriptEntry) i,
             List.map fst (combine (seq i (length l)) l) = seq i (length l)).
  { induction l as [|x l IHl]; intros i'; cbn; [reflexivity|]. rewrite IHl. reflexivity. }
  rewrite Hfst. apply List.seq_NoDup.
Qed.

Section ExtractionClaims.

Context (pf : platform).

(** C5: on a bundle with one loader entry and N other entries, a run of
    [extractScripts] that returns has written one file for each of the N
    other entries, in their order and under N different names, and none for
    the loader entry; it returns when no call is refused; and when the
    loader entry is the only one it answers [SCRIPTS_NOT_EXTRACTED] and
    leaves the world as it was. *)
Theorem extractScripts_skips_loader (bundleFile scriptFolder : list N) (w : world)
    (entries : list ScriptEntry) :
  readBundleFile pf bundleFile w = (Ok (List.map scriptOf entries), w) ->
  length (List.filter isLoaderEntry entries) = 1%nat ->
  let others := List.filter (fun e => negb (isLoaderEntry e)) entries in
  ((forall c, refused w c = false) ->
   exists r w', extractScripts pf bundleFile scriptFolder w = (Ok r, w')) /\
  (forall r w',
     extractScripts pf bundleFile scriptFolder w = (Ok r, w') ->
     others <> [] ->
     r = SCRIPTS_EXTRACTED /\
     exists written : list (nat * ScriptEntry),
       writtenFiles (drop (length (trace w)) (trace w'))
       = List.map (fileOf pf scriptFolder) written /\
       List.map snd written = others /\
       length written = length others /\
       NoDup (List.map (fun je => formatScriptName (entry_name je.2) je.1)
                written)) /\
  (others = [] ->
   extractScripts pf bundleFile scriptFolder w = (Ok SCRIPTS_NOT_EXTRACTED, w)).
Proof.
  intros Hread _ others. split; [|split].
  - intros Hw. eapply extractScripts_total; eassumption.
  - intros r w' Hrun Hothers.
    pose proof (extractScripts_Ok pf _ _ _ _ _ _ Hread Hrun) as H.
    destruct (existsb _ entries) eqn:E.
    + destruct H as [-> Hwritten]. split; [reflexivity|].
      exists (toExtract 0 entries). split; [exact Hwritten|].
      pose proof (toExtract_entries 0 entries) as Hsnd. fold others in Hsnd.
      split; [exact Hsnd|]. split.
      * rewrite <- Hsnd, List.length_map. reflexivity.
      * apply NoDup_ListNoDup, toExtract_names_NoDup.
    + exfalso. apply Hothers, filter_nonLoader_nil, E.
  - intros Hothers. apply filter_nonLoader_nil in Hothers.
    unfold extractScripts.
    rewrite (bind_ok _ _ _ _ _ Hread), checkValidExtraction_entries, Hothers.
    reflexivity.
Qed.

(** C10: on a bundle of M entries with the loader entry at position [k] and
    nowhere else, a run of [extractScripts] that returns has written M-1
    files, and the numbers their names start with are 0, ..., M-1 without
    [k], in this order: every file is numbered with the position of its entry
    in the whole bundle.  The run returns when no call is refused. *)
Theorem extractScripts_keeps_positions (bundleFile scriptFolder : list N) (w : world)
    (entries : list ScriptEntry) (k : nat) :
  readBundleFile pf bundleFile w = (Ok (List.map scriptOf entries), w) ->
  (k < length entries)%nat ->
  (forall j e, entries !! j = Some e -> (isLoaderEntry e = true <-> j = k)) ->
  ((forall c, refused w c = false) ->
   exists r w', extractScripts pf bundleFile scriptFolder w = (Ok r, w')) /\
  (forall r w',
     extractScripts pf bundleFile scriptFolder w = (Ok r, w') ->
     exists names : list (list N),
       List.map fst (writtenFiles (drop (length (trace w)) (trace w')))
       = List.map (pathResolve_join pf scriptFolder) names /\
       List.map leadingIndex names
       = List.filter (fun j => negb (j =? k)%nat) (seq 0 (length entries)) /\
       length names = (length entries - 1)%nat).
Proof.
  intros Hread Hk Hloader. split.
  - intros Hw. eapply extractScripts_total; eassumption.
  - intros r w' Hrun.
    exists (List.map (fun je => formatScriptName (entry_name je.2) je.1)
              (toExtract 0 entries)).
    assert (Hpos : List.map fst (toExtract 0 entries)
                   = List.filter (fun j => negb (j =? k)%nat) (seq 0 (length entries))).
    { apply toExtract_positions. intros j e Hj. cbn. apply Hloader, Hj. }
    split; [|split].
    + pose proof (extractScripts_Ok pf _ _ _ _ _ _ Hread Hrun) as H.
      destruct (existsb _ entries) eqn:E.
      * destruct H as [_ ->]. rewrite !List.map_map. reflexivity.
      * destruct H as [_ ->]. rewrite drop_all, (toExtract_none _ _ E). reflexivity.
    + rewrite leadingIndex_names. exact Hpos.
    + rewrite List.length_map, <- (List.length_map fst), Hpos.
      apply length_filter_seq_other. lia.
Qed.

End ExtractionClaims.

Lemma extractScripts_skips_loader_witness :
  let w := worldWith [mainEntry; loaderEntry; utilEntry] in
  let others := List.filter (fun e => negb (isLoaderEntry e))
                  [mainEntry; loaderEntry; utilEntry] in
  ((forall c, refused w c = false) ->
   exists r w', extractScripts Reference.pf bundlePath (js "Scripts") w = (Ok r, w')) /\
  (forall r w',
     extractScripts Reference.pf bundlePath (js "Scripts") w = (Ok r, w') ->
     others <> [] ->
     r = SCRIPTS_EXTRACTED /\
     exists written : list (nat * ScriptEntry),
       writtenFiles (drop (length (trace w)) (trace w'))
       = List.map (fileOf Reference.pf (js "Scripts")) written /\
       List.map snd written = others /\
       length written = length others /\
       NoDup (List.map (fun je => formatScriptName (entry_name je.2) je.1)
                written)) /\
  (others = [] ->
   extractScripts Reference.pf bundlePath (js "Scripts") w
   = (Ok SCRIPTS_NOT_EXTRACTED, w)).
Proof.
  apply (extractScripts_skips_loader Reference.pf bundlePath (js "Scripts")
           (worldWith [mainEntry; loaderEntry; utilEntry])
           [mainEntry; loaderEntry; utilEntry]).
  - vm_compute. reflexivity.
  - vm_compute. reflexivity.
Defined.

Lemma extractScripts_keeps_positions_witness :
  let w := worldWith [mainEntry; loaderEntry; utilEntry] in
  ((forall c, refused w c = false) ->
   exists r w', extractScripts Reference.pf bundlePath (js "Scripts") w = (Ok r, w')) /\
  (forall r w',
     extractScripts Reference.pf bundlePath (js "Scripts") w = (Ok r, w') ->
     exists names : list (list N),
       List.map fst (writtenFiles (drop (length (trace w)) (trace w')))
       = List.map (Reference.join (js "Scripts")) names /\
       List.map leadingIndex names
       = List.filter (fun j => negb (j =? 1)%nat) (seq 0 3) /\
       length names = 2%nat).
Proof.
  apply (extractScripts_keeps_positions Reference.pf bundlePath (js "Scripts")
           (worldWith [mainEntry; loaderEntry; utilEntry])
           [mainEntry; loaderEntry; utilEntry] 1).
  - vm_compute. reflexivity.
  - cbn. lia.
  - intros [|[|[|j]]] e H; cbn in H; inversion H; subst; vm_compute; split;
      congruence.
Defined.

(** The run of the sample: the files of the two scripts, numbered 0 and 2. *)
Example extractScripts_sample :
  let w := worldWith [mainEntry; loaderEntry; utilEntry] in
  exists w',
    extractScripts Reference.pf bundlePath (js "Scripts") w = (Ok SCRIPTS_EXTRACTED, w') /\
    List.map fst (writtenFiles (trace w'))
    = [js "Scripts/0000 - Main.rb"; js "Scripts/0002 - Util.rb"].
Proof. eexists. split; vm_compute; reflexivity. Qed.

(** ** The loader bundle *)

Lemma currentDate_run w : currentDate w = (Ok (dateText (clock w)), w).
Proof. reflexivity. Qed.

Section LoaderBundle.

Context (pf : platform).

(** The outcomes of [createBackUp]. *)
Lemma createBackUp_run file folder w :
  let dst := backUpPath pf file folder w in
  let made := (Mkdir folder, true) in
  (* the file is missing *)
  (isFile w file || isDirectory w file = false /\
   createBackUp pf file folder w = (Throw (NotFoundError file), w)) \/
  (* the backup folder cannot be made *)
  (createBackUp pf file folder w
   = (Throw (SystemError (Mkdir folder)), log (Mkdir folder) false w)) \/
  (* the copy fails *)
  (exists e pre w1,
     createBackUp pf file folder w = (Throw e, w1) /\
     files w1 = files w /\
     trace w1 = trace w ++ pre ++ [(CopyFile file dst, false)] /\
     (pre = [] \/ pre = [made])) \/
  (* the copy is made *)
  (exists b pre w1,
     createBackUp pf file folder w = (Ok (), w1) /\
     files w !! file = Some b /\
     files w1 = <[dst := b]> (files w) /\
     refused w1 = refused w /\
     trace w1 = trace w ++ pre ++ [(CopyFile file dst, true)] /\
     (pre = [] \/ pre = [made])).
Proof.
  cbv zeta. unfold createBackUp, backUpPath.
  rewrite bind_run. cbn [existsSync].
  destruct (isFile w file || isDirectory w file) eqn:Efile; cbn [negb];
    [|left; split; reflexivity].
  right. rewrite bind_run. cbn [existsSync].
  assert (Hcopy : forall w0 pre,
    files w0 = files w -> refused w0 = refused w -> clock w0 = clock w ->
    trace w0 = trace w ++ pre ->
    let dst := backUpFilePath pf file folder (dateText (clock w)) in
    let run := (date ← currentDate; copyFileSync file (backUpFilePath pf file folder date)) w0 in
    (exists e w1, run = (Throw e, w1) /\ files w1 = files w /\
       trace w1 = trace w ++ pre ++ [(CopyFile file dst, false)]) \/
    (exists b w1, run = (Ok (), w1) /\ files w !! file = Some b /\
       files w1 = <[dst := b]> (files w) /\ refused w1 = refused w /\
       trace w1 = trace w ++ pre ++ [(CopyFile file dst, true)])).
  { intros w0 pre Hfiles Hrefused Hclock Htrace. cbv zeta.
    rewrite bind_run, currentDate_run, Hclock. unfold copyFileSync, attempt.
    rewrite Hfiles.
    destruct (files w !! file) as [b|] eqn:Eb.
    - destruct (refused w0 _).
      + left. do 2 eexists. split; [reflexivity|]. cbn. rewrite Htrace, <- app_assoc.
        split; [assumption|reflexivity].
      + right. do 2 eexists. split; [reflexivity|]. cbn.
        rewrite Htrace, <- app_assoc. repeat split; assumption.
    - left. do 2 eexists. split; [reflexivity|]. cbn. rewrite Htrace, <- app_assoc.
      split; [assumption|reflexivity]. }
  destruct (isFile w folder || isDirectory w folder); cbn [negb].
  - rewrite bind_run, ret_run. right.
    destruct (Hcopy w [] eq_refl eq_refl eq_refl) as
      [(e & w1 & Hrun & Hf & Ht)|(b & w1 & Hrun & Hb & Hf & Hr & Ht)].
    { rewrite app_nil_r. reflexivity. }
    + left. exists e, [], w1. rewrite Hrun. auto.
    + right. exists b, [], w1. rewrite Hrun. auto 10.
  - rewrite bind_run. unfold mkdirSync, attempt.
    destruct (refused w (Mkdir folder)); [left; reflexivity|]. right.
    match goal with |- context [ (_ ← currentDate; _) ?w0 ] => set (wm := w0) end.
    destruct (Hcopy wm [(Mkdir folder, true)]) as
      [(e & w1 & Hrun & Hf & Ht)|(b & w1 & Hrun & Hb & Hf & Hr & Ht)].
    { subst wm. destruct (dirs w !! folder); reflexivity. }
    { subst wm. destruct (dirs w !! folder); reflexivity. }
    { subst wm. destruct (dirs w !! folder); reflexivity. }
    { subst wm. destruct (dirs w !! folder); reflexivity. }
    + left. exists e, [(Mkdir folder, true)], w1.
      change ((fun _ : unit => date ← currentDate; copyFileSync file (backUpFilePath pf file folder date)) () wm)
        with ((date ← currentDate; copyFileSync file (backUpFilePath pf file folder date)) wm).
      rewrite Hrun. auto.
    + right. exists b, [(Mkdir folder, true)], w1.
      change ((fun _ : unit => date ← currentDate; copyFileSync file (backUpFilePath pf file folder date)) () wm)
        with ((date ← currentDate; copyFileSync file (backUpFilePath pf file folder date)) wm).
      rewrite Hrun. auto 10.
Qed.

Lemma createScriptLoaderBundle_bind bundleFile backUps scriptFolder w :
  createScriptLoaderBundle pf bundleFile backUps scriptFolder w =
  match createBackUp pf bundleFile backUps w with
  | (Ok _, w1) =>
      let data := encodeBundle pf [loaderEntryFor pf scriptFolder] in
      if refused w1 (WriteFile bundleFile data)
      then (Throw (SystemError (WriteFile bundleFile data)),
            log (WriteFile bundleFile data) false w1)
      else (Ok LOADER_BUNDLE_CREATED, applyWrite w1 (bundleFile, data))
  | (Throw e, w1) => (Throw e, w1)
  | (Unfinished, w1) => (Unfinished, w1)
  end.
Proof.
  unfold createScriptLoaderBundle. rewrite bind_run.
  destruct (createBackUp pf bundleFile backUps w) as [[u|e|] w1]; try reflexivity.
  cbv zeta. rewrite bind_run, writeFileSync_run.
  change (marshal_dump pf _) with (encodeBundle pf [loaderEntryFor pf scriptFolder]).
  destruct (refused w1 _); reflexivity.
Qed.

(** C2: the generator throws [NotFoundError] when the bundle file does not
    exist; in every run, whatever its outcome, each attempt to write the
    bundle file comes in the log after the successful copy of the bundle file
    to its backup; and when the backup step throws, the generator throws the
    same error and no file has changed. *)
Theorem createScriptLoaderBundle_backup_first
    (bundleFile backUps scriptFolder : list N) (w : world) :
  (isFile w bundleFile || isDirectory w bundleFile = false ->
   createScriptLoaderBundle pf bundleFile backUps scriptFolder w
   = (Throw (NotFoundError bundleFile), w)) /\
  (forall r w',
     createScriptLoaderBundle pf bundleFile backUps scriptFolder w = (r, w') ->
     exists evs, trace w' = trace w ++ evs /\
       forall before ev after,
         evs = before ++ ev :: after -> isWrite bundleFile ev ->
         (CopyFile bundleFile (backUpPath pf bundleFile backUps w), true) ∈ before) /\
  (forall e w1,
     createBackUp pf bundleFile backUps w = (Throw e, w1) ->
     createScriptLoaderBundle pf bundleFile backUps scriptFolder w = (Throw e, w1) /\
     files w1 = files w).
Proof.
  pose proof (createBackUp_run bundleFile backUps w) as Hbackup. cbv zeta in Hbackup.
  fold (backUpPath pf bundleFile backUps w) in Hbackup.
  assert (Hsplit : forall (l before after : list (syscall * bool)) ev,
            l = before ++ ev :: after -> isWrite bundleFile ev ->
            (length l <= 3)%nat ->
            Forall (fun x => ~ isWrite bundleFile x) (take (length l - 1) l) ->
            before = take (length l - 1) l).
  { intros l before after ev -> Hev Hlen Hnot.
    rewrite length_app in *. cbn [length] in *.
    destruct after as [|x after].
    - replace (length before + S (length (@nil (syscall * bool))) - 1)%nat
        with (length before) by (cbn; lia).
      rewrite take_app_length. reflexivity.
    - exfalso. rewrite take_app_ge in Hnot by (cbn; lia).
      apply Forall_app in Hnot as [_ Hnot].
      replace (length before + S (length (x :: after)) - 1 - length before)%nat
        with (S (length after)) in Hnot by (cbn; lia).
      cbn in Hnot. inversion Hnot; contradiction. }
  assert (Hmk : ~ isWrite bundleFile (Mkdir backUps, true)).
  { intros (data & ok & H). discriminate H. }
  assert (Hcp : forall ok, ~ isWrite bundleFile
                  (CopyFile bundleFile (backUpPath pf bundleFile backUps w), ok)).
  { intros ok' (data & ok & H). discriminate H. }
  split; [|split].
  - intros Hmissing. unfold createScriptLoaderBundle, createBackUp.
    rewrite !bind_run. cbn [existsSync]. rewrite Hmissing. reflexivity.
  - intros r w' Hrun. rewrite createScriptLoaderBundle_bind in Hrun.
    destruct Hbackup as [[_ H]|[H|[H|H]]].
    + rewrite H in Hrun. inversion Hrun; subst. exists []. rewrite app_nil_r.
      split; [reflexivity|]. intros [|? ?] ? ? Heq; discriminate Heq.
    + rewrite H in Hrun. inversion Hrun; subst. eexists. split; [reflexivity|].
      intros [|? [|? ?]] ? ? Heq Hev; inversion Heq; subst.
      destruct Hev as (data & ok & Hev). discriminate Hev.
    + destruct H as (e & pre & w1 & H & _ & Htrace & Hpre).
      rewrite H in Hrun. inversion Hrun; subst. eexists. split; [exact Htrace|].
      intros before ev after Heq Hev. exfalso.
      destruct Hpre as [-> | ->];
        (destruct before as [|? [|? [|? ?]]]; inversion Heq; subst;
         first [eapply Hmk, Hev | eapply Hcp, Hev]).
    + destruct H as (b & pre & w1 & H & _ & _ & _ & Htrace & Hpre).
      rewrite H in Hrun. cbv zeta in Hrun.
      set (data := encodeBundle pf [loaderEntryFor pf scriptFolder]) in Hrun.
      assert (Hw' : exists ok,
                trace w' = trace w ++ pre
                           ++ [(CopyFile bundleFile (backUpPath pf bundleFile backUps w), true);
                               (WriteFile bundleFile data, ok)]).
      { destruct (refused w1 _); inversion Hrun; subst; cbn; rewrite Htrace;
          eexists; rewrite <- !app_assoc; reflexivity. }
      destruct Hw' as (ok & Hw'). eexists. split; [exact Hw'|].
      intros before ev after Heq Hev.
      apply Hsplit in Heq; [| exact Hev | destruct Hpre as [-> | ->]; cbn; lia |].
      * rewrite Heq. destruct Hpre as [-> | ->]; cbn; set_solver.
      * destruct Hpre as [-> | ->]; cbn; repeat constructor; auto.
  - intros e w1 H. rewrite createScriptLoaderBundle_bind, H. split; [reflexivity|].
    destruct Hbackup as [[_ H']|[H'|[H'|H']]].
    + rewrite H in H'. inversion H'. reflexivity.
    + rewrite H in H'. inversion H'. reflexivity.
    + destruct H' as (e' & pre & w1' & H' & Hfiles & _).
      rewrite H in H'. inversion H'; subst. exact Hfiles.
    + destruct H' as (b & pre & w1' & H' & _). rewrite H in H'. discriminate H'.
Qed.

End LoaderBundle.

Section LoaderBundleRun.

Context (pf : platform).

(** A run of the generator that returns: the bundle file has been copied to
    its backup and then overwritten with the one-entry loader bundle. *)
Lemma createScriptLoaderBundle_Ok bundleFile backUps scriptFolder w r w' :
  createScriptLoaderBundle pf bundleFile backUps scriptFolder w = (Ok r, w') ->
  r = LOADER_BUNDLE_CREATED /\
  exists b,
    files w !! bundleFile = Some b /\
    files w'
    = <[bundleFile := encodeBundle pf [loaderEntryFor pf scriptFolder]]>
        (<[backUpPath pf bundleFile backUps w := b]> (files w)).
Proof.
  intros Hrun. rewrite createScriptLoaderBundle_bind in Hrun.
  destruct (createBackUp_run pf bundleFile backUps w) as [[_ H]|[H|[H|H]]].
  - rewrite H in Hrun. discriminate Hrun.
  - rewrite H in Hrun. discriminate Hrun.
  - destruct H as (e & pre & w1 & H & _). rewrite H in Hrun. discriminate Hrun.
  - destruct H as (b & pre & w1 & H & Hb & Hfiles & _). rewrite H in Hrun.
    cbv zeta in Hrun. destruct (refused w1 _); [discriminate Hrun|].
    inversion Hrun; subst. split; [reflexivity|]. exists b. split; [exact Hb|].
    cbn. rewrite Hfiles. reflexivity.
Qed.

(** The files after a run that returns: those there were, and the backup. *)
Lemma createScriptLoaderBundle_files bundleFile backUps scriptFolder w r w' :
  createScriptLoaderBundle pf bundleFile backUps scriptFolder w = (Ok r, w') ->
  dom (files w') = {[ backUpPath pf bundleFile backUps w ]} ∪ dom (files w).
Proof.
  intros Hrun. apply createScriptLoaderBundle_Ok in Hrun as (_ & b & Hb & ->).
  rewrite !dom_insert_L.
  assert (Hin : bundleFile ∈ dom (files w)) by (apply elem_of_dom; eauto).
  apply set_eq. intros p. rewrite !elem_of_union, !elem_of_singleton.
  split; [intros [-> | H]; auto | auto].
Qed.

(** After a run that returns, the bundle file decodes to the loader entry
    alone. *)
Lemma createScriptLoaderBundle_decodes bundleFile backUps scriptFolder w r w' :
  platform_ok pf ->
  isText pf (loaderEntryFor pf scriptFolder) ->
  createScriptLoaderBundle pf bundleFile backUps scriptFolder w = (Ok r, w') ->
  readBundleFile pf bundleFile w'
  = (Ok [scriptOf (loaderEntryFor pf scriptFolder)], w').
Proof.
  intros Hok Htext Hrun.
  apply createScriptLoaderBundle_Ok in Hrun as (_ & b & _ & Hfiles).
  apply (readBundleFile_encoded pf w' bundleFile [loaderEntryFor pf scriptFolder] Hok).
  - constructor; [exact Htext|constructor].
  - rewrite Hfiles. apply lookup_insert_eq.
Qed.

(** The backup is made when the file is there and no call is refused. *)
Lemma createBackUp_total file folder w :
  isFile w file = true ->
  (forall c, refused w c = false) ->
  exists w1, createBackUp pf file folder w = (Ok (), w1) /\ refused w1 = refused w.
Proof.
  intros Hfile Hrefused.
  assert (Hsome : is_Some (files w !! file))
    by (unfold isFile in Hfile; apply bool_decide_eq_true in Hfile; exact Hfile).
  destruct Hsome as [b Hb].
  unfold createBackUp. rewrite bind_run. cbn [existsSync]. rewrite Hfile.
  cbn [orb negb]. rewrite bind_run. cbn [existsSync].
  destruct (isFile w folder || isDirectory w folder); cbn [negb].
  - rewrite bind_run, ret_run, bind_run, currentDate_run.
    unfold copyFileSync, attempt. rewrite Hb, Hrefused. eauto.
  - rewrite bind_run. unfold mkdirSync, attempt. rewrite Hrefused.
    rewrite bind_run, currentDate_run. unfold copyFileSync, attempt.
    destruct (dirs w !! folder); cbn [files set_dirs log refused clock];
      rewrite Hb, Hrefused; eauto.
Qed.

(** The generator returns when the bundle file is there and no call is
    refused. *)
Lemma createScriptLoaderBundle_total bundleFile backUps scriptFolder w :
  isFile w bundleFile = true ->
  (forall c, refused w c = false) ->
  exists w',
    createScriptLoaderBundle pf bundleFile backUps scriptFolder w
    = (Ok LOADER_BUNDLE_CREATED, w').
Proof.
  intros Hfile Hrefused. rewrite createScriptLoaderBundle_bind.
  destruct (createBackUp_total bundleFile backUps w Hfile Hrefused) as (w1 & -> & Href).
  cbv zeta. rewrite Href, Hrefused. eauto.
Qed.

End LoaderBundleRun.

Example backUpPath_afterFirstRun :
  backUpPath Reference.pf bundlePath (js "Backups") afterFirstRun = earlierBackUp.
Proof. vm_compute. reflexivity. Qed.

(** C3: two runs of the generator within one second.  The first run backs
    the bundle up; the second run returns too, but no file is new after it,
    and the backup of the first run is lost: the file now holds a copy of the
    loader bundle. *)
Theorem createScriptLoaderBundle_overwrites_backup :
  createScriptLoaderBundle Reference.pf bundlePath (js "Backups") (js "Scripts")
    (worldWith [mainEntry; utilEntry]) = (Ok LOADER_BUNDLE_CREATED, afterFirstRun) /\
  files afterFirstRun !! earlierBackUp
  = Some (encodeBundle Reference.pf [mainEntry; utilEntry]) /\
  exists w',
    createScriptLoaderBundle Reference.pf bundlePath (js "Backups") (js "Scripts")
      afterFirstRun = (Ok LOADER_BUNDLE_CREATED, w') /\
    dom (files w') = dom (files afterFirstRun) /\
    files w' !! earlierBackUp
    = Some (encodeBundle Reference.pf [loaderEntryFor Reference.pf (js "Scripts")]).
Proof.
  assert (Hold : files afterFirstRun !! earlierBackUp
                 = Some (encodeBundle Reference.pf [mainEntry; utilEntry]))
    by (vm_compute; reflexivity).
  assert (Hbundle : files afterFirstRun !! bundlePath
                    = Some (encodeBundle Reference.pf
                              [loaderEntryFor Reference.pf (js "Scripts")]))
    by (vm_compute; reflexivity).
  split; [vm_compute; reflexivity|]. split; [exact Hold|].
  destruct (createScriptLoaderBundle Reference.pf bundlePath (js "Backups")
              (js "Scripts") afterFirstRun) as [r w'] eqn:Hrun.
  assert (Hr : r = Ok LOADER_BUNDLE_CREATED).
  { apply (f_equal fst) in Hrun. cbn [fst] in Hrun. rewrite <- Hrun.
    vm_compute. reflexivity. }
  subst r. exists w'. split; [reflexivity|].
  pose proof (createScriptLoaderBundle_files _ _ _ _ _ _ _ Hrun) as Hdom.
  pose proof (createScriptLoaderBundle_Ok _ _ _ _ _ _ _ Hrun) as (_ & b & Hb & Hfiles).
  rewrite backUpPath_afterFirstRun in *.
  split.
  - rewrite Hdom. apply set_eq. intros p.
    rewrite elem_of_union, elem_of_singleton.
    split; [intros [-> | H]; [apply elem_of_dom; eauto | exact H] | auto].
  - rewrite Hfiles, lookup_insert_ne by (vm_compute; discriminate).
    rewrite lookup_insert_eq. congruence.
Qed.

(** ** Sections *)


Lemma includesSection_false sections section :
  includesSection sections section = false <-> section ∉ sections.
Proof.
  unfold includesSection. rewrite <- not_true_iff_false, existsb_exists.
  split.
  - intros H Hin. apply H. exists section. split; [apply list_elem_of_In, Hin|].
    apply Z.eqb_refl.
  - intros H (x & Hin & Hx). apply Z.eqb_eq in Hx. subst x.
    apply H, list_elem_of_In, Hin.
Qed.

Lemma generateScriptSection_loop_run sections :
  forall supply fuel w,
    randoms w = supply -> (length supply < fuel)%nat ->
    generateScriptSection_loop fuel sections w =
    match firstFresh sections supply with
    | Some (section, rest) => (Ok section, set_randoms rest w)
    | None => (Unfinished, set_randoms [] w)
    end.
Proof.
  induction supply as [|r rest IH]; intros [|fuel] w Hw Hfuel; cbn in Hfuel; try lia.
  - cbn. rewrite bind_run. unfold Math_random. rewrite Hw.
    destruct w; cbn in *; subst; reflexivity.
  - cbn [generateScriptSection_loop firstFresh]. rewrite bind_run.
    unfold Math_random. rewrite Hw. fold (sectionOf r).
    destruct (includesSection sections (sectionOf r)); [|reflexivity].
    rewrite (IH fuel (set_randoms rest w)) by (cbn; first [reflexivity | lia]).
    destruct (firstFresh sections rest) as [[section rest']|]; reflexivity.
Qed.

Lemma generateScriptSection_run sections w :
  generateScriptSection sections w =
  match firstFresh sections (randoms w) with
  | Some (section, rest) => (Ok section, set_randoms rest w)
  | None => (Unfinished, set_randoms [] w)
  end.
Proof. apply generateScriptSection_loop_run; [reflexivity|lia]. Qed.

Lemma firstFresh_Some sections supply section rest :
  firstFresh sections supply = Some (section, rest) ->
  (section ∉ sections) /\ exists r, (r ∈ supply) /\ section = sectionOf r.
Proof.
  induction supply as [|r supply IH]; cbn [firstFresh]; [discriminate|].
  destruct (includesSection sections (sectionOf r)) eqn:E.
  - intros H. destruct (IH H) as (Hfresh & r' & Hin & Hr').
    split; [exact Hfresh|]. exists r'. split; [right; exact Hin|exact Hr'].
  - intros H. inversion H; subst. split; [apply includesSection_false, E|].
    exists r. split; [left|reflexivity].
Qed.


(** A call that returns gives a section that is not in the list. *)
Lemma generateScriptSection_Ok sections w section w' :
  generateScriptSection sections w = (Ok section, w') ->
  (section ∉ sections) /\ files w' = files w /\ dirs w' = dirs w /\
  refused w' = refused w /\ trace w' = trace w.
Proof.
  rewrite generateScriptSection_run.
  destruct (firstFresh sections (randoms w)) as [[s rest]|] eqn:E; [|discriminate].
  intros H. inversion H; subst. apply firstFresh_Some in E as [Hfresh _].
  repeat split. exact Hfresh.
Qed.

(** ** Bundle creation *)

Lemma readOnly_readdirSync p : readOnly (readdirSync p).
Proof.
  intros w r w' H. unfold readdirSync in H.
  destruct (dirs w !! p); inversion H; reflexivity.
Qed.

Lemma readOnly_statSync_isDirectory p : readOnly (statSync_isDirectory p).
Proof.
  intros w r w' H. unfold statSync_isDirectory in H.
  destruct (isFile w p || isDirectory w p); inversion H; reflexivity.
Qed.

Lemma readOnly_statSync_isFile p : readOnly (statSync_isFile p).
Proof.
  intros w r w' H. unfold statSync_isFile in H.
  destruct (isFile w p || isDirectory w p); inversion H; reflexivity.
Qed.

Lemma readOnly_unfinished {A} : readOnly (unfinished : M A).
Proof. intros w r w' H. inversion H. reflexivity. Qed.

Section BundleCreation.

Context (pf : platform).

Lemma readOnly_isRubyScript file : readOnly (isRubyScript pf file).
Proof.
  unfold isRubyScript. apply readOnly_bind; [apply readOnly_existsSync|].
  intros found. destruct (negb found); [apply readOnly_ret|].
  apply readOnly_bind; [apply readOnly_statSync_isFile|].
  intros regular. destruct (negb regular); apply readOnly_ret.
Qed.

Lemma readOnly_readDir fuel : forall base recursive, readOnly (readDir pf fuel base recursive).
Proof.
  induction fuel as [|fuel IH]; intros base recursive; cbn [readDir].
  - apply readOnly_unfinished.
  - apply readOnly_bind; [apply readOnly_readdirSync|]. intros names.
    apply readOnly_foldM. intros entries entry. cbv zeta.
    apply readOnly_bind; [apply readOnly_statSync_isDirectory|]. intros isDir.
    destruct (isDir && recursive); [|apply readOnly_ret].
    apply readOnly_bind; [apply IH|]. intros sub. apply readOnly_ret.
Qed.

Lemma readOnly_filterM f entries :
  (forall e, readOnly (f e)) -> readOnly (filterM f entries).
Proof.
  intros Hf. induction entries as [|e entries IH]; cbn [filterM].
  - apply readOnly_ret.
  - apply readOnly_bind; [apply Hf|]. intros keep.
    apply readOnly_bind; [apply IH|]. intros kept. apply readOnly_ret.
Qed.

Lemma readOnly_readDirectory base filter :
  (forall entries, readOnly (filter entries)) -> readOnly (readDirectory pf base filter).
Proof.
  intros Hfilter w r w' H. unfold readDirectory in H.
  revert H. apply readOnly_bind; [apply readOnly_readDir|apply Hfilter].
Qed.

Lemma bundleLoop_Ok bundle sections script w bundle' sections' w' :
  bundleLoop pf (bundle, sections) script w = (Ok (bundle', sections'), w') ->
  exists e,
    builtFrom pf w script e /\ (entry_section e ∉ sections) /\
    bundle' = bundle ++ [rowOf pf e] /\ sections' = sections ++ [entry_section e] /\
    files w' = files w /\ refused w' = refused w /\ trace w' = trace w.
Proof.
  unfold bundleLoop. rewrite bind_run.
  destruct (generateScriptSection sections w) as [[section|e|] w1] eqn:Hgen;
    try discriminate.
  apply generateScriptSection_Ok in Hgen as (Hfresh & Hfiles & _ & Hrefused & Htrace).
  rewrite bind_run. unfold readFileSync. rewrite Hfiles.
  destruct (files w !! script) as [contents|] eqn:Hcontents; [|discriminate].
  cbv zeta. rewrite ret_run. intros H. inversion H; subst.
  exists (entryOfScript pf script section contents).
  split; [exists contents; split; [exact Hcontents|reflexivity]|].
  repeat split; assumption.
Qed.

Lemma foldM_bundleLoop_Ok scripts :
  forall bundle sections w bundle' sections' w',
    foldM (bundleLoop pf) (bundle, sections) scripts w = (Ok (bundle', sections'), w') ->
    exists entries,
      Forall2 (builtFrom pf w) scripts entries /\
      bundle' = bundle ++ List.map (rowOf pf) entries /\
      sections' = sections ++ List.map entry_section entries /\
      (NoDup sections -> NoDup sections') /\
      files w' = files w /\ refused w' = refused w /\ trace w' = trace w.
Proof.
  induction scripts as [|script scripts IH]; intros bundle sections w bundle' sections' w'.
  - cbn. intros H. inversion H; subst. exists []. rewrite !app_nil_r.
    repeat split; auto.
  - cbn [foldM]. rewrite bind_run.
    destruct (bundleLoop pf (bundle, sections) script w) as [[[bundle1 sections1]|e|] w1]
      eqn:Hstep; try discriminate.
    apply bundleLoop_Ok in Hstep as
      (e & Hbuilt & Hfresh & -> & -> & Hfiles & Hrefused & Htrace).
    intros Hrest. apply IH in Hrest as
      (entries & Hall & -> & -> & Hnodup & Hfiles' & Hrefused' & Htrace').
    exists (e :: entries). cbn [List.map]. rewrite <- !app_assoc. cbn [app].
    split; [|repeat split; try congruence].
    + constructor; [exact Hbuilt|].
      eapply Forall2_impl; [exact Hall|]. intros script' e' (contents & Hc & He).
      exists contents. rewrite <- Hfiles. split; assumption.
    + intros Hsections.
      change (sections ++ entry_section e :: List.map entry_section entries)
        with (sections ++ [entry_section e] ++ List.map entry_section entries).
      rewrite app_assoc. apply Hnodup. apply NoDup_app. split; [exact Hsections|]. split.
      * intros x Hx Hin. apply list_elem_of_singleton in Hin. subst x. contradiction.
      * apply NoDup_singleton.
Qed.

(** A run of [createBundleFile] that returns: the script files listed, the
    entries made of them, and the encoding of these entries written to the
    destination. *)
Lemma createBundleFile_Ok scriptsFolder destination w r w' :
  createBundleFile pf scriptsFolder destination w = (Ok r, w') ->
  r = BUNDLE_CREATED /\
  exists scripts entries,
    readDirectory pf scriptsFolder (filterM (isRubyScript pf)) w = (Ok scripts, w) /\
    Forall2 (builtFrom pf w) scripts entries /\
    NoDup (LOADER_SCRIPT_SECTION :: List.map entry_section entries) /\
    files w' = <[destination := encodeBundle pf entries]> (files w).
Proof.
  unfold createBundleFile. rewrite bind_run. cbn [existsSync].
  destruct (isFile w scriptsFolder || isDirectory w scriptsFolder); cbn [negb];
    [|discriminate].
  rewrite bind_run.
  destruct (readDirectory pf scriptsFolder (filterM (isRubyScript pf)) w)
    as [[scripts|e|] w1] eqn:Hlist; try discriminate.
  assert (w1 = w) as ->.
  { eapply readOnly_readDirectory; [|exact Hlist]. intros entries.
    apply readOnly_filterM, readOnly_isRubyScript. }
  rewrite bind_run.
  destruct (foldM (bundleLoop pf) ([], [LOADER_SCRIPT_SECTION]) scripts w)
    as [[[bundle sections]|e|] w2] eqn:Hloop; try discriminate.
  apply foldM_bundleLoop_Ok in Hloop as
    (entries & Hall & -> & -> & Hnodup & Hfiles & Hrefused & Htrace).
  cbv zeta. rewrite bind_run, writeFileSync_run.
  destruct (refused w2 _); [discriminate|]. rewrite ret_run.
  intros H. inversion H; subst. split; [reflexivity|].
  exists scripts, entries. split; [reflexivity|]. split; [exact Hall|]. split.
  - apply Hnodup. apply NoDup_singleton.
  - cbn. rewrite Hfiles. reflexivity.
Qed.

Lemma firstFresh_head sections r rest :
  sectionOf r ∉ sections ->
  firstFresh sections (r :: rest) = Some (sectionOf r, rest).
Proof.
  intros H. cbn [firstFresh].
  apply includesSection_false in H. rewrite H. reflexivity.
Qed.

(** The loop returns when every script can be read and the numbers at hand
    give sections that are new each time. *)
Lemma foldM_bundleLoop_total scripts :
  forall bundle sections w,
    Forall (fun script => is_Some (files w !! script)) scripts ->
    NoDup (sections ++ List.map sectionOf (randoms w)) ->
    (length scripts <= length (randoms w))%nat ->
    exists bundle' sections' w',
      foldM (bundleLoop pf) (bundle, sections) scripts w
      = (Ok (bundle', sections'), w').
Proof.
  induction scripts as [|script scripts IH]; intros bundle sections w Hfiles Hnodup Hlen.
  - cbn. eauto.
  - inversion Hfiles as [|? ? [contents Hcontents] Hfiles']; subst.
    destruct (randoms w) as [|r rest] eqn:Hsupply; [cbn in Hlen; lia|].
    cbn [List.map] in Hnodup.
    assert (Hfresh : sectionOf r ∉ sections).
    { apply NoDup_app in Hnodup as (_ & Hnotin & _). intros Hin.
      apply (Hnotin _ Hin). left. }
    cbn [foldM]. rewrite bind_run. unfold bundleLoop at 1.
    rewrite bind_run, generateScriptSection_run, Hsupply, (firstFresh_head _ _ _ Hfresh).
    rewrite bind_run. unfold readFileSync. cbn [files set_randoms]. rewrite Hcontents.
    cbv zeta. rewrite ret_run.
    apply IH.
    + exact Hfiles'.
    + cbn [randoms set_randoms]. rewrite <- app_assoc. exact Hnodup.
    + cbn [randoms set_randoms]. cbn in Hlen. lia.
Qed.

(** [createBundleFile] returns when the folder is there, the listing of its
    script files is made, every script can be read, the numbers at hand give
    sections that are new each time, and no call is refused. *)
Lemma createBundleFile_total scriptsFolder destination w scripts :
  isFile w scriptsFolder || isDirectory w scriptsFolder = true ->
  readDirectory pf scriptsFolder (filterM (isRubyScript pf)) w = (Ok scripts, w) ->
  Forall (fun script => is_Some (files w !! script)) scripts ->
  NoDup (LOADER_SCRIPT_SECTION :: List.map sectionOf (randoms w)) ->
  (length scripts <= length (randoms w))%nat ->
  (forall c, refused w c = false) ->
  exists w', createBundleFile pf scriptsFolder destination w = (Ok BUNDLE_CREATED, w').
Proof.
  intros Hfolder Hlist Hfiles Hnodup Hlen Hrefused.
  unfold createBundleFile. rewrite bind_run. cbn [existsSync]. rewrite Hfolder.
  cbn [negb]. rewrite bind_run, Hlist, bind_run.
  destruct (foldM_bundleLoop_total scripts [] [LOADER_SCRIPT_SECTION] w Hfiles Hnodup Hlen)
    as (bundle & sections & w1 & Hloop).
  rewrite Hloop.
  apply foldM_bundleLoop_Ok in Hloop as (_ & _ & _ & _ & _ & _ & Href & _).
  cbv zeta. rewrite bind_run, writeFileSync_run, Href, Hrefused, ret_run. eauto.
Qed.

End BundleCreation.

Section BundleClaims.

Context (pf : platform).


(** C4, as the code has it: in a run of [createBundleFile] that returns,
    every script file listed gives one entry, whose code is the text of the
    file as it was read, with or without the encoding pragma, and the
    encoding of these entries is what the destination holds; read back, the
    bundle gives these very texts.  The run returns when the folder is there
    and listed, every script can be read, the numbers at hand give new
    sections and no call is refused. *)
Theorem createBundleFile_stores_text (scriptsFolder destination : list N)
    (w : world) :
  (forall scripts,
     isFile w scriptsFolder || isDirectory w scriptsFolder = true ->
     readDirectory pf scriptsFolder (filterM (isRubyScript pf)) w = (Ok scripts, w) ->
     Forall (fun script => is_Some (files w !! script)) scripts ->
     NoDup (LOADER_SCRIPT_SECTION :: List.map sectionOf (randoms w)) ->
     (length scripts <= length (randoms w))%nat ->
     (forall c, refused w c = false) ->
     exists w', createBundleFile pf scriptsFolder destination w = (Ok BUNDLE_CREATED, w')) /\
  (forall r w',
     createBundleFile pf scriptsFolder destination w = (Ok r, w') ->
     exists scripts entries,
       readDirectory pf scriptsFolder (filterM (isRubyScript pf)) w = (Ok scripts, w) /\
       Forall2 (fun script e =>
                  exists contents,
                    files w !! script = Some contents /\
                    entry_code e = utf8_toString pf contents) scripts entries /\
       files w' !! destination = Some (encodeBundle pf entries) /\
       (platform_ok pf -> Forall (isText pf) entries ->
        readBundleFile pf destination w' = (Ok (List.map scriptOf entries), w'))).
Proof.
  split.
  - intros scripts. apply createBundleFile_total.
  - intros r w' Hrun.
    apply createBundleFile_Ok in Hrun as (_ & scripts & entries & Hlist & Hall & _ & Hfiles).
    exists scripts, entries. split; [exact Hlist|]. split; [|split].
    + eapply Forall2_impl; [exact Hall|]. intros script e (contents & Hc & He).
      exists contents. split; [exact Hc|]. rewrite He. reflexivity.
    + rewrite Hfiles. apply lookup_insert_eq.
    + intros Hok Htext. apply readBundleFile_encoded; [assumption..|].
      rewrite Hfiles. apply lookup_insert_eq.
Qed.

End BundleClaims.


Lemma createBundleFile_stores_text_witness :
  let w' := snd (createBundleFile Reference.pf (js "Scripts") bundlePath scriptsWorld) in
  exists scripts entries,
    readDirectory Reference.pf (js "Scripts") (filterM (isRubyScript Reference.pf))
      scriptsWorld = (Ok scripts, scriptsWorld) /\
    Forall2 (fun script e =>
               exists contents,
                 files scriptsWorld !! script = Some contents /\
                 entry_code e = utf8_toString Reference.pf contents) scripts entries /\
    files w' !! bundlePath = Some (encodeBundle Reference.pf entries) /\
    (platform_ok Reference.pf -> Forall (isText Reference.pf) entries ->
     readBundleFile Reference.pf bundlePath w' = (Ok (List.map scriptOf entries), w')).
Proof.
  apply (proj2 (createBundleFile_stores_text Reference.pf (js "Scripts") bundlePath
                  scriptsWorld) BUNDLE_CREATED).
  vm_compute. reflexivity.
Defined.

(** C4, as the claim has it, fails: a script file without the encoding pragma
    is stored as it is; the bundle built from it decodes to the text of the
    file, which is not the text with the pragma put in front. *)
Lemma createBundleFile_no_pragma :
  exists w',
    createBundleFile Reference.pf (js "Scripts") bundlePath scriptsWorld
    = (Ok BUNDLE_CREATED, w') /\
    readBundleFile Reference.pf bundlePath w'
    = (Ok [ {| section := JNumber 66884710;
               name := js "Main";
               code := js "puts 1" |} ], w') /\
    processScriptCode (js "puts 1") = ENCODING_PRAGMA ++ [10] ++ js "puts 1" /\
    processScriptCode (js "puts 1") <> js "puts 1".
Proof.
  eexists. split; [vm_compute; reflexivity|].
  split; [vm_compute; reflexivity|].
  split; [reflexivity|]. vm_compute. discriminate.
Qed.

(** ** The name formatter at its limits *)

(** C7: a name that has [.rb] in it, but not at its end, is formatted
    without the extension: the formatted name does not end with [.rb]. *)
Theorem formatScriptName_without_extension :
  formatScriptName (js "Patch.rb v2") 3 = js "0003 - Patch.rb v2" /\
  endsWith (formatScriptName (js "Patch.rb v2") 3) (js ".rb") = false.
Proof. split; reflexivity. Qed.

(** C8: deformatting a formatted name gives the name back with the space
    that follows the dash in front of it, not the trimmed name. *)
Theorem deformatScriptName_keeps_space :
  formatScriptName (js "Main") 1 = js "0001 - Main.rb" /\
  trim (replace_INVALID_CHARACTERS (js "Main")) = js "Main" /\
  deformatScriptName (formatScriptName (js "Main") 1) = js " Main".
Proof. repeat split; reflexivity. Qed.


(** ** What deformatting a formatted name gives *)

Lemma basename_from_no_separator s :
  Forall (fun c => isSeparator c = false) s -> forall acc, basename_from acc s = acc.
Proof.
  induction 1 as [|c s Hc _ IH]; intros acc; cbn; [reflexivity|].
  rewrite Hc. apply IH.
Qed.

Lemma basename_no_separator s :
  Forall (fun c => isSeparator c = false) s -> basename s = s.
Proof. intros H. apply basename_from_no_separator, H. Qed.

Lemma validChar_no_separator c : validChar c -> isSeparator c = false.
Proof.
  unfold validChar, INVALID_CHARACTERS, isSeparator. intros H.
  repeat (apply orb_false_elim in H as [H ?]).
  apply orb_false_intro; assumption.
Qed.

(** The end of the pattern, [\.rb$] under the [i] flag, matches the three
    characters of the extension and nothing else. *)
Lemma rmatch_extension s c k :
  rmatch (RSeq (lit ".") (RSeq (lit_i "r" "R") (RSeq (lit_i "b" "B") REnd))) s c k
  = if isRbExtension s then k [] c else None.
Proof.
  unfold lit, lit_i.
  change (N_of_ascii ".") with 46. change (N_of_ascii "r") with 114.
  change (N_of_ascii "R") with 82. change (N_of_ascii "b") with 98.
  change (N_of_ascii "B") with 66.
  destruct s as [|d [|r [|b [|x s]]]]; cbn [rmatch isRbExtension]; try reflexivity.
  - destruct (d =? 46); reflexivity.
  - destruct (d =? 46); [|reflexivity].
    destruct ((r =? 114) || (r =? 82)); reflexivity.
  - destruct (d =? 46); [|reflexivity].
    destruct ((r =? 114) || (r =? 82)); [|reflexivity].
    destruct ((b =? 98) || (b =? 66)); reflexivity.
  - destruct (d =? 46); [|reflexivity].
    destruct ((r =? 114) || (r =? 82)); [|reflexivity].
    destruct ((b =? 98) || (b =? 66)); reflexivity.
Qed.

(** A greedy loop over the characters that satisfy [p] runs to the first
    character that does not, when the rest of the pattern matches there. *)
Lemma starLoop_greedy p k r :
  forall ds rest fuel c,
    Forall (fun x => p x = true) ds ->
    match rest with x :: _ => p x = false | [] => True end ->
    (length (ds ++ rest) <= fuel)%nat ->
    k rest c = Some r ->
    starLoop true (rmatch (RChar p)) k fuel (ds ++ rest) c = Some r.
Proof.
  induction ds as [|d ds IH]; intros rest fuel c Hds Hrest Hfuel Hk.
  - cbn [app]. destruct fuel as [|fuel]; cbn [starLoop]; [rewrite Hk; reflexivity|].
    destruct rest as [|x rest]; cbn [rmatch]; [rewrite Hk; reflexivity|].
    rewrite Hrest. cbn. rewrite Hk. reflexivity.
  - inversion Hds as [|? ? Hd Hds']; subst.
    destruct fuel as [|fuel]; [cbn in Hfuel; lia|].
    cbn [starLoop app rmatch]. rewrite Hd.
    assert (Hlen : (length (ds ++ rest) <? length (d :: ds ++ rest))%nat = true)
      by (apply Nat.ltb_lt; cbn; lia).
    rewrite Hlen, IH; [reflexivity|assumption..| |assumption].
    cbn in Hfuel. lia.
Qed.

(** A lazy loop over any characters stops at the first place where the rest
    of the pattern matches. *)
Lemma starLoop_lazy k r :
  forall a rest fuel c,
    Forall (fun x => isLineTerminator x = false) a ->
    (forall a1 x a2, a = a1 ++ x :: a2 -> k (x :: a2 ++ rest) c = None) ->
    (length (a ++ rest) <= fuel)%nat ->
    k rest c = Some r ->
    starLoop false (rmatch any) k fuel (a ++ rest) c = Some r.
Proof.
  induction a as [|x a IH]; intros rest fuel c Ha Hnone Hfuel Hk.
  - cbn [app]. destruct fuel; cbn [starLoop]; rewrite Hk; reflexivity.
  - inversion Ha as [|? ? Hx Ha']; subst.
    destruct fuel as [|fuel]; [cbn in Hfuel; lia|].
    cbn [starLoop app]. rewrite (Hnone [] x a eq_refl). cbn [orElse].
    unfold any at 1. cbn [rmatch]. rewrite Hx. cbn [negb].
    assert (Hlen : (length (a ++ rest) <? length (x :: a ++ rest))%nat = true)
      by (apply Nat.ltb_lt; cbn; lia).
    rewrite Hlen. apply IH; [assumption| |cbn in Hfuel; lia|assumption].
    intros a1 y a2 ->. apply (Hnone (x :: a1) y a2). reflexivity.
Qed.

Lemma isRbExtension_length s : isRbExtension s = true -> length s = 3%nat.
Proof. destruct s as [|d [|r [|b [|x s]]]]; cbn; congruence. Qed.

Lemma rmatch_group_lazy rest s c k :
  rmatch (RSeq (RGroup (RStar false any)) rest) s c k
  = starLoop false (rmatch any)
      (fun s' c' => rmatch rest s' (Some (take (length s - length s') s)) k)
      (length s) s c.
Proof. reflexivity. Qed.

(** The capture group and the end of the pattern: on [a] followed by the
    extension, the group captures [a]. *)
Lemma rmatch_capture a ext c :
  Forall (fun x => isLineTerminator x = false) a ->
  isRbExtension ext = true ->
  rmatch (RSeq (RGroup (RStar false any))
            (RSeq (lit ".") (RSeq (lit_i "r" "R") (RSeq (lit_i "b" "B") REnd))))
    (a ++ ext) c (fun s' c' => Some (s', c'))
  = Some ([], Some a).
Proof.
  intros Ha Hext. rewrite rmatch_group_lazy.
  apply starLoop_lazy; [exact Ha| |lia|].
  - intros a1 x a2 ->. rewrite rmatch_extension.
    destruct (isRbExtension (x :: a2 ++ ext)) eqn:E; [|reflexivity].
    apply isRbExtension_length in E, Hext. cbn in E. rewrite length_app in E. lia.
  - rewrite rmatch_extension, Hext. rewrite length_app.
    replace (length a + length ext - length ext)%nat with (length a) by lia.
    rewrite take_app_length. reflexivity.
Qed.

(** The pattern, taken apart: the optional prefix, and what follows it. *)
Lemma rmatch_DEFORMAT_SCRIPT_NAME d s c k :
  rmatch DEFORMAT_SCRIPT_NAME (d :: s) c k
  = let capture :=
      RSeq (RGroup (RStar false any))
        (RSeq (lit ".") (RSeq (lit_i "r" "R") (RSeq (lit_i "b" "B") REnd))) in
    let k1 := fun (s' : list N) (c' : option (list N)) =>
                if (length s' <? length (d :: s))%nat then rmatch capture s' c' k
                else None in
    orElse
      (if isDigit d then
         starLoop true (rmatch (RChar isDigit))
           (fun s1 c1 =>
              starLoop true (rmatch (RChar isTrimmable))
                (fun s2 c2 =>
                   match s2 with
                   | x :: s3 =>
                       if x =? 45
                       then starLoop false (rmatch any) k1 (length s3) s3 c2
                       else None
                   | [] => None
                   end)
                (length s1) s1 c1)
           (length s) s c
       else None)
      (rmatch capture (d :: s) c k).
Proof. reflexivity. Qed.

(** On a name made of digits, [ - ], a text without line terminators and the
    extension, the pattern matches at the start and captures the text with
    the space that follows the dash. *)
Lemma exec_DEFORMAT_SCRIPT_NAME d ds a ext :
  Forall (fun x => isDigit x = true) (d :: ds) ->
  Forall (fun x => isLineTerminator x = false) a ->
  isRbExtension ext = true ->
  exec DEFORMAT_SCRIPT_NAME ((d :: ds) ++ js " - " ++ a ++ ext) = Some (Some (32 :: a)).
Proof.
  intros Hds Ha Hext. inversion Hds as [|? ? Hd Hds']; subst.
  assert (Hmatch :
    rmatch DEFORMAT_SCRIPT_NAME (d :: ds ++ js " - " ++ a ++ ext) None
      (fun s' c' => Some (s', c')) = Some ([], Some (32 :: a))).
  { rewrite rmatch_DEFORMAT_SCRIPT_NAME. cbv zeta. rewrite Hd.
    match goal with |- orElse ?m _ = _ => enough (H : m = Some ([], Some (32 :: a)))
      by (rewrite H; reflexivity) end.
    apply (starLoop_greedy isDigit); [exact Hds'|reflexivity|lia|].
    change (js " - " ++ a ++ ext) with ([32%N] ++ (45%N :: 32%N :: a ++ ext)).
    apply (starLoop_greedy isTrimmable); [repeat constructor|reflexivity|lia|].
    change (45 =? 45)%N with true. cbv iota.
    change (32%N :: a ++ ext) with ([] ++ ((32%N :: a) ++ ext)).
    apply starLoop_lazy; [constructor| |cbn; lia|].
    - intros [|? ?] ? ? H; discriminate H.
    - match goal with |- (if ?b then _ else _) = _ =>
        assert (Hlen : b = true)
          by (apply Nat.ltb_lt; cbn; rewrite !length_app; cbn; rewrite !length_app; cbn; lia)
      end.
      rewrite Hlen. apply rmatch_capture; [|exact Hext].
      constructor; [reflexivity|exact Ha]. }
  cbn [app exec]. rewrite Hmatch. reflexivity.
Qed.

Lemma padStart_cons n s :
  (0 < n)%nat -> Forall (fun x => isDigit x = true) s ->
  exists d ds, padStart n 48 s = d :: ds /\ Forall (fun x => isDigit x = true) (d :: ds).
Proof.
  intros Hn Hs. pose proof (padStart_zero_digits n s Hs) as H.
  destruct (padStart n 48 s) as [|d ds] eqn:E.
  - exfalso. unfold padStart in E. apply app_eq_nil in E as [E1 E2]. subst s.
    cbn in E1. destruct n; [lia|discriminate E1].
  - eauto.
Qed.

(** Deformatting a formatted name: when the cleaned name has no line
    terminator in it and the formatted name got its extension appended, the
    result is the cleaned name with one space in front of it. *)
Theorem deformatScriptName_formatScriptName (scriptName : list N) (scriptIndex : nat) :
  let core := trim (replace_INVALID_CHARACTERS scriptName) in
  Forall (fun c => isLineTerminator c = false) core ->
  includes (padStart 4 48 (Number_toString scriptIndex) ++ js " - " ++ core)
    (js ".rb") = false ->
  deformatScriptName (formatScriptName scriptName scriptIndex) = 32 :: core.
Proof.
  intros core Hcore Hincludes. unfold deformatScriptName.
  rewrite basename_no_separator.
  2:{ eapply Forall_impl; [apply formatScriptName_valid|].
      intros c. apply validChar_no_separator. }
  rewrite formatScriptName_shape. cbv zeta. fold core. rewrite Hincludes.
  destruct (padStart_cons 4 (Number_toString scriptIndex)) as (d & ds & -> & Hds);
    [lia|apply Number_toString_digits|].
  rewrite <- !app_assoc.
  rewrite (exec_DEFORMAT_SCRIPT_NAME d ds core (js ".rb") Hds Hcore eq_refl).
  reflexivity.
Qed.

Lemma deformatScriptName_formatScriptName_witness :
  deformatScriptName (formatScriptName (js "Game_Actor") 12) = 32 :: js "Game_Actor".
Proof.
  apply (deformatScriptName_formatScriptName (js "Game_Actor") 12).
  - vm_compute. repeat constructor.
  - vm_compute. reflexivity.
Defined.

(** ** What holds of the formatter and of the generator *)

Lemma startsWith_app p s : startsWith (p ++ s) p = true.
Proof.
  induction p as [|c p IH]; cbn; [destruct s; reflexivity|].
  rewrite N.eqb_refl, IH. reflexivity.
Qed.

Lemma includes_app_r s p : includes (s ++ p) p = true.
Proof.
  induction s as [|c s IH]; cbn [app].
  - destruct p as [|y p]; cbn; [reflexivity|].
    rewrite N.eqb_refl. rewrite <- (app_nil_r p) at 1. rewrite startsWith_app. reflexivity.
  - cbn [includes]. rewrite IH. apply orb_true_r.
Qed.

Lemma endsWith_app s p : endsWith (s ++ p) p = true.
Proof. unfold endsWith. rewrite rev_app_distr. apply startsWith_app. Qed.

(** The formatter, as the code has it: no invalid character is left; the
    name starts with the index, padded to four digits at least, then [ - ]
    and the cleaned name; [.rb] occurs in it, appended at the end when it
    did not occur before. *)
Theorem formatScriptName_clean (scriptName : list N) (scriptIndex : nat) :
  let index := padStart 4 48 (Number_toString scriptIndex) in
  let body := index ++ js " - " ++ trim (replace_INVALID_CHARACTERS scriptName) in
  Forall validChar (formatScriptName scriptName scriptIndex) /\
  (4 <= length index)%nat /\
  Forall (fun c => isDigit c = true) index /\
  leadingIndex (formatScriptName scriptName scriptIndex) = scriptIndex /\
  (formatScriptName scriptName scriptIndex = body \/
   formatScriptName scriptName scriptIndex = body ++ js ".rb") /\
  includes (formatScriptName scriptName scriptIndex) (js ".rb") = true /\
  (includes body (js ".rb") = false ->
   endsWith (formatScriptName scriptName scriptIndex) (js ".rb") = true).
Proof.
  cbv zeta. split; [apply formatScriptName_valid|]. split.
  { unfold padStart. rewrite length_app, repeat_length. lia. }
  split; [apply padStart_zero_digits, Number_toString_digits|].
  split; [apply leadingIndex_formatScriptName|].
  rewrite formatScriptName_shape. cbv zeta.
  destruct (includes _ (js ".rb")) eqn:E.
  - split; [left; reflexivity|]. split; [exact E|discriminate].
  - split; [right; reflexivity|]. split; [apply includes_app_r|].
    intros _. apply endsWith_app.
Qed.



Section LoaderBundleExtras.

Context (pf : platform).

(** The generator, when the backup is new: it returns when the bundle file
    is there and no call is refused; a run that returns has created the
    backup file and no other, the backup holds what the bundle file held, and
    the bundle file decodes to the loader entry alone. *)
Theorem createScriptLoaderBundle_replaces_bundle
    (bundleFile backUps scriptFolder : list N) (w : world) :
  (isFile w bundleFile = true -> (forall c, refused w c = false) ->
   exists w',
     createScriptLoaderBundle pf bundleFile backUps scriptFolder w
     = (Ok LOADER_BUNDLE_CREATED, w')) /\
  (forall r w',
     createScriptLoaderBundle pf bundleFile backUps scriptFolder w = (Ok r, w') ->
     files w !! backUpPath pf bundleFile backUps w = None ->
     r = LOADER_BUNDLE_CREATED /\
     dom (files w') ∖ dom (files w) = {[ backUpPath pf bundleFile backUps w ]} /\
     files w' !! backUpPath pf bundleFile backUps w = files w !! bundleFile /\
     (platform_ok pf -> isText pf (loaderEntryFor pf scriptFolder) ->
      readBundleFile pf bundleFile w'
      = (Ok [scriptOf (loaderEntryFor pf scriptFolder)], w'))).
Proof.
  split; [apply createScriptLoaderBundle_total|].
  intros r w' Hrun Hnew.
  pose proof (createScriptLoaderBundle_Ok pf _ _ _ _ _ _ Hrun) as (-> & b & Hb & Hfiles).
  assert (Hne : bundleFile <> backUpPath pf bundleFile backUps w) by congruence.
  split; [reflexivity|]. split; [|split].
  - rewrite (createScriptLoaderBundle_files pf _ _ _ _ _ _ Hrun).
    apply set_eq. intros p.
    rewrite elem_of_difference, elem_of_union, elem_of_singleton, !elem_of_dom.
    split.
    + intros [[-> | H] Hnot]; [reflexivity|contradiction].
    + intros ->. split; [left; reflexivity|]. rewrite Hnew. intros [? H]. discriminate H.
  - rewrite Hfiles, lookup_insert_ne, lookup_insert_eq, Hb by exact Hne. reflexivity.
  - intros Hok Htext. eapply createScriptLoaderBundle_decodes; eassumption.
Qed.

End LoaderBundleExtras.

Lemma createScriptLoaderBundle_replaces_bundle_witness :
  let w := worldWith [mainEntry; utilEntry] in
  let w' := snd (createScriptLoaderBundle Reference.pf bundlePath (js "Backups")
                   (js "Scripts") w) in
  LOADER_BUNDLE_CREATED = LOADER_BUNDLE_CREATED /\
  dom (files w') ∖ dom (files w)
  = {[ backUpPath Reference.pf bundlePath (js "Backups") w ]} /\
  files w' !! backUpPath Reference.pf bundlePath (js "Backups") w = files w !! bundlePath /\
  (platform_ok Reference.pf -> isText Reference.pf (loaderEntryFor Reference.pf (js "Scripts")) ->
   readBundleFile Reference.pf bundlePath w'
   = (Ok [scriptOf (loaderEntryFor Reference.pf (js "Scripts"))], w')).
Proof.
  apply (proj2 (createScriptLoaderBundle_replaces_bundle Reference.pf bundlePath
                  (js "Backups") (js "Scripts") (worldWith [mainEntry; utilEntry]))
           LOADER_BUNDLE_CREATED).
  - vm_compute. reflexivity.
  - vm_compute. reflexivity.
Defined.

Lemma createScriptLoaderBundle_backup_first_witness :
  createScriptLoaderBundle Reference.pf bundlePath (js "Backups") (js "Scripts") emptyWorld
  = (Throw (NotFoundError bundlePath), emptyWorld).
Proof.
  apply (proj1 (createScriptLoaderBundle_backup_first Reference.pf bundlePath
                  (js "Backups") (js "Scripts") emptyWorld)).
  vm_compute. reflexivity.
Defined.

(** ** The encoding pragma *)

Lemma includes_app_l p s : includes (p ++ s) p = true.
Proof.
  destruct p as [|c p]; [destruct s; reflexivity|].
  cbn [app includes]. change (c :: p ++ s) with ((c :: p) ++ s).
  rewrite startsWith_app. reflexivity.
Qed.

(** The pragma is in every processed code, the code itself is the end of
    it, and processing a second time changes nothing. *)
Theorem processScriptCode_idempotent (scriptCode : list N) :
  includes (processScriptCode scriptCode) ENCODING_PRAGMA = true /\
  endsWith (processScriptCode scriptCode) scriptCode = true /\
  processScriptCode (processScriptCode scriptCode) = processScriptCode scriptCode.
Proof.
  assert (Hrun : forall c,
    processScriptCode c
    = if includes c ENCODING_PRAGMA then c else ENCODING_PRAGMA ++ [10] ++ c).
  { intros c. unfold processScriptCode. destruct (includes c _); reflexivity. }
  rewrite (Hrun scriptCode).
  destruct (includes scriptCode ENCODING_PRAGMA) eqn:E.
  - split; [exact E|]. split; [apply (endsWith_app [] scriptCode)|].
    rewrite Hrun, E. reflexivity.
  - split; [apply includes_app_l|]. split.
    + rewrite app_assoc. apply endsWith_app.
    + rewrite Hrun, includes_app_l. reflexivity.
Qed.

(** ** Deformatting a plain file name *)

Lemma basename_app dir base :
  Forall (fun c => isSeparator c = false) base ->
  basename (dir ++ 47 :: base) = base.
Proof.
  intros Hbase. unfold basename.
  assert (H : forall acc, basename_from acc (dir ++ 47 :: base) = base).
  { induction dir as [|c dir IH]; intros acc.
    - cbn. apply basename_from_no_separator, Hbase.
    - cbn [app basename_from]. destruct (isSeparator c); apply IH. }
  apply H.
Qed.

Lemma isRbExtension_no_separator ext :
  isRbExtension ext = true -> Forall (fun c => isSeparator c = false) ext.
Proof.
  destruct ext as [|d [|r [|b [|x s]]]]; cbn; try discriminate.
  intros H. apply andb_true_iff in H as [H Hb]. apply andb_true_iff in H as [Hd Hr].
  apply N.eqb_eq in Hd. subst d.
  apply orb_true_iff in Hr, Hb.
  repeat constructor.
  - destruct Hr as [Hr|Hr]; apply N.eqb_eq in Hr; subst r; reflexivity.
  - destruct Hb as [Hb|Hb]; apply N.eqb_eq in Hb; subst b; reflexivity.
Qed.

(** On a stem that does not start with a digit, followed by the extension,
    the pattern matches at the start, without its optional prefix, and the
    group captures the stem. *)
Lemma exec_DEFORMAT_SCRIPT_NAME_plain stem ext :
  Forall (fun c => isLineTerminator c = false) stem ->
  match stem with d :: _ => isDigit d = false | [] => True end ->
  isRbExtension ext = true ->
  exec DEFORMAT_SCRIPT_NAME (stem ++ ext) = Some (Some stem).
Proof.
  intros Hstem Hhead Hext.
  assert (Hmatch :
    rmatch DEFORMAT_SCRIPT_NAME (stem ++ ext) None (fun s' c' => Some (s', c'))
    = Some ([], Some stem)).
  { pose proof (rmatch_capture stem ext None Hstem Hext) as Hcap.
    destruct (stem ++ ext) as [|d s] eqn:E.
    - apply isRbExtension_length in Hext. apply (f_equal length) in E.
      rewrite length_app in E. cbn in E. lia.
    - rewrite rmatch_DEFORMAT_SCRIPT_NAME. cbv zeta.
      assert (Hd : isDigit d = false).
      { destruct stem as [|d' stem'].
        - cbn in E. destruct ext as [|x [|r [|b [|y t]]]]; try discriminate Hext.
          inversion E; subst. cbn in Hext.
          destruct (d =? 46) eqn:Ed; [|discriminate Hext].
          apply N.eqb_eq in Ed. subst d. reflexivity.
        - inversion E; subst. exact Hhead. }
      rewrite Hd. cbn [orElse]. exact Hcap. }
  destruct (stem ++ ext) as [|d s]; cbn [exec]; rewrite Hmatch; reflexivity.
Qed.

(** A script file with a plain name, in whatever folder: deformatting gives
    the name without the extension, whatever the case of the extension. *)
Theorem deformatScriptName_plain (dir stem ext : list N) :
  plainStem stem ->
  isRbExtension ext = true ->
  deformatScriptName (stem ++ ext) = stem /\
  deformatScriptName (dir ++ js "/" ++ stem ++ ext) = stem.
Proof.
  intros (Hsep & Hterm & Hhead) Hext.
  assert (Hbase : Forall (fun c => isSeparator c = false) (stem ++ ext)).
  { apply Forall_app. split; [exact Hsep|apply isRbExtension_no_separator, Hext]. }
  unfold deformatScriptName.
  change (dir ++ js "/" ++ stem ++ ext) with (dir ++ 47 :: (stem ++ ext)).
  rewrite (basename_app dir _ Hbase), (basename_no_separator _ Hbase).
  rewrite (exec_DEFORMAT_SCRIPT_NAME_plain stem ext Hterm Hhead Hext).
  split; reflexivity.
Qed.

Lemma deformatScriptName_plain_witness :
  deformatScriptName (js "Game_Actor.RB") = js "Game_Actor" /\
  deformatScriptName (js "Scripts/Battle" ++ js "/" ++ js "Game_Actor.RB") = js "Game_Actor".
Proof.
  apply (deformatScriptName_plain (js "Scripts/Battle") (js "Game_Actor") (js ".RB")).
  - repeat split; repeat constructor.
  - reflexivity.
Defined.

(** ** The date in a backup name *)

Lemma digitsValue_Number_toString n : digitsValue (Number_toString n) = n.
Proof.
  unfold digitsValue, Number_toString. rewrite fold_digits_uint. apply Unsigned.of_to.
Qed.

Lemma digitsValue_pad2 n : digitsValue (pad2 n) = n.
Proof.
  unfold pad2, padStart, digitsValue. rewrite fold_digits_zeros.
  apply digitsValue_Number_toString.
Qed.

Lemma pad2_digits n : Forall (fun c => isDigit c = true) (pad2 n).
Proof. apply padStart_zero_digits, Number_toString_digits. Qed.

(** Two texts that start with digits and go on with a character that is no
    digit: the digits are the same and the rests are. *)
Lemma digits_app_inj a b c d r s :
  Forall (fun x => isDigit x = true) a ->
  Forall (fun x => isDigit x = true) b ->
  isDigit c = false -> isDigit d = false ->
  a ++ c :: r = b ++ d :: s -> a = b /\ c :: r = d :: s.
Proof.
  intros Ha. revert b. induction Ha as [|x a Hx _ IH]; intros b Hb Hc Hd Heq.
  - destruct b as [|y b]; [split; [reflexivity|exact Heq]|].
    inversion Hb; subst. cbn in Heq. inversion Heq; subst. congruence.
  - destruct b as [|y b].
    + cbn in Heq. inversion Heq; subst. congruence.
    + inversion Hb; subst. cbn in Heq. inversion Heq; subst.
      destruct (IH b) as [-> Hrest]; try assumption. split; [reflexivity|exact Hrest].
Qed.

Lemma dateText_inj d1 d2 : dateText d1 = dateText d2 -> d1 = d2.
Proof.
  destruct d1 as [y1 mo1 da1 h1 mi1 s1], d2 as [y2 mo2 da2 h2 mi2 s2].
  unfold dateText. cbn [getFullYear getMonth getDate getHours getMinutes getSeconds].
  change (js "-") with [45]. change (js "_") with [95]. change (js ".") with [46].
  cbn [app]. intros H.
  apply digits_app_inj in H as [Hy H];
    [|apply Number_toString_digits|apply Number_toString_digits|reflexivity..].
  inversion H as [H']. clear H.
  apply digits_app_inj in H' as [Hmo H]; [|apply pad2_digits|apply pad2_digits|reflexivity..].
  inversion H as [H']. clear H.
  apply digits_app_inj in H' as [Hda H]; [|apply pad2_digits|apply pad2_digits|reflexivity..].
  inversion H as [H']. clear H.
  apply digits_app_inj in H' as [Hh H]; [|apply pad2_digits|apply pad2_digits|reflexivity..].
  inversion H as [H']. clear H.
  apply digits_app_inj in H' as [Hmi H]; [|apply pad2_digits|apply pad2_digits|reflexivity..].
  inversion H as [Hs]. clear H.
  apply (f_equal digitsValue) in Hy, Hmo, Hda, Hh, Hmi, Hs.
  rewrite !digitsValue_Number_toString in Hy.
  rewrite !digitsValue_pad2 in Hmo, Hda, Hh, Hmi, Hs.
  f_equal; lia.
Qed.

Lemma dateText_valid d : Forall validChar (dateText d).
Proof.
  assert (Hdigits : forall s, Forall (fun c => isDigit c = true) s -> Forall validChar s).
  { intros s Hs. eapply Forall_impl; [exact Hs|]. intros c. apply isDigit_valid. }
  assert (Hsep : forall c s, validChar c -> Forall validChar s -> Forall validChar ([c] ++ s)).
  { intros c s Hc Hs. constructor; assumption. }
  unfold dateText.
  change (js "-") with [45]. change (js "_") with [95]. change (js ".") with [46].
  apply Forall_app; split; [apply Hdigits, Number_toString_digits|].
  apply Hsep; [reflexivity|].
  apply Forall_app; split; [apply Hdigits, pad2_digits|]. apply Hsep; [reflexivity|].
  apply Forall_app; split; [apply Hdigits, pad2_digits|]. apply Hsep; [reflexivity|].
  apply Forall_app; split; [apply Hdigits, pad2_digits|]. apply Hsep; [reflexivity|].
  apply Forall_app; split; [apply Hdigits, pad2_digits|]. apply Hsep; [reflexivity|].
  apply Hdigits, pad2_digits.
Qed.

(** The text of the current date has no character that is invalid in a file
    name, and it tells the date: two dates with the same text are the same
    date, second for second. *)
Theorem currentDate_tells_the_date (w1 w2 : world) :
  (exists text, currentDate w1 = (Ok text, w1) /\ Forall validChar text) /\
  (fst (currentDate w1) = fst (currentDate w2) -> clock w1 = clock w2).
Proof.
  split.
  - exists (dateText (clock w1)). split; [apply currentDate_run|apply dateText_valid].
  - rewrite !currentDate_run. cbn [fst]. intros H. inversion H as [H'].
    apply dateText_inj, H'.
Qed.

Section BackUpNames.

Context (pf : platform).


End BackUpNames.

(** ** Reading a bundle *)

Section ReadingFacts.

Context (pf : platform).




End ReadingFacts.


(** ** After the loader bundle *)

Section AfterLoader.

Context (pf : platform).

(** Once the loader bundle has been written, the check answers that the
    scripts are extracted, and a further extraction does nothing. *)
Theorem extractScripts_after_loader
    (bundleFile backUps scriptFolder target : list N) (w w' : world) (r : Z) :
  platform_ok pf ->
  createScriptLoaderBundle pf bundleFile backUps scriptFolder w = (Ok r, w') ->
  checkExtractedScripts pf bundleFile w' = (Ok SCRIPTS_EXTRACTED, w') /\
  extractScripts pf bundleFile target w' = (Ok SCRIPTS_NOT_EXTRACTED, w').
Proof.
  intros Hok Hrun.
  apply createScriptLoaderBundle_Ok in Hrun as (_ & b & _ & Hfiles).
  set (e := loaderEntryFor pf scriptFolder) in *.
  set (s := {| section := JNumber LOADER_SCRIPT_SECTION;
               name := TextDecoder_decode pf (utf8_encode pf (entry_name e));
               code := utf8_toString pf (utf8_encode pf (entry_code e)) |}).
  assert (Hread : readBundleFile pf bundleFile w' = (Ok [s], w')).
  { unfold readBundleFile. rewrite bind_run. unfold readFileSync.
    rewrite Hfiles, lookup_insert_eq. rewrite bind_run. unfold encodeBundle, of_option.
    rewrite (load_dump pf Hok). cbn [binaryView List.map rowOf].
    rewrite ret_run. cbn [foldM]. rewrite bind_run. cbn [decodeRow]. rewrite bind_run.
    unfold of_option. rewrite (inflate_deflate pf Hok). reflexivity. }
  split.
  - unfold checkExtractedScripts. rewrite (bind_ok _ _ _ _ _ Hread). reflexivity.
  - unfold extractScripts. rewrite (bind_ok _ _ _ _ _ Hread). reflexivity.
Qed.

End AfterLoader.

Lemma extractScripts_after_loader_witness :
  let w' := snd (createScriptLoaderBundle Reference.pf bundlePath (js "Backups")
                   (js "Scripts") (worldWith [mainEntry; utilEntry])) in
  checkExtractedScripts Reference.pf bundlePath w' = (Ok SCRIPTS_EXTRACTED, w') /\
  extractScripts Reference.pf bundlePath (js "Scripts") w' = (Ok SCRIPTS_NOT_EXTRACTED, w').
Proof.
  apply (extractScripts_after_loader Reference.pf bundlePath (js "Backups") (js "Scripts")
           (js "Scripts") (worldWith [mainEntry; utilEntry]) _ LOADER_BUNDLE_CREATED).
  - exact reference_ok.
  - vm_compute. reflexivity.
Defined.

(** ** An extraction that is cut short *)

Section ExtractionRuns.

Context (pf : platform).

Lemma extractLoop_run scriptFolder entries :
  forall i w r w',
    extractLoop pf scriptFolder i (List.map scriptOf entries) w = (r, w') ->
    exists done rest,
      List.map (fileOf pf scriptFolder) (toExtract i entries) = done ++ rest /\
      ((r = Ok () /\ rest = [] /\ w' = applyWrites done w) \/
       (exists f rest',
          rest = f :: rest' /\ r = Throw (SystemError (WriteFile f.1 f.2)) /\
          w' = log (WriteFile f.1 f.2) false (applyWrites done w))).
Proof.
  induction entries as [|e entries IH]; intros i w r w' H.
  - cbn in H. inversion H; subst. exists [], []. split; [reflexivity|]. left. auto.
  - cbn [List.map extractLoop] in H. rewrite toExtract_cons, bind_run in *.
    change (isLoaderScript (section (scriptOf e))) with (isLoaderEntry e) in H.
    destruct (isLoaderEntry e).
    + rewrite ret_run in H. apply IH, H.
    + rewrite writeFileSync_run in H. cbn [List.map].
      set (f := fileOf pf scriptFolder (i, e)).
      change (pathResolve_join pf scriptFolder (formatScriptName (name (scriptOf e)) i))
        with f.1 in H.
      change (utf8_encode pf (processScriptCode (code (scriptOf e)))) with f.2 in H.
      destruct (refused w (WriteFile f.1 f.2)).
      * inversion H; subst. exists [], (f :: List.map (fileOf pf scriptFolder)
                                              (toExtract (S i) entries)).
        split; [reflexivity|]. right. eexists _, _. split; [reflexivity|]. auto.
      * change (applyWrite w (f.1, f.2)) with (applyWrite w f) in H.
        apply IH in H as (done & rest & Hall & Hcase).
        exists (f :: done), rest. split; [cbn; rewrite Hall; reflexivity|].
        exact Hcase.
Qed.

Lemma createScriptFolder_run scriptFolder w r w1 :
  createScriptFolder scriptFolder w = (r, w1) ->
  files w1 = files w /\
  ((r = Ok () /\ exists evs, trace w1 = trace w ++ evs /\ writtenFiles evs = []) \/
   (r = Throw (SystemError (Mkdir scriptFolder)) /\
    trace w1 = trace w ++ [(Mkdir scriptFolder, false)])).
Proof.
  unfold createScriptFolder. rewrite bind_run. cbn [existsSync].
  destruct (isFile w scriptFolder || isDirectory w scriptFolder); cbn [negb].
  - intros H. inversion H; subst. split; [reflexivity|]. left. split; [reflexivity|].
    exists []. rewrite app_nil_r. auto.
  - unfold mkdirSync, attempt. destruct (refused w _); intros H; inversion H; subst.
    + split; [reflexivity|]. right. auto.
    + destruct (dirs w !! scriptFolder); (split; [reflexivity|]); left;
        (split; [reflexivity|]); exists [(Mkdir scriptFolder, true)]; auto.
Qed.

(** The files of an extraction are written one after the other, in the
    order of the bundle, and a call the system refuses ends the run: the
    files written before it stay, the others are not written, and the error
    of the refused call is thrown. *)
Theorem extractScripts_stops_at_refusal (bundleFile scriptFolder : list N)
    (w w' : world) (entries : list ScriptEntry) (r : result Z) :
  readBundleFile pf bundleFile w = (Ok (List.map scriptOf entries), w) ->
  extractScripts pf bundleFile scriptFolder w = (r, w') ->
  exists done rest,
    List.map (fileOf pf scriptFolder) (toExtract 0 entries) = done ++ rest /\
    writtenFiles (drop (length (trace w)) (trace w')) = done /\
    files w' = fold_left (fun m f => <[f.1 := f.2]> m) done (files w) /\
    match r with
    | Ok code =>
        rest = [] /\
        code = if existsb (fun e => negb (isLoaderEntry e)) entries
               then SCRIPTS_EXTRACTED else SCRIPTS_NOT_EXTRACTED
    | Throw e =>
        (done = [] /\ e = SystemError (Mkdir scriptFolder)) \/
        (exists f rest', rest = f :: rest' /\ e = SystemError (WriteFile f.1 f.2))
    | Unfinished => False
    end.
Proof.
  intros Hread. unfold extractScripts.
  rewrite (bind_ok _ _ _ _ _ Hread), checkValidExtraction_entries.
  destruct (existsb _ entries) eqn:E.
  - rewrite bind_run.
    destruct (createScriptFolder scriptFolder w) as [r1 w1] eqn:Hfolder.
    apply createScriptFolder_run in Hfolder as [Hfiles [[-> (evs & Htrace & Hevs)]|[-> Htrace]]].
    + rewrite bind_run.
      destruct (extractLoop pf scriptFolder 0 _ w1) as [r2 w2] eqn:Hloop.
      apply extractLoop_run in Hloop as
        (done & rest & Hall & [(-> & -> & ->)|(f & rest' & -> & -> & ->)]).
      * rewrite ret_run. intros H. inversion H; subst.
        exists done, []. split; [exact Hall|]. split; [|split; [|auto]].
        -- rewrite trace_applyWrites, Htrace, <- app_assoc, drop_app_length.
           rewrite writtenFiles_app, Hevs, writtenFiles_writes. reflexivity.
        -- rewrite files_applyWrites, Hfiles. reflexivity.
      * intros H. inversion H; subst.
        exists done, (f :: rest'). split; [exact Hall|]. split; [|split].
        -- cbn [trace log]. rewrite trace_applyWrites, Htrace, <- !app_assoc, drop_app_length.
           rewrite !writtenFiles_app, Hevs, writtenFiles_writes. cbn. apply app_nil_r.
        -- cbn [files log]. rewrite files_applyWrites, Hfiles. reflexivity.
        -- right. eauto.
    + intros H. inversion H; subst.
      exists [], (List.map (fileOf pf scriptFolder) (toExtract 0 entries)).
      split; [reflexivity|]. split; [|split; [exact Hfiles|left; auto]].
      rewrite Htrace, drop_app_length. reflexivity.
  - rewrite ret_run. intros H. inversion H; subst.
    exists [], []. rewrite (toExtract_none _ _ E), drop_all. auto.
Qed.

End ExtractionRuns.

Lemma extractScripts_stops_at_refusal_witness :
  let run := extractScripts Reference.pf bundlePath (js "Scripts") fullDisk in
  exists done rest,
    List.map (fileOf Reference.pf (js "Scripts")) (toExtract 0 [mainEntry; utilEntry])
    = done ++ rest /\
    writtenFiles (drop (length (trace fullDisk)) (trace run.2)) = done /\
    files run.2 = fold_left (fun m f => <[f.1 := f.2]> m) done (files fullDisk) /\
    match run.1 with
    | Ok code =>
        rest = [] /\
        code = if existsb (fun e => negb (isLoaderEntry e)) [mainEntry; utilEntry]
               then SCRIPTS_EXTRACTED else SCRIPTS_NOT_EXTRACTED
    | Throw e =>
        (done = [] /\ e = SystemError (Mkdir (js "Scripts"))) \/
        (exists f rest', rest = f :: rest' /\ e = SystemError (WriteFile f.1 f.2))
    | Unfinished => False
    end.
Proof.
  apply (extractScripts_stops_at_refusal Reference.pf bundlePath (js "Scripts") fullDisk).
  - vm_compute. reflexivity.
  - apply surjective_pairing.
Defined.

(** The run on the full disk: the first script is written, the second is
    refused. *)
Example extractScripts_fullDisk :
  exists w' data,
    extractScripts Reference.pf bundlePath (js "Scripts") fullDisk
    = (Throw (SystemError (WriteFile (js "Scripts/0001 - Util.rb") data)), w') /\
    List.map fst (writtenFiles (trace w')) = [js "Scripts/0000 - Main.rb"].
Proof. eexists _, _. split; vm_compute; reflexivity. Qed.

(** ** The scripts folder *)

(** A path that exists, folder or file, is left alone; after a call that
    returns the path exists, no file has changed, and a second call does
    nothing. *)
Theorem createScriptFolder_idempotent (scriptsFolderPath : list N) (w : world) :
  (isFile w scriptsFolderPath || isDirectory w scriptsFolderPath = true ->
   createScriptFolder scriptsFolderPath w = (Ok (), w)) /\
  (forall u w1,
     createScriptFolder scriptsFolderPath w = (Ok u, w1) ->
     isFile w1 scriptsFolderPath || isDirectory w1 scriptsFolderPath = true /\
     files w1 = files w /\
     createScriptFolder scriptsFolderPath w1 = (Ok (), w1)).
Proof.
  assert (Hthere : forall w0,
    isFile w0 scriptsFolderPath || isDirectory w0 scriptsFolderPath = true ->
    createScriptFolder scriptsFolderPath w0 = (Ok (), w0)).
  { intros w0 H. unfold createScriptFolder. rewrite bind_run. cbn [existsSync].
    rewrite H. reflexivity. }
  split; [apply Hthere|].
  intros u w1 Hrun.
  assert (Hnow : isFile w1 scriptsFolderPath || isDirectory w1 scriptsFolderPath = true).
  { unfold createScriptFolder in Hrun. rewrite bind_run in Hrun. cbn [existsSync] in Hrun.
    destruct (isFile w scriptsFolderPath || isDirectory w scriptsFolderPath) eqn:E;
      cbn [negb] in Hrun.
    - inversion Hrun; subst. exact E.
    - unfold mkdirSync, attempt in Hrun.
      destruct (refused w _); [discriminate Hrun|]. inversion Hrun; subst.
      apply orb_true_iff. right. unfold isDirectory. apply bool_decide_eq_true.
      destruct (dirs w !! scriptsFolderPath) eqn:Ed; cbn.
      + rewrite Ed. eauto.
      + rewrite lookup_insert_eq. eauto. }
  split; [exact Hnow|]. split.
  - apply createScriptFolder_Ok in Hrun as (Hfiles & _). exact Hfiles.
  - apply Hthere, Hnow.
Qed.

(** ** Script files *)

Section ScriptFiles.

Context (pf : platform).

Lemma isRubyScript_run (file : list N) (w : world) :
  isRubyScript pf file w
  = (Ok (isFile w file && isRbExtension (pathResolve_extname pf file)), w).
Proof.
  unfold isRubyScript. rewrite bind_run. cbn [existsSync].
  destruct (isFile w file) eqn:Efile; cbn [orb negb andb].
  - rewrite bind_run. unfold statSync_isFile. rewrite Efile. cbn [orb negb].
    reflexivity.
  - destruct (isDirectory w file) eqn:Edir; cbn [negb]; [|reflexivity].
    rewrite bind_run. unfold statSync_isFile. rewrite Efile, Edir. reflexivity.
Qed.

(** [isRubyScript] never throws and never changes anything: its answer is
    that the path, joined to the base when there is one, is a regular file
    with the extension [.rb], in whatever case.  A base that is the empty
    string counts for none. *)
Theorem isRubyScript_base (file : list N) (base : option (list N)) (w : world) :
  let path :=
    match base with
    | Some (c :: b) => pathResolve_join pf (c :: b) file
    | _ => file
    end in
  Optional.isRubyScript pf file base w
  = (Ok (isFile w path && isRbExtension (pathResolve_extname pf path)), w) /\
  Optional.isRubyScript pf file None w = isRubyScript pf file w /\
  Optional.isRubyScript pf file (Some []) w = isRubyScript pf file w.
Proof.
  cbv zeta. split; [|split; reflexivity].
  unfold Optional.isRubyScript. apply isRubyScript_run.
Qed.

End ScriptFiles.

(** ** Building a bundle *)







Section BundleRuns.

Context (pf : platform).



(** The entries of a bundle that was built are the script files of the
    listing, one for one and in its order, each named by what deformatting
    makes of the path of its file. *)
Theorem createBundleFile_names (scriptsFolder destination : list N)
    (w w' : world) (r : Z) :
  createBundleFile pf scriptsFolder destination w = (Ok r, w') ->
  exists scripts entries,
    readDirectory pf scriptsFolder (filterM (isRubyScript pf)) w = (Ok scripts, w) /\
    files w' !! destination = Some (encodeBundle pf entries) /\
    length entries = length scripts /\
    List.map entry_name entries = List.map deformatScriptName scripts.
Proof.
  intros Hrun.
  apply createBundleFile_Ok in Hrun as (_ & scripts & entries & Hlist & Hall & _ & Hfiles).
  exists scripts, entries. split; [exact Hlist|].
  split; [rewrite Hfiles; apply lookup_insert_eq|].
  split; [symmetry; eapply Forall2_length, Hall|].
  clear Hlist Hfiles.
  induction Hall as [|script e scripts entries (contents & _ & He) _ IH]; [reflexivity|].
  cbn [List.map]. rewrite IH, He. reflexivity.
Qed.

(** The limits of a build: without the scripts folder the build throws and
    nothing changes; on a folder without entries it writes a bundle of no
    entry, draws no number, and what it wrote reads back as the empty
    sequence. *)
Theorem createBundleFile_empty_folder (scriptsFolder destination : list N) (w : world) :
  (isFile w scriptsFolder || isDirectory w scriptsFolder = false ->
   createBundleFile pf scriptsFolder destination w
   = (Throw (NotFoundError scriptsFolder), w)) /\
  (dirs w !! scriptsFolder = Some [] ->
   refused w (WriteFile destination (encodeBundle pf [])) = false ->
   let w' := applyWrite w (destination, encodeBundle pf []) in
   createBundleFile pf scriptsFolder destination w = (Ok BUNDLE_CREATED, w') /\
   (platform_ok pf -> readBundleFile pf destination w' = (Ok [], w'))).
Proof.
  split.
  - intros H. unfold createBundleFile. rewrite bind_run. cbn [existsSync]. rewrite H.
    reflexivity.
  - intros Hdir Hrefused w'. split.
    + unfold createBundleFile. rewrite bind_run. cbn [existsSync].
      assert (Hthere : isDirectory w scriptsFolder = true).
      { unfold isDirectory. apply bool_decide_eq_true. rewrite Hdir. eauto. }
      rewrite Hthere, orb_true_r. cbn [negb]. rewrite bind_run.
      unfold readDirectory. rewrite bind_run. cbn [readDir]. rewrite bind_run.
      unfold readdirSync. rewrite Hdir. cbn [foldM]. rewrite ret_run.
      cbn [filterM]. rewrite ret_run, bind_run. cbn [foldM]. rewrite ret_run.
      cbv zeta. rewrite bind_run, writeFileSync_run.
      change (marshal_dump pf (JArray [])) with (encodeBundle pf []).
      rewrite Hrefused. reflexivity.
    + intros Hok. apply (readBundleFile_encoded pf w' destination [] Hok); [constructor|].
      subst w'. cbn. apply lookup_insert_eq.
Qed.

End BundleRuns.


Lemma createBundleFile_names_witness :
  let w' := snd (createBundleFile Reference.pf (js "Scripts") bundlePath scriptsWorld) in
  exists scripts entries,
    readDirectory Reference.pf (js "Scripts") (filterM (isRubyScript Reference.pf))
      scriptsWorld = (Ok scripts, scriptsWorld) /\
    files w' !! bundlePath = Some (encodeBundle Reference.pf entries) /\
    length entries = length scripts /\
    List.map entry_name entries = List.map deformatScriptName scripts.
Proof.
  apply (createBundleFile_names Reference.pf (js "Scripts") bundlePath scriptsWorld _
           BUNDLE_CREATED).
  vm_compute. reflexivity.
Defined.

Lemma createBundleFile_empty_folder_witness :
  let w' := applyWrite emptyFolderWorld (bundlePath, encodeBundle Reference.pf []) in
  createBundleFile Reference.pf (js "Scripts") bundlePath emptyFolderWorld
  = (Ok BUNDLE_CREATED, w') /\
  (platform_ok Reference.pf -> readBundleFile Reference.pf bundlePath w' = (Ok [], w')).
Proof.
  apply (proj2 (createBundleFile_empty_folder Reference.pf (js "Scripts") bundlePath
                  emptyFolderWorld)).
  - vm_compute. reflexivity.
  - reflexivity.
Defined.

(** ** The helpers of [utils/directories] *)

Lemma isDirectory_exists w p : isFile w p || isDirectory w p = false -> isDirectory w p = false.
Proof. intros H. apply orb_false_iff in H as [_ H]. exact H. Qed.

Section DirectoriesFacts.

Context (pf : platform) (nd : node).

Lemma isFolder_run (p : list N) (w : world) :
  Directories.isFolder p w = (Ok (isDirectory w p), w).
Proof.
  unfold Directories.isFolder. rewrite bind_run. cbn [existsSync].
  destruct (isFile w p || isDirectory w p) eqn:E; cbn [negb].
  - unfold statSync_isDirectory. rewrite E. reflexivity.
  - rewrite (isDirectory_exists _ _ E). reflexivity.
Qed.

Lemma isFile_run (p : list N) (w : world) :
  Directories.isFile p w = (Ok (isFile w p), w).
Proof.
  unfold Directories.isFile. rewrite bind_run. cbn [existsSync].
  destruct (isFile w p || isDirectory w p) eqn:E; cbn [negb].
  - unfold statSync_isFile. rewrite E. reflexivity.
  - apply orb_false_iff in E as [-> _]. reflexivity.
Qed.

(** The tests of the module never throw and change nothing: each asks
    whether the path exists before it asks what the path is.  [exists] takes
    an entry that is undefined, null or empty for a path that does not
    exist. *)
Theorem isRubyFile_never_throws (p : list N) (w : world) :
  Directories.isFolder p w = (Ok (isDirectory w p), w) /\
  Directories.isFile p w = (Ok (isFile w p), w) /\
  Directories.isRubyFile nd p w
  = (Ok (isFile w p && isRbExtension (path_extname nd p)), w) /\
  Directories.exists_ Directories.undefined w = (Ok false, w) /\
  Directories.exists_ Directories.null w = (Ok false, w) /\
  Directories.exists_ (Directories.path []) w = (Ok false, w) /\
  (p <> [] ->
   Directories.exists_ (Directories.path p) w = (Ok (isFile w p || isDirectory w p), w)).
Proof.
  split; [apply isFolder_run|]. split; [apply isFile_run|]. split.
  { unfold Directories.isRubyFile. rewrite bind_run, isFile_run.
    destruct (isFile w p); reflexivity. }
  repeat split. intros Hp. destruct p as [|c p]; [congruence|reflexivity].
Qed.

Lemma mkdirSync_files p w r w' : mkdirSync p w = (r, w') -> files w' = files w.
Proof.
  unfold mkdirSync, attempt. destruct (refused w _); intros H; inversion H; subst;
    [reflexivity|]. destruct (dirs w !! p); reflexivity.
Qed.

Lemma createFolder_files folderPath options w r w' :
  Directories.createFolder nd folderPath options w = (r, w') -> files w' = files w.
Proof.
  unfold Directories.createFolder. rewrite bind_run. cbn [existsSync].
  destruct (isFile w folderPath || isDirectory w folderPath) eqn:E; cbn [negb].
  - intros H. inversion H. reflexivity.
  - unfold mkdirSync_options. destruct (Directories.recursive options).
    + apply mkdirSync_files.
    + rewrite E. destruct (isDirectory w (path_dirname nd folderPath)).
      * apply mkdirSync_files.
      * intros H. inversion H. reflexivity.
Qed.

(** [createFolder] leaves a path that exists alone; after a call that
    returns the path exists, no file has changed and a second call does
    nothing; and without the recursive flag a folder whose parent is missing
    is not made. *)
Theorem createFolder_idempotent (folderPath : list N) (options : Directories.Options)
    (w : world) :
  (isFile w folderPath || isDirectory w folderPath = true ->
   Directories.createFolder nd folderPath options w = (Ok (), w)) /\
  (forall u w1,
     Directories.createFolder nd folderPath options w = (Ok u, w1) ->
     isFile w1 folderPath || isDirectory w1 folderPath = true /\
     files w1 = files w /\
     Directories.createFolder nd folderPath options w1 = (Ok (), w1)) /\
  (isFile w folderPath || isDirectory w folderPath = false ->
   Directories.recursive options = false ->
   isDirectory w (path_dirname nd folderPath) = false ->
   Directories.createFolder nd folderPath options w
   = (Throw (ENOENT folderPath), log (Mkdir folderPath) false w)).
Proof.
  assert (Hthere : forall w0,
    isFile w0 folderPath || isDirectory w0 folderPath = true ->
    Directories.createFolder nd folderPath options w0 = (Ok (), w0)).
  { intros w0 H. unfold Directories.createFolder. rewrite bind_run. cbn [existsSync].
    rewrite H. reflexivity. }
  split; [apply Hthere|]. split.
  - intros u w1 Hrun.
    assert (Hnow : isFile w1 folderPath || isDirectory w1 folderPath = true).
    { revert Hrun. unfold Directories.createFolder. rewrite bind_run. cbn [existsSync].
      destruct (isFile w folderPath || isDirectory w folderPath) eqn:E; cbn [negb].
      - intros H. inversion H; subst. exact E.
      - assert (Hmk : mkdirSync folderPath w = (Ok u, w1) ->
                  isFile w1 folderPath || isDirectory w1 folderPath = true).
        { unfold mkdirSync, attempt. destruct (refused w _); [discriminate|].
          intros H. inversion H; subst.
          apply orb_true_iff. right. unfold isDirectory. apply bool_decide_eq_true.
          destruct (dirs w !! folderPath) eqn:Ed; cbn.
          - rewrite Ed. eauto.
          - rewrite lookup_insert_eq. eauto. }
        unfold mkdirSync_options. destruct (Directories.recursive options); [exact Hmk|].
        rewrite E. destruct (isDirectory w (path_dirname nd folderPath));
          [exact Hmk|discriminate]. }
    split; [exact Hnow|]. split; [eapply createFolder_files, Hrun|apply Hthere, Hnow].
  - intros Hmissing Hflat Hparent. unfold Directories.createFolder.
    rewrite bind_run. cbn [existsSync]. rewrite Hmissing. cbn [negb].
    unfold mkdirSync_options. rewrite Hflat, Hmissing, Hparent. reflexivity.
Qed.


(** A text that was written with the default flag is read back: the file
    holds the bytes of the text, and reading gives what the transcoding makes
    of them, the text itself when it is well formed. *)
Theorem readTextFile_writeTextFile {T} (file contents : list N)
    (options : Directories.Options) (process : list N -> T) (w w' : world) (u : unit) :
  Directories.flag options = None ->
  Directories.writeTextFile pf nd file contents options w = (Ok u, w') ->
  files w' !! file = Some (utf8_encode pf contents) /\
  Directories.readTextFile pf file process w'
  = (Ok (process (utf8_toString pf (utf8_encode pf contents))), w').
Proof.
  intros Hflag. unfold Directories.writeTextFile. cbv zeta. rewrite bind_run, Hflag.
  match goal with |- context [ (if Directories.recursive options then ?a else ?b) w ] =>
    destruct ((if Directories.recursive options then a else b) w) as [[u1|e|] w1]
  end; try discriminate.
  rewrite writeFileSync_run. destruct (refused w1 _); [discriminate|].
  intros H. inversion H; subst.
  assert (Hfile : files (applyWrite w1 (file, utf8_encode pf contents)) !! file
                  = Some (utf8_encode pf contents)) by (cbn; apply lookup_insert_eq).
  split; [exact Hfile|].
  unfold Directories.readTextFile. rewrite bind_run. unfold readFileSync.
  rewrite Hfile. reflexivity.
Qed.

End DirectoriesFacts.

(** ** Listing a folder *)

Section ListingFacts.

Context (pf : platform) (nd : node).

(** One step of the walk, on an entry that is not walked into. *)
Lemma readDir_step fuel base recursive entries entry w :
  isFile w (path_join pf base entry) || isDirectory w (path_join pf base entry) = true ->
  isDirectory w (path_join pf base entry) && recursive = false ->
  (isDir ← statSync_isDirectory (path_join pf base entry);
   if isDir && recursive
   then sub ← readDir pf fuel (path_join pf base entry) recursive;
        mret ((entries ++ [path_join pf base entry]) ++ sub)
   else mret (entries ++ [path_join pf base entry])) w
  = (Ok (entries ++ [path_join pf base entry]), w).
Proof.
  intros Hthere Hflat. rewrite bind_run. unfold statSync_isDirectory.
  rewrite Hthere, Hflat. reflexivity.
Qed.

(** The walk of a folder none of whose entries is walked into: the paths of
    the entries, in the order of the listing. *)
Lemma readDir_flat fuel base recursive names w :
  dirs w !! base = Some names ->
  listed pf w base names ->
  Forall (fun n => isDirectory w (path_join pf base n) && recursive = false) names ->
  readDir pf (S fuel) base recursive w = (Ok (List.map (path_join pf base) names), w).
Proof.
  intros Hdir Hlisted Hflat. cbn [readDir]. rewrite bind_run. unfold readdirSync.
  rewrite Hdir. cbv zeta.
  assert (H : forall acc,
    foldM (fun entries entry =>
             isDir ← statSync_isDirectory (path_join pf base entry);
             if isDir && recursive
             then sub ← readDir pf fuel (path_join pf base entry) recursive;
                  mret ((entries ++ [path_join pf base entry]) ++ sub)
             else mret (entries ++ [path_join pf base entry])) acc names w
    = (Ok (acc ++ List.map (path_join pf base) names), w)).
  { clear Hdir. unfold listed in Hlisted.
    induction names as [|n names IH]; intros acc.
    - cbn. rewrite app_nil_r. reflexivity.
    - inversion Hlisted; subst. inversion Hflat; subst.
      cbn [foldM List.map]. rewrite bind_run.
      rewrite (readDir_step fuel base recursive acc n w) by assumption.
      rewrite IH by assumption. rewrite <- app_assoc. reflexivity. }
  apply (H []).
Qed.

(** Listing a folder that does not exist throws, whatever the options; a
    folder whose entries are not walked into, because they are files or
    because the listing is not recursive, is listed in the order of
    [readdir], every entry joined to the folder and, with the relative flag,
    told from the folder again, and the filter is applied to the whole list;
    and the listing of [createBundleFile] is the recursive one without the
    relative flag. *)
Theorem readDirectory_flat (base : list N) (options : Directories.Options)
    (filter : option (list (list N) -> M (list (list N)))) (w : world) :
  (dirs w !! base = None ->
   Directories.readDirectory pf nd base options filter w = (Throw (ENOENT base), w)) /\
  (forall names,
     dirs w !! base = Some names ->
     listed pf w base names ->
     Forall (fun n => isDirectory w (path_join pf base n)
                      && Directories.recursive options = false) names ->
     let paths := List.map (path_join pf base) names in
     let entries :=
       if Directories.relative options then List.map (path_relative nd base) paths
       else paths in
     Directories.readDirectory pf nd base options filter w
     = match filter with
       | Some f => f entries w
       | None => (Ok entries, w)
       end) /\
  (forall f,
     readDirectory pf base f w
     = Directories.readDirectory pf nd base
         {| Directories.recursive := true; Directories.flag := None;
            Directories.relative := false; Directories.overwrite := false |}
         (Some f) w).
Proof.
  split; [|split].
  - intros Hdir. unfold Directories.readDirectory. rewrite bind_run. cbn [readDir].
    rewrite bind_run. unfold readdirSync. rewrite Hdir. reflexivity.
  - intros names Hdir Hlisted Hflat. cbv zeta. unfold Directories.readDirectory.
    rewrite bind_run, (readDir_flat _ _ _ names) by assumption.
    destruct filter; reflexivity.
  - intros f. reflexivity.
Qed.

(** *** The bound of the walk *)

Lemma foldM_Unfinished {A B} (f : B -> A -> M B) l :
  (forall b a, readOnly (f b a)) ->
  forall b w w',
    foldM f b l w = (Unfinished, w') ->
    exists b0 a, a ∈ l /\ f b0 a w = (Unfinished, w).
Proof.
  intros Hf. induction l as [|a l IH]; intros b w w' H.
  - cbn in H. discriminate H.
  - cbn [foldM] in H. rewrite bind_run in H.
    destruct (f b a w) as [[b'|e|] w1] eqn:E.
    + apply Hf in E as Hw. subst w1. apply IH in H as (b0 & a0 & Hin & Hrun).
      exists b0, a0. split; [right; exact Hin|exact Hrun].
    + discriminate H.
    + apply Hf in E as Hw. subst w1. exists b, a. split; [left|exact E].
Qed.

Lemma readOnly_readDir_step fuel base recursive entries entry :
  readOnly (let fullPath := path_join pf base entry in
            let entries := entries ++ [fullPath] in
            isDir ← statSync_isDirectory fullPath;
            if isDir && recursive
            then sub ← readDir pf fuel fullPath recursive; mret (entries ++ sub)
            else mret entries).
Proof.
  cbv zeta. apply readOnly_bind; [apply readOnly_statSync_isDirectory|]. intros isDir.
  destruct (isDir && recursive); [|apply readOnly_ret].
  apply readOnly_bind; [apply readOnly_readDir|]. intros sub. apply readOnly_ret.
Qed.

(** A walk that uses up its bound has gone down as many folders as the
    bound counts. *)
Lemma readDir_Unfinished fuel :
  forall base recursive w w',
    readDir pf fuel base recursive w = (Unfinished, w') ->
    exists chain, length chain = fuel /\ descends pf w base chain.
Proof.
  induction fuel as [|fuel IH]; intros base recursive w w' H.
  - exists []. split; reflexivity.
  - cbn [readDir] in H. rewrite bind_run in H. unfold readdirSync in H.
    destruct (dirs w !! base) as [names|] eqn:Hdir; [|discriminate H].
    apply foldM_Unfinished in H as (entries & entry & Hin & Hstep);
      [|intros; apply readOnly_readDir_step].
    cbv zeta in Hstep. rewrite bind_run in Hstep. unfold statSync_isDirectory in Hstep.
    destruct (isFile w (path_join pf base entry) || isDirectory w (path_join pf base entry));
      [|discriminate Hstep].
    destruct (isDirectory w (path_join pf base entry)) eqn:Eisdir; cbn [andb] in Hstep;
      [|discriminate Hstep].
    destruct recursive; [|discriminate Hstep].
    rewrite bind_run in Hstep.
    destruct (readDir pf fuel (path_join pf base entry) true w) as [[sub|e|] w1] eqn:Hsub;
      try discriminate Hstep.
    apply IH in Hsub as (chain & Hlen & Hchain).
    exists (path_join pf base entry :: chain). split; [cbn; rewrite Hlen; reflexivity|].
    split; [|exact Hchain]. exists names, entry. auto.
Qed.

Lemma descends_reach w : forall chain d c,
  descends pf w d chain -> c ∈ chain -> tc (subfolder pf w) d c.
Proof.
  induction chain as [|c1 chain IH]; intros d c Hchain Hin.
  - apply elem_of_nil in Hin. destruct Hin.
  - destruct Hchain as [Hsub Hrest]. apply elem_of_cons in Hin as [->|Hin].
    + apply tc_once, Hsub.
    + eapply tc_l; [exact Hsub|]. apply IH; assumption.
Qed.

Lemma descends_NoDup w : acyclic pf w -> forall chain d, descends pf w d chain -> NoDup chain.
Proof.
  intros Hacyclic. induction chain as [|c chain IH]; intros d Hchain; [constructor|].
  destruct Hchain as [Hsub Hrest]. constructor; [|eapply IH, Hrest].
  intros Hin. apply (Hacyclic c). eapply descends_reach; eassumption.
Qed.

Lemma descends_dirs w : forall chain d c,
  descends pf w d chain -> c ∈ chain -> c ∈ dom (dirs w).
Proof.
  induction chain as [|c1 chain IH]; intros d c Hchain Hin.
  - apply elem_of_nil in Hin. destruct Hin.
  - destruct Hchain as [Hsub Hrest]. apply elem_of_cons in Hin as [->|Hin].
    + destruct Hsub as (names & n & _ & _ & _ & His). apply elem_of_dom.
      unfold isDirectory in His. apply bool_decide_eq_true in His. exact His.
    + eapply IH; eassumption.
Qed.

Lemma descends_length w chain d :
  acyclic pf w -> descends pf w d chain -> (length chain <= size (dirs w))%nat.
Proof.
  intros Hacyclic Hchain.
  rewrite <- size_dom.
  rewrite <- (size_list_to_set (C := gset (list N)) chain)
    by (eapply descends_NoDup; eassumption).
  apply subseteq_size. intros c Hc. apply elem_of_list_to_set in Hc.
  eapply descends_dirs; eassumption.
Qed.

(** In a world whose folders are trees the walk never uses up its bound: a
    listing comes to a list of entries or to an exception of the system, and
    so does the listing of the script files that [createBundleFile] makes. *)
Theorem readDirectory_returns (base : list N) (options : Directories.Options) (w : world) :
  acyclic pf w ->
  (forall r w',
     Directories.readDirectory pf nd base options None w = (r, w') -> r <> Unfinished) /\
  (forall r w',
     readDirectory pf base (filterM (isRubyScript pf)) w = (r, w') -> r <> Unfinished).
Proof.
  intros Hacyclic.
  assert (Hwalk : forall recursive r w',
    readDir pf (S (size (dirs w))) base recursive w = (r, w') -> r <> Unfinished).
  { intros recursive r w' H ->. apply readDir_Unfinished in H as (chain & Hlen & Hchain).
    pose proof (descends_length w chain base Hacyclic Hchain). lia. }
  assert (Hfilter : forall entries r w',
    filterM (isRubyScript pf) entries w = (r, w') -> r <> Unfinished).
  { induction entries as [|e entries IH]; intros r w'; cbn [filterM].
    - intros H. inversion H. discriminate.
    - rewrite bind_run, isRubyScript_run, bind_run.
      destruct (filterM (isRubyScript pf) entries w) as [[kept|err|] w1] eqn:E.
      + intros H. inversion H. discriminate.
      + intros H. inversion H. discriminate.
      + destruct (IH _ _ eq_refl eq_refl). }
  split.
  - intros r w'. unfold Directories.readDirectory. rewrite bind_run.
    destruct (readDir pf _ base _ w) as [[entries|e|] w1] eqn:E.
    + intros H. inversion H. discriminate.
    + intros H. inversion H. discriminate.
    + destruct (Hwalk _ _ _ E eq_refl).
  - intros r w'. unfold readDirectory. rewrite bind_run.
    destruct (readDir pf _ base true w) as [[entries|e|] w1] eqn:E.
    + assert (w1 = w) as -> by (eapply readOnly_readDir, E). apply Hfilter.
    + intros H. inversion H. discriminate.
    + destruct (Hwalk _ _ _ E eq_refl).
Qed.

(** *** Folders of scripts *)

Lemma filterM_isRubyScript entries w :
  filterM (fun entry => Optional.isRubyScript pf entry None) entries w
  = (Ok (List.filter (fun p => isFile w p && isRbExtension (pathResolve_extname pf p))
           entries), w).
Proof.
  induction entries as [|e entries IH]; [reflexivity|].
  cbn [filterM List.filter]. rewrite bind_run. unfold Optional.isRubyScript at 1.
  cbv zeta. rewrite isRubyScript_run, bind_run, IH, ret_run. reflexivity.
Qed.

Lemma filter_map_existsb {A B} (f : A -> B) (p : B -> bool) l :
  (length (List.filter p (List.map f l)) <=? 0)%nat = negb (existsb (fun a => p (f a)) l).
Proof.
  induction l as [|a l IH]; [reflexivity|]. cbn. destruct (p (f a)); [reflexivity|exact IH].
Qed.

(** [isRubyFolder] answers [false] for a path that is not a folder, and for
    a folder whose entries are there it tells whether one of them, directly in
    the folder, is a script file; it changes nothing. *)
Theorem isRubyFolder_has_script (folder : list N) (base : option (list N)) (w : world) :
  let path :=
    match base with
    | Some (c :: b) => pathResolve_join pf (c :: b) folder
    | _ => folder
    end in
  (isDirectory w path = false -> isRubyFolder pf nd folder base w = (Ok false, w)) /\
  (forall names,
     dirs w !! path = Some names ->
     listed pf w path names ->
     isRubyFolder pf nd folder base w
     = (Ok (existsb (fun n => isFile w (path_join pf path n)
                              && isRbExtension
                                   (pathResolve_extname pf (path_join pf path n)))
              names), w)).
Proof.
  intros path. unfold isRubyFolder. fold path. cbv zeta. split.
  - intros Hnot. rewrite bind_run. cbn [existsSync].
    destruct (isFile w path || isDirectory w path) eqn:E; cbn [negb]; [|reflexivity].
    rewrite bind_run. unfold statSync_isDirectory. rewrite E, Hnot. reflexivity.
  - intros names Hdir Hlisted.
    assert (His : isDirectory w path = true).
    { unfold isDirectory. apply bool_decide_eq_true. rewrite Hdir. eauto. }
    rewrite bind_run. cbn [existsSync]. rewrite His, orb_true_r. cbn [negb].
    rewrite bind_run. unfold statSync_isDirectory. rewrite His, orb_true_r. cbn [negb].
    rewrite bind_run.
    unfold Directories.readDirectory. rewrite bind_run.
    rewrite (readDir_flat _ path false names w Hdir Hlisted)
      by (apply Forall_forall; intros n _; apply andb_false_r).
    cbn [Directories.relative]. rewrite filterM_isRubyScript.
    rewrite filter_map_existsb. destruct (existsb _ names); reflexivity.
Qed.

(** *** The load order *)

Lemma writeSync_run fd data w :
  refused w (WriteFile fd (default [] (files w !! fd) ++ data)) = false ->
  writeSync fd data w
  = (Ok (), applyWrite w (fd, default [] (files w !! fd) ++ data)).
Proof. intros H. unfold writeSync, attempt. cbv zeta. rewrite H. reflexivity. Qed.

Lemma writeSync_lines fd scripts :
  forall held w,
    (forall c, refused w c = false) ->
    files w !! fd = Some held ->
    exists w',
      foldM (fun (_ : unit) script =>
               writeSync fd (utf8_encode pf (pathResolve_resolveRPG pf script ++ [10])))
            () scripts w = (Ok (), w') /\
      files w' = <[fd := held ++ loadOrderLines pf scripts]> (files w) /\
      dirs w' = dirs w.
Proof.
  induction scripts as [|script scripts IH]; intros held w Hrefused Hheld.
  - exists w. split; [reflexivity|]. split; [|reflexivity].
    unfold loadOrderLines. cbn. rewrite app_nil_r, insert_id by exact Hheld. reflexivity.
  - cbn [foldM]. rewrite bind_run.
    rewrite writeSync_run by apply Hrefused. rewrite Hheld. cbn [default].
    set (line := utf8_encode pf (pathResolve_resolveRPG pf script ++ [10])).
    destruct (IH (held ++ line) (applyWrite w (fd, held ++ line))) as (w' & Hrun & Hfiles & Hdirs).
    + intros c. apply Hrefused.
    + cbn. apply lookup_insert_eq.
    + exists w'. split; [exact Hrun|]. split; [|rewrite Hdirs; reflexivity].
      rewrite Hfiles. cbn [files applyWrite log set_files fst snd].
      rewrite insert_insert_eq. unfold loadOrderLines. cbn [List.map concat].
      fold line. rewrite <- app_assoc. reflexivity.
Qed.

(** The load order file: when the listing of the script files fails,
    nothing is written; otherwise, no call being refused, the file is created
    in the scripts folder, or cut to nothing when it was there, and it holds
    one line for each script file of the listing, in its order: the path of
    the script told from the scripts folder, in the form of the loader.  No
    other file changes. *)
Theorem createLoadOrderFile_lines (scriptsFolder : list N) (w : world) :
  let loadOrderPath := pathResolve_join pf scriptsFolder LOAD_ORDER_FILE_NAME in
  let listing :=
    Directories.readDirectory pf nd scriptsFolder
      {| Directories.recursive := true; Directories.flag := None;
         Directories.relative := true; Directories.overwrite := false |}
      (Some (filterM (fun entry => Optional.isRubyScript pf entry (Some scriptsFolder)))) in
  (forall e w1,
     listing w = (Throw e, w1) ->
     createLoadOrderFile pf nd scriptsFolder w = (Throw e, w1)) /\
  (forall scripts,
     listing w = (Ok scripts, w) ->
     (forall c, refused w c = false) ->
     exists w',
       createLoadOrderFile pf nd scriptsFolder w = (Ok loadOrderPath, w') /\
       files w' = <[loadOrderPath := loadOrderLines pf scripts]> (files w) /\
       dirs w' = dirs w).
Proof.
  cbv zeta. split.
  - intros e w1 Hlist. unfold createLoadOrderFile. cbv zeta.
    rewrite bind_run, Hlist. reflexivity.
  - intros scripts Hlist Hrefused. unfold createLoadOrderFile. cbv zeta.
    rewrite bind_run, Hlist, bind_run. unfold openSync_w.
    rewrite bind_run. unfold attempt at 1. rewrite Hrefused. rewrite ret_run.
    set (p := pathResolve_join pf scriptsFolder LOAD_ORDER_FILE_NAME).
    set (w0 := log (WriteFile p []) true (set_files (<[p := []]> (files w)) w)).
    destruct (writeSync_lines p scripts [] w0) as (w' & Hrun & Hfiles & Hdirs).
    + intros c. apply Hrefused.
    + cbn. apply lookup_insert_eq.
    + rewrite bind_run, Hrun. exists w'. split; [reflexivity|].
      split; [|rewrite Hdirs; reflexivity].
      rewrite Hfiles. cbn [app]. subst w0. cbn [files log set_files].
      apply insert_insert_eq.
Qed.

End ListingFacts.

(** ** Removing a file *)

Lemma bindL_run {A B} (m : L A) (f : A -> L B) s :
  (m ≫= f) s =
  match m s with
  | (Returned a, s') => f a s'
  | (Raised e, s') => (Raised e, s')
  end.
Proof. reflexivity. Qed.

Lemma retL_run {A} (a : A) s : (mret a : L A) s = (Returned a, s).
Proof. reflexivity. Qed.

Lemma set_disk_same s : set_disk (disk s) s = s.
Proof. destruct s; reflexivity. Qed.

Lemma onDisk_readOnly {A} (m : M A) (a : A) s :
  m (disk s) = (Ok a, disk s) -> onDisk m s = (Returned a, s).
Proof. intros H. unfold onDisk. rewrite H, set_disk_same. reflexivity. Qed.

(** [remove] answers [false] for a path that does not exist and changes
    nothing; it removes a regular file that is not locked and answers [true];
    and on a folder it throws: [unlinkSync] removes no folder. *)
Theorem remove_unlinks_files_only (item : list N) (s : session) :
  (isFile (disk s) item || isDirectory (disk s) item = false ->
   remove item s = (Returned false, s)) /\
  (isFile (disk s) item = true -> isDirectory (disk s) item = false ->
   locked s item = false ->
   remove item s
   = (Returned true, set_disk (set_files (delete item (files (disk s))) (disk s)) s)) /\
  (isDirectory (disk s) item = true ->
   remove item s = (Raised (UnlinkError item), s)).
Proof.
  pose proof (isFolder_run item (disk s)) as Hfolder.
  pose proof (isFile_run item (disk s)) as Hfile.
  unfold remove. rewrite bindL_run, (onDisk_readOnly _ _ _ Hfile).
  split; [|split].
  - intros H. apply orb_false_iff in H as [Hf Hd]. rewrite Hf, bindL_run.
    rewrite (onDisk_readOnly _ _ _ Hfolder), Hd. reflexivity.
  - intros Hf Hd Hl. rewrite Hf, bindL_run, retL_run, bindL_run. unfold unlinkSync.
    rewrite Hf, Hd, Hl. reflexivity.
  - intros Hd. destruct (isFile (disk s) item) eqn:Hf; rewrite bindL_run.
    + rewrite retL_run, bindL_run. unfold unlinkSync. rewrite Hf, Hd. reflexivity.
    + rewrite (onDisk_readOnly _ _ _ Hfolder), Hd, bindL_run. unfold unlinkSync.
      rewrite Hf. reflexivity.
Qed.

(** ** The logger *)

Section LoggerFacts.

Context (pf : platform).

(** A logger that holds no configuration logs nothing. *)
Lemma log_silent message errorConsole s :
  _config s = None -> Logger.log pf message errorConsole s = (Returned (), s).
Proof. intros H. unfold Logger.log. rewrite bindL_run. cbn. rewrite H. reflexivity. Qed.

(** Without a valid configuration the logger is silent: [update] with a
    configuration that is not valid lets go of the configuration held, and
    from then on no call of [log], [logInfo], [logWarning], [logError] or
    [logErrorUnknown] writes to the console or to a file, or throws. *)
Theorem Logger_silent_without_configuration (config : Configuration) (s : session) :
  isValid config = false ->
  exists s0,
    Logger.update config s = (Returned (), s0) /\
    _config s0 = None /\ disk s0 = disk s /\ stdout s0 = stdout s /\ stderr s0 = stderr s /\
    (forall messages : list (list N * bool),
       forEach (fun me => Logger.log pf me.1 me.2) messages s0 = (Returned (), s0)) /\
    (forall message,
       Logger.logInfo pf message s0 = (Returned (), s0) /\
       Logger.logWarning pf message s0 = (Returned (), s0) /\
       Logger.logError pf message s0 = (Returned (), s0)) /\
    (forall error, Logger.logErrorUnknown pf error s0 = (Returned (), s0)).
Proof.
  intros Hvalid. unfold Logger.update. rewrite Hvalid.
  eexists. split; [reflexivity|]. cbn [_config disk stdout stderr].
  do 4 (split; [reflexivity|]). split; [|split].
  - intros messages. induction messages as [|[m e] messages IH]; [reflexivity|].
    cbn [forEach]. rewrite bindL_run, log_silent by reflexivity. exact IH.
  - intros message. repeat split; apply log_silent; reflexivity.
  - intros [m|n m st|]; [apply log_silent; reflexivity..|reflexivity].
Qed.

(** What a call of [log] does with a configuration held. *)
Lemma log_run config message (errorConsole : bool) s :
  _config s = Some config ->
  let msg := logLine message in
  let printed :=
    if errorConsole
    then {| disk := disk s; locked := locked s; stdout := stdout s;
            stderr := stderr s ++ [msg]; _config := _config s |}
    else {| disk := disk s; locked := locked s; stdout := stdout s ++ [msg];
            stderr := stderr s; _config := _config s |} in
  Logger.log pf message errorConsole s =
  if configLogFile config then
    match logFilePath config with
    | Some p => onDisk (appendFileSync p (utf8_encode pf msg)) printed
    | None => (Raised UndefinedError, printed)
    end
  else (Returned (), printed).
Proof.
  intros Hheld. destruct s as [w lk out err held]. cbn in Hheld. subst held.
  cbv zeta. unfold Logger.log. rewrite bindL_run. cbn [get_config _config].
  cbv zeta. rewrite bindL_run.
  unfold Logger.FORCE_CONSOLE_LOG. rewrite orb_true_r.
  fold (logLine message).
  destruct errorConsole; cbn [console_error console_log];
    destruct (configLogFile config); try reflexivity;
    destruct (logFilePath config); reflexivity.
Qed.

(** With a configuration held, every message goes to the console, whether
    the configuration asks for the console or not and whatever becomes of the
    write to the log file: errors go to [console.error], the rest to
    [console.log], each as one line with the label of its kind; an [Error]
    is logged with its name, its message and its stack, and a value that is
    neither a string nor an [Error] is not logged at all. *)
Theorem Logger_console (config : Configuration) (message : list N) (s : session) :
  _config s = Some config ->
  (exists r s',
     Logger.logInfo pf message s = (r, s') /\
     stdout s' = stdout s ++ [logLine (js "INFO: " ++ message)] /\
     stderr s' = stderr s) /\
  (exists r s',
     Logger.logWarning pf message s = (r, s') /\
     stdout s' = stdout s ++ [logLine (js "WARNING: " ++ message)] /\
     stderr s' = stderr s) /\
  (exists r s',
     Logger.logError pf message s = (r, s') /\
     stdout s' = stdout s /\
     stderr s' = stderr s ++ [logLine (js "ERROR: " ++ message)]) /\
  Logger.logErrorUnknown pf (AString message) s = Logger.logError pf message s /\
  (forall name stack,
     exists r s',
       Logger.logErrorUnknown pf (AnError name message stack) s = (r, s') /\
       stdout s' = stdout s /\
       stderr s' = stderr s ++
         [logLine (js "ERROR: [" ++ name ++ js "] " ++ message ++ js " at: " ++
                   default (js "undefined") stack)]) /\
  Logger.logErrorUnknown pf Other s = (Returned (), s).
Proof.
  intros Hheld.
  assert (Hlog : forall m e,
    exists r s',
      Logger.log pf m e s = (r, s') /\
      stdout s' = (if e then stdout s else stdout s ++ [logLine m]) /\
      stderr s' = (if e then stderr s ++ [logLine m] else stderr s)).
  { intros m e. rewrite (log_run config m e s Hheld). cbv zeta.
    assert (Hdisk : forall p data printed,
      exists r s', onDisk (appendFileSync p data) printed = (r, s') /\
                   stdout s' = stdout printed /\ stderr s' = stderr printed).
    { intros p data printed. unfold onDisk.
      destruct (appendFileSync p data (disk printed)) as [[u|err|] w]; eauto. }
    destruct (configLogFile config); [|destruct e; eauto].
    destruct (logFilePath config) as [p|]; [|destruct e; eauto].
    destruct e;
      match goal with |- context [ onDisk _ ?printed ] =>
        destruct (Hdisk p (utf8_encode pf (logLine m)) printed) as (r & s' & H1 & H2 & H3)
      end; exists r, s'; rewrite H1, H2, H3; auto. }
  split; [apply (Hlog _ false)|]. split; [apply (Hlog _ false)|].
  split; [apply (Hlog _ true)|]. split; [reflexivity|].
  split; [|reflexivity].
  intros name stack. apply (Hlog _ true).
Qed.

(** The state of a session in which the logger writes to [p]. *)
Lemma log_appends config p message errorConsole s :
  _config s = Some config -> configLogFile config = true -> logFilePath config = Some p ->
  (forall c, refused (disk s) c = false) ->
  exists s',
    Logger.log pf message errorConsole s = (Returned (), s') /\
    _config s' = _config s /\
    (forall c, refused (disk s') c = false) /\
    files (disk s')
    = <[p := default [] (files (disk s) !! p) ++ utf8_encode pf (logLine message)]>
        (files (disk s)).
Proof.
  intros Hheld Hfile Hpath Hrefused.
  rewrite (log_run config message errorConsole s Hheld). cbv zeta.
  rewrite Hfile, Hpath. unfold onDisk, appendFileSync, attempt.
  destruct errorConsole; cbn [disk]; rewrite Hrefused; eexists;
    (split; [reflexivity|]); cbn; auto.
Qed.

(** The log file holds what was logged since [update]: with a valid
    configuration that asks for the log file, [update] removes the file of an
    earlier session, and after any sequence of messages the file holds their
    lines, in their order, and nothing else. *)
Theorem Logger_file_holds_the_messages (config : Configuration) (p : list N)
    (messages : list (list N * bool)) (s : session) :
  isValid config = true ->
  configLogFile config = true ->
  logFilePath config = Some p ->
  isDirectory (disk s) p = false ->
  locked s p = false ->
  (forall c, refused (disk s) c = false) ->
  exists s',
    (Logger.update config;; forEach (fun me => Logger.log pf me.1 me.2) messages) s
    = (Returned (), s') /\
    default [] (files (disk s') !! p)
    = concat (List.map (fun me => utf8_encode pf (logLine me.1)) messages) /\
    (messages <> [] -> isFile (disk s') p = true) /\
    (forall q, q <> p -> files (disk s') !! q = files (disk s) !! q).
Proof.
  intros Hvalid Hfile Hpath Hdir Hlocked Hrefused.
  (* the update *)
  assert (Hupdate : exists s0,
    Logger.update config s = (Returned (), s0) /\
    _config s0 = Some config /\
    (forall c, refused (disk s0) c = false) /\
    files (disk s0) = delete p (files (disk s))).
  { unfold Logger.update. rewrite Hvalid, Hfile, bindL_run. cbn [set_config].
    unfold Logger.deleteLogFile. rewrite bindL_run. cbn [get_config _config].
    cbn [mbind option_bind]. rewrite Hpath, bindL_run.
    unfold onDisk, existsSync. cbn [disk].
    destruct (isFile (disk s) p) eqn:Efile; rewrite Hdir; cbn [orb].
    - unfold unlinkSync. cbn [disk set_disk locked]. rewrite Efile, Hdir, Hlocked.
      cbn [andb negb]. eexists. split; [reflexivity|]. cbn. auto.
    - eexists. split; [reflexivity|]. cbn.
      split; [reflexivity|]. split; [exact Hrefused|].
      symmetry. apply delete_id. unfold isFile in Efile.
      apply bool_decide_eq_false in Efile. apply eq_None_not_Some, Efile. }
  destruct Hupdate as (s0 & Hrun0 & Hheld0 & Hrefused0 & Hfiles0).
  rewrite bindL_run, Hrun0.
  (* the messages *)
  assert (Hloop : forall messages s1 held,
    _config s1 = Some config -> (forall c, refused (disk s1) c = false) ->
    default [] (files (disk s1) !! p) = held ->
    exists s',
      forEach (fun me => Logger.log pf me.1 me.2) messages s1 = (Returned (), s') /\
      default [] (files (disk s') !! p)
      = held ++ concat (List.map (fun me => utf8_encode pf (logLine me.1)) messages) /\
      (isFile (disk s1) p = true \/ messages <> [] -> isFile (disk s') p = true) /\
      (forall q, q <> p -> files (disk s') !! q = files (disk s1) !! q)).
  { clear - Hfile Hpath. intros messages. induction messages as [|[m e] messages IH];
      intros s1 held Hheld Hrefused Hp.
    - exists s1. split; [reflexivity|]. cbn. rewrite app_nil_r.
      split; [exact Hp|]. split; [intros [H|H]; [exact H|congruence]|reflexivity].
    - cbn [forEach]. rewrite bindL_run. cbn [fst snd].
      destruct (log_appends config p m e s1 Hheld Hfile Hpath Hrefused)
        as (s2 & -> & Hheld2 & Hrefused2 & Hfiles2).
      rewrite Hheld in Hheld2.
      destruct (IH s2 (held ++ utf8_encode pf (logLine m)) Hheld2 Hrefused2)
        as (s' & Hrun & Hlines & Hthere & Hothers).
      { rewrite Hfiles2, lookup_insert_eq, Hp. reflexivity. }
      exists s'. split; [exact Hrun|]. split; [|split].
      + rewrite Hlines. cbn [List.map concat fst]. rewrite <- app_assoc. reflexivity.
      + intros _. apply Hthere. left. unfold isFile. apply bool_decide_eq_true.
        rewrite Hfiles2, lookup_insert_eq. eauto.
      + intros q Hq. rewrite (Hothers q Hq), Hfiles2, lookup_insert_ne by congruence.
        reflexivity. }
  destruct (Hloop messages s0 [] Hheld0 Hrefused0) as (s' & Hrun & Hlines & Hthere & Hothers).
  { rewrite Hfiles0, lookup_delete_eq. reflexivity. }
  exists s'. split; [exact Hrun|]. split; [exact Hlines|]. split.
  - intros Hne. apply Hthere. right. exact Hne.
  - intros q Hq. rewrite (Hothers q Hq), Hfiles0, lookup_delete_ne by congruence.
    reflexivity.
Qed.

End LoggerFacts.

(** ** The properties on the samples *)



(** On the reference platform a folder is shorter than the folders below
    it, so no world has a folder below itself. *)
Lemma reference_acyclic w : acyclic Reference.pf w.
Proof.
  assert (H : forall d c, tc (subfolder Reference.pf w) d c -> (length d < length c)%nat).
  { intros d c Htc. induction Htc as [d c Hsub|d c e Hsub _ IH].
    - destruct Hsub as (names & n & _ & _ & -> & _). cbn. unfold Reference.join.
      rewrite length_app. cbn. lia.
    - destruct Hsub as (names & n & _ & _ & -> & _). cbn in IH. unfold Reference.join in IH.
      rewrite length_app in IH. cbn in IH. lia. }
  intros d Hd. apply H in Hd. lia.
Qed.

Lemma readDirectory_returns_witness :
  (forall r w',
     Directories.readDirectory Reference.pf ReferenceNode.nd (js "Scripts")
       Directories.noOptions None projectWorld = (r, w') -> r <> Unfinished) /\
  (forall r w',
     readDirectory Reference.pf (js "Scripts") (filterM (isRubyScript Reference.pf))
       projectWorld = (r, w') -> r <> Unfinished).
Proof.
  apply (readDirectory_returns Reference.pf ReferenceNode.nd (js "Scripts")
           Directories.noOptions projectWorld).
  apply reference_acyclic.
Defined.

(** The listing of the sample project, recursive and relative: the folder
    comes before what it holds. *)
Example readDirectory_project :
  Directories.readDirectory Reference.pf ReferenceNode.nd (js "Scripts")
    {| Directories.recursive := true; Directories.flag := None;
       Directories.relative := true; Directories.overwrite := false |}
    None projectWorld
  = (Ok [js "0000 - Main.rb"; js "notes.txt"; js "Battle";
         js "Battle/0002 - Actor.rb"; js "0001 - Util.RB"], projectWorld).
Proof. vm_compute. reflexivity. Qed.


(** The copy onto a file that is there is refused. *)
Example copyFile_project :
  fst (Directories.copyFile ReferenceNode.nd (js "Scripts/notes.txt") (js "Game.ini")
         Directories.noOptions projectWorld)
  = Throw (SystemError (CopyFile (js "Scripts/notes.txt") (js "Game.ini"))).
Proof. vm_compute. reflexivity. Qed.

Lemma readTextFile_writeTextFile_witness :
  let w' := snd (Directories.writeTextFile Reference.pf ReferenceNode.nd
                   (js "Scripts/todo.txt") (js "to do") Directories.noOptions projectWorld) in
  files w' !! js "Scripts/todo.txt" = Some (utf8_encode Reference.pf (js "to do")) /\
  Directories.readTextFile Reference.pf (js "Scripts/todo.txt") (fun s => s) w'
  = (Ok (utf8_toString Reference.pf (utf8_encode Reference.pf (js "to do"))), w').
Proof.
  apply (readTextFile_writeTextFile Reference.pf ReferenceNode.nd (js "Scripts/todo.txt")
           (js "to do") Directories.noOptions (fun s => s) projectWorld _ tt).
  - reflexivity.
  - vm_compute. reflexivity.
Defined.

Lemma createLoadOrderFile_lines_witness :
  exists w',
    createLoadOrderFile Reference.pf ReferenceNode.nd (js "Scripts") projectWorld
    = (Ok (pathResolve_join Reference.pf (js "Scripts") LOAD_ORDER_FILE_NAME), w') /\
    files w'
    = <[pathResolve_join Reference.pf (js "Scripts") LOAD_ORDER_FILE_NAME :=
          loadOrderLines Reference.pf
            [js "0000 - Main.rb"; js "Battle/0002 - Actor.rb"; js "0001 - Util.RB"]]>
        (files projectWorld) /\
    dirs w' = dirs projectWorld.
Proof.
  apply (proj2 (createLoadOrderFile_lines Reference.pf ReferenceNode.nd (js "Scripts")
                  projectWorld)
           [js "0000 - Main.rb"; js "Battle/0002 - Actor.rb"; js "0001 - Util.RB"]).
  - vm_compute. reflexivity.
  - intros c. reflexivity.
Defined.

(** The load order of the sample project. *)
Example createLoadOrderFile_project :
  exists w',
    createLoadOrderFile Reference.pf ReferenceNode.nd (js "Scripts") projectWorld
    = (Ok (js "Scripts/load_order.txt"), w') /\
    files w' !! js "Scripts/load_order.txt"
    = Some (Reference.encode
              (js "0000 - Main.rb" ++ [10] ++ js "Battle/0002 - Actor.rb" ++ [10] ++
               js "0001 - Util.RB" ++ [10])).
Proof. eexists. split; vm_compute; reflexivity. Qed.

(** The folders of the sample project that hold scripts. *)
Example isRubyFolder_project :
  fst (isRubyFolder Reference.pf ReferenceNode.nd (js "Scripts") None projectWorld) = Ok true /\
  fst (isRubyFolder Reference.pf ReferenceNode.nd (js "Battle") (Some (js "Scripts"))
         projectWorld) = Ok true /\
  fst (isRubyFolder Reference.pf ReferenceNode.nd (js "Game.ini") None projectWorld)
  = Ok false.
Proof. repeat split; vm_compute; reflexivity. Qed.

Lemma Logger_silent_without_configuration_witness :
  exists s0,
    Logger.update {| isValid := false; configLogFile := true; configLogConsole := true;
                     logFilePath := Some (js ".rgss-script-editor.log") |} sampleSession
    = (Returned (), s0) /\
    _config s0 = None /\ disk s0 = disk sampleSession /\
    stdout s0 = stdout sampleSession /\ stderr s0 = stderr sampleSession /\
    (forall messages : list (list N * bool),
       forEach (fun me => Logger.log Reference.pf me.1 me.2) messages s0 = (Returned (), s0)) /\
    (forall message,
       Logger.logInfo Reference.pf message s0 = (Returned (), s0) /\
       Logger.logWarning Reference.pf message s0 = (Returned (), s0) /\
       Logger.logError Reference.pf message s0 = (Returned (), s0)) /\
    (forall error, Logger.logErrorUnknown Reference.pf error s0 = (Returned (), s0)).
Proof.
  apply (Logger_silent_without_configuration Reference.pf
           {| isValid := false; configLogFile := true; configLogConsole := true;
              logFilePath := Some (js ".rgss-script-editor.log") |} sampleSession).
  reflexivity.
Defined.

Lemma Logger_file_holds_the_messages_witness :
  exists s',
    (Logger.update sampleConfiguration;;
     forEach (fun me => Logger.log Reference.pf me.1 me.2)
       [(js "INFO: start", false); (js "ERROR: oops", true)]) sampleSession
    = (Returned (), s') /\
    default [] (files (disk s') !! js ".rgss-script-editor.log")
    = concat (List.map (fun me => utf8_encode Reference.pf (logLine me.1))
                [(js "INFO: start", false); (js "ERROR: oops", true)]) /\
    ([(js "INFO: start", false); (js "ERROR: oops", true)] <> [] ->
     isFile (disk s') (js ".rgss-script-editor.log") = true) /\
    (forall q, q <> js ".rgss-script-editor.log" ->
               files (disk s') !! q = files (disk sampleSession) !! q).
Proof.
  apply (Logger_file_holds_the_messages Reference.pf sampleConfiguration
           (js ".rgss-script-editor.log")
           [(js "INFO: start", false); (js "ERROR: oops", true)] sampleSession).
  - reflexivity.
  - reflexivity.
  - reflexivity.
  - vm_compute. reflexivity.
  - reflexivity.
  - intros c. reflexivity.
Defined.

Lemma Logger_console_witness :
  let s := snd (Logger.update sampleConfiguration sampleSession) in
  (exists r s',
     Logger.logInfo Reference.pf (js "start") s = (r, s') /\
     stdout s' = stdout s ++ [logLine (js "INFO: " ++ js "start")] /\
     stderr s' = stderr s) /\
  (exists r s',
     Logger.logWarning Reference.pf (js "start") s = (r, s') /\
     stdout s' = stdout s ++ [logLine (js "WARNING: " ++ js "start")] /\
     stderr s' = stderr s) /\
  (exists r s',
     Logger.logError Reference.pf (js "start") s = (r, s') /\
     stdout s' = stdout s /\
     stderr s' = stderr s ++ [logLine (js "ERROR: " ++ js "start")]) /\
  Logger.logErrorUnknown Reference.pf (AString (js "start")) s
  = Logger.logError Reference.pf (js "start") s /\
  (forall name stack,
     exists r s',
       Logger.logErrorUnknown Reference.pf (AnError name (js "start") stack) s = (r, s') /\
       stdout s' = stdout s /\
       stderr s' = stderr s ++
         [logLine (js "ERROR: [" ++ name ++ js "] " ++ js "start" ++ js " at: " ++
                   default (js "undefined") stack)]) /\
  Logger.logErrorUnknown Reference.pf Other s = (Returned (), s).
Proof.
  apply (Logger_console Reference.pf sampleConfiguration (js "start")
           (snd (Logger.update sampleConfiguration sampleSession))).
  reflexivity.
Defined.

(** A session of the logger: the file of the earlier session is gone, the
    two messages are in the file, the first on [console.log], the second on
    [console.error], although the configuration does not ask for the
    console. *)
Example Logger_session :
  let s' := snd ((Logger.update sampleConfiguration;;
                  Logger.logInfo Reference.pf (js "start");;
                  Logger.logError Reference.pf (js "oops")) sampleSession) in
  files (disk s') !! js ".rgss-script-editor.log"
  = Some (Reference.encode (js "[RGSS Script Editor] INFO: start" ++ [10] ++
                            js "[RGSS Script Editor] ERROR: oops" ++ [10])) /\
  stdout s' = [js "[RGSS Script Editor] INFO: start" ++ [10]] /\
  stderr s' = [js "[RGSS Script Editor] ERROR: oops" ++ [10]].
Proof. repeat split; vm_compute; reflexivity. Qed.

(** ** Rows of any kind *)

Section RowsFacts.

Context (pf : platform).

Lemma rowsToWrite_cons i s bundle :
  rowsToWrite i (s :: bundle)
  = if isLoaderScript (section s) then rowsToWrite (S i) bundle
    else (i, s) :: rowsToWrite (S i) bundle.
Proof. unfold rowsToWrite. cbn. destruct (isLoaderScript (section s)); reflexivity. Qed.

Lemma extractLoop_rows scriptFolder bundle :
  forall i w,
    (forall c, refused w c = false) ->
    extractLoop pf scriptFolder i bundle w
    = (Ok (), applyWrites (List.map (fileOfRow pf scriptFolder) (rowsToWrite i bundle)) w).
Proof.
  induction bundle as [|s bundle IH]; intros i w Hw; [reflexivity|].
  cbn [extractLoop]. rewrite rowsToWrite_cons, bind_run.
  destruct (isLoaderScript (section s)).
  - rewrite ret_run. apply IH, Hw.
  - rewrite writeFileSync_run, Hw. cbn [List.map applyWrites fold_left].
    apply IH. intros c. apply Hw.
Qed.

(** Whatever the rows of the bundle are: when one of them has a number
    other than the loader's for its section, a file is written for every row
    whose section is not the loader's number, also for a row whose section is
    no number at all, each numbered with its position; otherwise nothing is
    written. *)
Theorem extractScripts_writes_every_row (bundleFile scriptFolder : list N) (w : world)
    (bundle : list script) :
  readBundleFile pf bundleFile w = (Ok bundle, w) ->
  (forall c, refused w c = false) ->
  if checkValidExtraction bundle
  then exists w',
         extractScripts pf bundleFile scriptFolder w = (Ok SCRIPTS_EXTRACTED, w') /\
         writtenFiles (drop (length (trace w)) (trace w'))
         = List.map (fileOfRow pf scriptFolder) (rowsToWrite 0 bundle)
  else extractScripts pf bundleFile scriptFolder w = (Ok SCRIPTS_NOT_EXTRACTED, w).
Proof.
  intros Hread Hw. unfold extractScripts. rewrite (bind_ok _ _ _ _ _ Hread).
  destruct (checkValidExtraction bundle); [|reflexivity].
  rewrite bind_run.
  destruct (createScriptFolder_total scriptFolder w Hw) as [w1 Hfolder].
  pose proof (createScriptFolder_Ok _ _ _ _ Hfolder) as (_ & Href & evs & Htrace & Hevs).
  rewrite Hfolder, bind_run, extractLoop_rows by (intros c; rewrite Href; apply Hw).
  rewrite ret_run. eexists. split; [reflexivity|].
  rewrite trace_applyWrites, Htrace, <- app_assoc, drop_app_length.
  rewrite writtenFiles_app, Hevs, writtenFiles_writes. reflexivity.
Qed.

End RowsFacts.

Lemma extractScripts_writes_every_row_witness :
  exists w',
    extractScripts Reference.pf bundlePath (js "Scripts") oddWorld
    = (Ok SCRIPTS_EXTRACTED, w') /\
    writtenFiles (drop (length (trace oddWorld)) (trace w'))
    = List.map (fileOfRow Reference.pf (js "Scripts"))
        (rowsToWrite 0 [ {| section := JNull; name := js "Notes"; code := js "puts 0" |};
                         scriptOf mainEntry ]).
Proof.
  apply (extractScripts_writes_every_row Reference.pf bundlePath (js "Scripts") oddWorld
           [ {| section := JNull; name := js "Notes"; code := js "puts 0" |};
             scriptOf mainEntry ]).
  - vm_compute. reflexivity.
  - intros c. reflexivity.
Defined.

(** The files of the odd bundle: the row without a number is written too. *)
Example extractScripts_oddWorld :
  exists w',
    extractScripts Reference.pf bundlePath (js "Scripts") oddWorld
    = (Ok SCRIPTS_EXTRACTED, w') /\
    List.map fst (writtenFiles (trace w'))
    = [js "Scripts/0000 - Notes.rb"; js "Scripts/0001 - Main.rb"].
Proof. eexists. split; vm_compute; reflexivity. Qed.

(** ** The text of the loader *)

Lemma includes_skip a b p : includes b p = true -> includes (a ++ b) p = true.
Proof.
  induction a as [|c a IH]; intros H; [exact H|].
  cbn [app includes]. rewrite (IH H). apply orb_true_r.
Qed.

(** Taking a list of texts apart at one of them. *)
Ltac split_at x l :=
  lazymatch l with
  | x :: ?r => constr:((@nil (list N), r))
  | ?h :: ?t =>
      let p := split_at x t in
      lazymatch p with (?a, ?b) => constr:((h :: a, b)) end
  end.

Lemma loaderScript_split folder :
  exists A B,
    loaderScript folder = A ++ (js "SCRIPTS_PATH = " ++ dquote ++ folder ++ dquote) ++ B /\
    includes B (js "load_order_path = File.join(SCRIPTS_PATH, '" ++ LOAD_ORDER_FILE_NAME
                ++ js "')") = true.
Proof.
  unfold loaderScript.
  match goal with |- context [ concat ?l ] =>
    let p := split_at folder l in
    lazymatch p with (?a, ?b) =>
      change (concat l) with (concat (a ++ [folder] ++ b));
      set (xs := a); set (ys := b)
    end
  end.
  rewrite !concat_app. cbn [concat]. rewrite app_nil_r.
  assert (Hxs : concat xs = take (length (concat xs) - 16) (concat xs)
                            ++ js "SCRIPTS_PATH = " ++ dquote) by (vm_compute; reflexivity).
  assert (Hys : concat ys = dquote ++ drop 1 (concat ys)) by (vm_compute; reflexivity).
  exists (take (length (concat xs) - 16) (concat xs)), (drop 1 (concat ys)).
  split.
  - rewrite Hxs at 1. rewrite Hys at 1. rewrite <- !app_assoc. reflexivity.
  - vm_compute. reflexivity.
Qed.

(** The loader that is written knows where to look: whatever the scripts
    folder, its text sets [SCRIPTS_PATH] to the folder, between double
    quotes, and reads the load order from the file [load_order.txt] of that
    folder, the name under which [createLoadOrderFile] writes it. *)
Theorem loaderScript_names_the_folder (loaderScriptsFolder : list N) :
  includes (loaderScript loaderScriptsFolder)
    (js "SCRIPTS_PATH = " ++ dquote ++ loaderScriptsFolder ++ dquote) = true /\
  includes (loaderScript loaderScriptsFolder)
    (js "load_order_path = File.join(SCRIPTS_PATH, '" ++ LOAD_ORDER_FILE_NAME ++ js "')")
  = true.
Proof.
  destruct (loaderScript_split loaderScriptsFolder) as (A & B & -> & HB). split.
  - apply includes_skip, includes_app_l.
  - apply includes_skip, includes_skip, HB.
Qed.
